(** * analysis_to_sample: catalog fetch, sequence-file enumeration, read-pair reshaping

    A shallow embedding of [analysis_to_sample.py].  Tables are pandas
    DataFrames: an ordered list of column labels and a list of rows, each
    row holding one cell per label.  A cell is a missing value ([NaN]), an
    integer or a text.  Calls return, raise or exit ([outcome]); calls that
    query the catalog also yield the URLs they requested ([io]).  The HTTP
    transport and pandas' delimiter parser are not part of the script; they
    are the two variables of [Section Catalog].

    The statements about tables are made for well-formed tables (distinct
    labels, one cell per label in every row) in which the four labels the
    Reshaper introduces are not yet taken: outside of these pandas selects
    several columns under one label, which the positional lookup used here
    does not describe. *)

From Stdlib Require Import String Ascii List ZArith Bool Lia Permutation Sorted.
From Stdlib Require Import DecimalString OrderedTypeEx.
Import ListNotations.

Local Open Scope string_scope.
Local Open Scope list_scope.

(** ** Python string primitives *)

Module PyStr.

Definition LF : ascii := "010"%char.
Definition TAB : ascii := "009"%char.
Definition lf : string := String LF "".
Definition tab : string := String TAB "".

(** [str.isspace] on the ASCII range: HT, LF, VT, FF, CR, FS, GS, RS, US, SP. *)
Definition isspace (c : ascii) : bool :=
  let n := nat_of_ascii c in
  (((9 <=? n) && (n <=? 13)) || ((28 <=? n) && (n <=? 32)))%nat.

Fixpoint lstrip (s : string) : string :=
  match s with
  | EmptyString => EmptyString
  | String c s' => if isspace c then lstrip s' else s
  end.

Fixpoint rstrip (s : string) : string :=
  match s with
  | EmptyString => EmptyString
  | String c s' =>
      match rstrip s' with
      | EmptyString => if isspace c then EmptyString else String c EmptyString
      | r => String c r
      end
  end.

(** [s.strip()] *)
Definition strip (s : string) : string := rstrip (lstrip s).

(** [s.startswith(p)] *)
Definition startswith (p s : string) : bool := String.prefix p s.

(** [s.split(sep)] for a one-character separator: always at least one piece. *)
Fixpoint split (sep : ascii) (s : string) : list string :=
  match s with
  | EmptyString => [EmptyString]
  | String c s' =>
      if Ascii.eqb c sep then EmptyString :: split sep s'
      else match split sep s' with
           | h :: t => String c h :: t
           | [] => [String c EmptyString]
           end
  end.

(** [sep.join(pieces)] *)
Definition join (sep : string) (pieces : list string) : string :=
  String.concat sep pieces.

(** [c in s] for a character. *)
Fixpoint mem (c : ascii) (s : string) : bool :=
  match s with
  | EmptyString => false
  | String d s' => Ascii.eqb d c || mem c s'
  end.

(** [str(n)] for an integer. *)
Definition of_Z (z : Z) : string := NilZero.string_of_int (Z.to_int z).

End PyStr.

(** ** Cells, tables, outcomes *)

Inductive cell : Type :=
| NaN
| Num (z : Z)
| Str (s : string).

Definition cell_eqb (a b : cell) : bool :=
  match a, b with
  | NaN, NaN => true
  | Num x, Num y => Z.eqb x y
  | Str x, Str y => String.eqb x y
  | _, _ => false
  end.

(** [pd.notna] *)
Definition notna (c : cell) : bool :=
  match c with NaN => false | _ => true end.

(** [str(value)], also what [astype(str)] does to one cell. *)
Definition str_of (c : cell) : string :=
  match c with
  | NaN => "nan"
  | Num z => PyStr.of_Z z
  | Str s => s
  end.

Definition row : Type := list cell.

Record DataFrame : Type := mkDF { columns : list string; rows : list row }.

(** [pd.DataFrame()] *)
Definition empty_frame : DataFrame := mkDF [] [].

(** [df.empty]: some axis has length zero. *)
Definition empty (df : DataFrame) : bool :=
  match columns df, rows df with
  | [], _ => true
  | _, [] => true
  | _, _ => false
  end.

(** [KeyError] carries the labels that were not found. *)
Inductive exn : Type :=
| KeyError (labels : list string)
| IndexError
| ReaderError (msg : string).

(** What a call does: return, raise an [Exception], or leave through
    [sys.exit(code)]. *)
Inductive outcome (A : Type) : Type :=
| Ok (a : A)
| Raise (e : exn)
| Exit (code : Z).
Arguments Ok {A} a.
Arguments Raise {A} e.
Arguments Exit {A} code.

Definition bind {A B : Type} (m : outcome A) (k : A -> outcome B) : outcome B :=
  match m with
  | Ok a => k a
  | Raise e => Raise e
  | Exit c => Exit c
  end.

Declare Scope py_scope.
Delimit Scope py_scope with py.
Notation "x <- m ;; k" := (bind m (fun x => k))
  (at level 61, m at next level, right associativity) : py_scope.
Local Open Scope py_scope.

(** ** Table operations (the pandas calls the script makes) *)

Fixpoint col_index (c : string) (cols : list string) : option nat :=
  match cols with
  | [] => None
  | d :: cols' =>
      if String.eqb d c then Some 0%nat else option_map S (col_index c cols')
  end.

(** [c in df.columns] *)
Definition has_label (c : string) (cols : list string) : bool :=
  match col_index c cols with Some _ => true | None => false end.

Definition at_ (i : nat) (r : row) : cell := nth i r NaN.

Fixpoint set_nth (i : nat) (v : cell) (r : row) : row :=
  match i, r with
  | _, [] => []
  | O, _ :: r' => v :: r'
  | S i', c :: r' => c :: set_nth i' v r'
  end.

Definition take (positions : list nat) (r : row) : row :=
  map (fun i => at_ i r) positions.

(** [df[c]]: the values of one column. *)
Definition getitem (df : DataFrame) (c : string) : outcome (list cell) :=
  match col_index c (columns df) with
  | None => Raise (KeyError [c])
  | Some i => Ok (map (at_ i) (rows df))
  end.

Fixpoint mask_rows (mask : list bool) (rs : list row) : list row :=
  match mask, rs with
  | b :: mask', r :: rs' =>
      if b then r :: mask_rows mask' rs' else mask_rows mask' rs'
  | _, _ => []
  end.

(** [df[mask]] for a boolean column. *)
Definition select (df : DataFrame) (mask : list bool) : DataFrame :=
  mkDF (columns df) (mask_rows mask (rows df)).

(** [series.isin(values)], one cell. *)
Definition isin (values : list cell) (c : cell) : bool :=
  existsb (cell_eqb c) values.

Fixpoint rename_label (mapping : list (string * string)) (c : string) : string :=
  match mapping with
  | [] => c
  | (old, new) :: mapping' =>
      if String.eqb old c then new else rename_label mapping' c
  end.

(** [df.rename(columns=mapping)] *)
Definition rename (df : DataFrame) (mapping : list (string * string)) : DataFrame :=
  mkDF (map (rename_label mapping) (columns df)) (rows df).

Fixpoint locate (cs cols : list string) : option (list nat) :=
  match cs with
  | [] => Some []
  | c :: cs' =>
      match col_index c cols, locate cs' cols with
      | Some i, Some positions => Some (i :: positions)
      | _, _ => None
      end
  end.

(** [df[cs]] for a list of labels. *)
Definition getitems (df : DataFrame) (cs : list string) : outcome DataFrame :=
  match locate cs (columns df) with
  | Some positions => Ok (mkDF cs (map (take positions) (rows df)))
  | None =>
      Raise (KeyError (filter (fun c => negb (has_label c (columns df))) cs))
  end.

(** [df[c] = value] for a scalar: overwrite the column or append it. *)
Definition setitem (df : DataFrame) (c : string) (v : cell) : DataFrame :=
  match col_index c (columns df) with
  | Some i => mkDF (columns df) (map (set_nth i v) (rows df))
  | None => mkDF (columns df ++ [c]) (map (fun r => r ++ [v]) (rows df))
  end.

Fixpoint assign_rows (i : nat) (values : list cell) (rs : list row) : list row :=
  match values, rs with
  | v :: values', r :: rs' => set_nth i v r :: assign_rows i values' rs'
  | _, _ => rs
  end.

(** [df.loc[mask, c] = values], the values being those of the masked rows
    in order. *)
Fixpoint loc_assign_rows (i : nat) (mask : list bool) (values : list cell)
    (rs : list row) : list row :=
  match mask, rs with
  | b :: mask', r :: rs' =>
      if b then
        match values with
        | v :: values' => set_nth i v r :: loc_assign_rows i mask' values' rs'
        | [] => r :: rs'
        end
      else r :: loc_assign_rows i mask' values rs'
  | _, _ => rs
  end.

(** *** Ordering of cells

    pandas orders an object column numbers first, then texts by code point,
    then missing values ([na_position='last']). *)

Definition cell_leb (a b : cell) : bool :=
  match a, b with
  | Num x, Num y => Z.leb x y
  | Num _, _ => true
  | Str _, Num _ => false
  | Str x, Str y => String.leb x y
  | Str _, NaN => true
  | NaN, NaN => true
  | NaN, _ => false
  end.

Fixpoint keys_eqb (a b : list cell) : bool :=
  match a, b with
  | [], [] => true
  | x :: a', y :: b' => cell_eqb x y && keys_eqb a' b'
  | _, _ => false
  end.

(** Lexicographic order on key tuples. *)
Fixpoint lex_leb (a b : list cell) : bool :=
  match a, b with
  | [], _ => true
  | _ :: _, [] => false
  | x :: a', y :: b' => if cell_eqb x y then lex_leb a' b' else cell_leb x y
  end.

Fixpoint insert_row (ks : list nat) (x : row) (rs : list row) : list row :=
  match rs with
  | [] => [x]
  | y :: rs' =>
      if lex_leb (take ks x) (take ks y) then x :: rs
      else y :: insert_row ks x rs'
  end.

(** Stable sort of rows on the key positions [ks]. *)
Fixpoint sort_rows (ks : list nat) (rs : list row) : list row :=
  match rs with
  | [] => []
  | x :: rs' => insert_row ks x (sort_rows ks rs')
  end.

(** [df.sort_values(by)] *)
Definition sort_values (df : DataFrame) (by_ : list string) : outcome DataFrame :=
  match locate by_ (columns df) with
  | Some ks => Ok (mkDF (columns df) (sort_rows ks (rows df)))
  | None =>
      Raise (KeyError (filter (fun c => negb (has_label c (columns df))) by_))
  end.

(** *** Outer merge *)

Definition inb (c : string) (cs : list string) : bool :=
  existsb (String.eqb c) cs.

Fixpoint positions_from (p : string -> bool) (cols : list string) (i : nat)
    : list nat :=
  match cols with
  | [] => []
  | c :: cols' =>
      if p c then i :: positions_from p cols' (S i)
      else positions_from p cols' (S i)
  end.

(** A right row that matched nothing, laid out on the left labels: the key
    cells come from the right row, every other left cell is missing. *)
Definition left_of_right (on lcols rcols : list string) (r : row) : row :=
  map (fun c =>
         if inb c on then
           match col_index c rcols with Some j => at_ j r | None => NaN end
         else NaN) lcols.

Definition merge_rows (lk rk rn : list nat) (on lcols rcols : list string)
    (ls rs : list row) : list row :=
  flat_map
    (fun l =>
       match filter (fun r => keys_eqb (take lk l) (take rk r)) rs with
       | [] => [l ++ repeat NaN (length rn)]
       | ms => map (fun r => l ++ take rn r) ms
       end) ls
  ++ map (fun r => left_of_right on lcols rcols r ++ take rn r)
       (filter
          (fun r => negb (existsb (fun l => keys_eqb (take lk l) (take rk r)) ls))
          rs).

(** [pd.merge(left, right, on=on, how='outer')].  The non-key labels of the
    two sides are disjoint at the only call, so no suffix is ever added.
    Missing keys match each other; an outer merge sorts its rows on the
    join keys, rows with one key staying in left-major order. *)
Definition merge_outer (left right : DataFrame) (on : list string)
    : outcome DataFrame :=
  match locate on (columns left), locate on (columns right) with
  | Some lk, Some rk =>
      let others := fun c => negb (inb c on) in
      let rn := positions_from others (columns right) 0 in
      Ok (mkDF (columns left ++ filter others (columns right))
               (sort_rows lk
                  (merge_rows lk rk rn on (columns left) (columns right)
                     (rows left) (rows right))))
  | _, _ =>
      Raise (KeyError
               (filter (fun c => negb (has_label c (columns left))
                                 || negb (has_label c (columns right))) on))
  end.

(** *** Pattern extraction

    [series.str.extract(r'/LIT/([^/]+)/', expand=False)]: the first place,
    scanning from the left, where the literal is followed by a non-empty run
    of characters other than '/' and then by '/'; the group is that run. *)

Fixpoint strip_prefix (p s : string) : option string :=
  match p with
  | EmptyString => Some s
  | String a p' =>
      match s with
      | String b s' => if Ascii.eqb a b then strip_prefix p' s' else None
      | EmptyString => None
      end
  end.

(** The longest run of characters other than '/' at the head, and the rest. *)
Fixpoint span_segment (s : string) : string * string :=
  match s with
  | EmptyString => (EmptyString, EmptyString)
  | String c s' =>
      if Ascii.eqb c "/" then (EmptyString, s)
      else let (seg, rest) := span_segment s' in (String c seg, rest)
  end.

Definition match_here (lit s : string) : option string :=
  match strip_prefix lit s with
  | Some after =>
      match span_segment after with
      | (String c seg, String _ _) => Some (String c seg)
      | _ => None
      end
  | None => None
  end.

Fixpoint search (lit s : string) : option string :=
  match match_here lit s with
  | Some g => Some g
  | None =>
      match s with
      | EmptyString => None
      | String _ s' => search lit s'
      end
  end.

Definition str_extract (lit : string) (c : cell) : cell :=
  match c with
  | Str s => match search lit s with Some g => Str g | None => NaN end
  | _ => NaN
  end.

(** [series.replace(old, new)] on whole values, one cell. *)
Definition replace_value (old new : string) (c : cell) : cell :=
  if cell_eqb c (Str old) then Str new else c.

(** ** The Read-Pair Reshaper *)

Definition r1_cols : list string :=
  ["Lane"; "measurement_sets"; "file_modality"; "R1_path"; "R1_md5sum";
   "Flowcell ID"; "Seqspecs"].

Definition r2_cols : list string :=
  ["Lane"; "measurement_sets"; "file_modality"; "R2_path"; "R2_md5sum";
   "Flowcell ID"; "Seqspecs"].

Definition join_key : list string :=
  ["Lane"; "measurement_sets"; "file_modality"; "Flowcell ID"; "Seqspecs"].

Definition sort_key : list string :=
  ["measurement_sets"; "Lane"; "file_modality"; "Flowcell ID"].

Definition final_cols : list string :=
  ["R1_path"; "R1_md5sum"; "R2_path"; "R2_md5sum";
   "measurement_sets"; "Lane"; "file_modality";
   "Flowcell ID"; "Seqspecs"].

Definition config_lit : string := "/configuration-files/".

(** Lines 100-103: the Seqspecs column is turned into text with missing
    values as the empty text, then every non-empty value is replaced by what
    the pattern extracts from it. *)
Definition process_seqspecs (merged_df : DataFrame) : DataFrame :=
  match col_index "Seqspecs" (columns merged_df) with
  | None => merged_df
  | Some i =>
      let as_text :=
        map (fun c => replace_value "nan" "" (Str (str_of c)))
            (map (at_ i) (rows merged_df)) in
      let rows1 := assign_rows i as_text (rows merged_df) in
      let mask := map (fun c => negb (cell_eqb c (Str ""))) (map (at_ i) rows1) in
      let extracted :=
        map (str_extract config_lit) (map (at_ i) (mask_rows mask rows1)) in
      mkDF (columns merged_df) (loc_assign_rows i mask extracted rows1)
  end.

Definition rearrange_sequence_files (sequence_files : DataFrame)
    : outcome DataFrame :=
  if empty sequence_files then Ok empty_frame
  else
    read_type <- getitem sequence_files "Illumina Read Type" ;;
    let df := select sequence_files (map (isin [Str "R1"; Str "R2"]) read_type) in
    read_type1 <- getitem df "Illumina Read Type" ;;
    let r1_data := select df (map (fun c => cell_eqb c (Str "R1")) read_type1) in
    read_type2 <- getitem df "Illumina Read Type" ;;
    let r2_data := select df (map (fun c => cell_eqb c (Str "R2")) read_type2) in
    let r1_data :=
      rename r1_data [("Accession", "R1_path"); ("MD5sum", "R1_md5sum")] in
    let r2_data :=
      rename r2_data [("Accession", "R2_path"); ("MD5sum", "R2_md5sum")] in
    r1_data <- getitems r1_data r1_cols ;;
    r2_data <- getitems r2_data r2_cols ;;
    merged_df <- merge_outer r1_data r2_data join_key ;;
    let merged_df := process_seqspecs merged_df in
    merged_df <- sort_values merged_df sort_key ;;
    getitems merged_df final_cols.

(** *** Worked tables *)

Definition catalog_cols : list string :=
  ["ID"; "Accession"; "Illumina Read Type"; "Lane"; "MD5sum"; "Flowcell ID";
   "Seqspecs"; "measurement_sets"; "file_modality"].

Definition file_row (acc rt : string) (lane : Z) (md5 fc spec ms mod_ : string)
    : row :=
  [Str ("/sequence-files/" ++ acc ++ "/"); Str acc; Str rt; Num lane; Str md5;
   Str fc; Str spec; Str ms; Str mod_].

Definition spec_ref (x : string) : string :=
  "/configuration-files/" ++ x ++ "/".

Definition demo_files : DataFrame :=
  mkDF catalog_cols
    [ file_row "F2" "R2" 2 "m2" "FC1" (spec_ref "SPEC1") "MS1" "scRNA";
      file_row "F1" "R1" 2 "m1" "FC1" (spec_ref "SPEC1") "MS1" "scRNA";
      file_row "F3" "R1" 1 "m3" "FC1" (spec_ref "SPEC1") "MS1" "scRNA";
      file_row "F4" "I1" 1 "m4" "FC1" (spec_ref "SPEC1") "MS1" "scRNA";
      file_row "F5" "R2" 1 "m5" "FC1" "" "MS1" "gRNA" ].

(** [pd.concat(tables, ignore_index=True)]: the labels in order of first
    appearance, every row laid out on them, missing where its table has no
    such column. *)
Definition union_labels (tables : list DataFrame) : list string :=
  fold_left
    (fun acc t => acc ++ filter (fun c => negb (inb c acc)) (columns t))
    tables [].

Definition realign (cols : list string) (t : DataFrame) (r : row) : row :=
  map (fun c =>
         match col_index c (columns t) with
         | Some i => at_ i r
         | None => NaN
         end) cols.

Definition concat_frames (tables : list DataFrame) : DataFrame :=
  let cols := union_labels tables in
  mkDF cols (flat_map (fun t => map (realign cols t) (rows t)) tables).

(** ** Calls that talk to the catalog

    A computation that queries the catalog yields the URLs it requested, in
    order, and its outcome. *)

Definition io (A : Type) : Type := (list string * outcome A)%type.

Definition ret {A : Type} (a : A) : io A := ([], Ok a).

Definition lift {A : Type} (o : outcome A) : io A := ([], o).

Definition io_bind {A B : Type} (m : io A) (k : A -> io B) : io B :=
  match m with
  | (log, Ok a) => let (log', r) := k a in (log ++ log', r)
  | (log, Raise e) => (log, Raise e)
  | (log, Exit c) => (log, Exit c)
  end.

Notation "x <~ m ;; k" := (io_bind m (fun x => k))
  (at level 61, m at next level, right associativity) : py_scope.

Definition result_of {A : Type} (m : io A) : outcome A := snd m.

(** The text handed to the delimiter parser (lines 13-14). *)
Definition kept_lines (text : string) : list string :=
  filter (fun line => negb (PyStr.startswith "20" line))
         (PyStr.split PyStr.LF text).

Definition tsv_data (text : string) : string :=
  PyStr.join PyStr.lf (kept_lines text).

(** [df.columns = df.columns.str.strip()] *)
Definition strip_columns (df : DataFrame) : DataFrame :=
  mkDF (map PyStr.strip (columns df)) (rows df).

Definition ms_url (measurement_id : string) : string :=
  "https://api.data.igvf.org/multireport.tsv?type=SequenceFile&file_set.@id=%2Fmeasurement-sets%2F"
  ++ measurement_id ++
  "%2F&illumina_read_type=*&field=%40id&field=accession&field=illumina_read_type&field=lane&field=md5sum&field=flowcell_id&field=seqspecs".

Definition aux_url (aux_id : string) : string :=
  "https://api.data.igvf.org/multireport.tsv?type=SequenceFile&file_set.@id=%2Fauxiliary-sets%2F"
  ++ aux_id ++
  "%2F&illumina_read_type=*&field=%40id&field=accession&field=illumina_read_type&field=lane&field=md5sum&field=seqspecs".

(** [aux_set.split('/')[-2]] *)
Definition second_to_last (aux_set : string) : outcome string :=
  let parts := PyStr.split "/" aux_set in
  if (length parts <? 2)%nat then Raise IndexError
  else Ok (nth (length parts - 2) parts EmptyString).

(** [row[label]] for a row of [df.iterrows()]. *)
Definition row_get (df : DataFrame) (r : row) (label : string) : outcome cell :=
  match col_index label (columns df) with
  | Some i => Ok (at_ i r)
  | None => Raise (KeyError [label])
  end.

(** The two stamps put on every fetched table. *)
Definition stamp (df : DataFrame) (measurement_id : cell) (modality : string)
    : DataFrame :=
  setitem (setitem df "measurement_sets" measurement_id)
          "file_modality" (Str modality).

Definition aux_types : list string := ["gRNA"; "hash"].

Section Catalog.

(** [requests.get(url, auth=(access_key, secret_key))] followed by
    [raise_for_status()]: the body, or [None] for a [RequestException]. *)
Variable http_get : string -> string -> string -> option string.

(** [pd.read_csv(io.StringIO(text), sep='\t')] *)
Variable read_csv : string -> outcome DataFrame.

Definition fetch_data (url access_key secret_key : string) : io DataFrame :=
  ([url],
   match http_get url access_key secret_key with
   | Some text =>
       df <- read_csv (tsv_data text) ;;
       Ok (strip_columns df)
   | None => Exit 1
   end).

(** Fetch one table and stamp it (lines 44-47, 57-60 and 67-70). *)
Definition fetch_stamped (url : string) (measurement_id : cell)
    (modality access_key secret_key : string) : io DataFrame :=
  df <~ fetch_data url access_key secret_key ;;
  ret (stamp df measurement_id modality).

(** Lines 63-70: the loop over [zip(aux_types, aux_sets)].  [pd.notna] of
    a text is always true. *)
Fixpoint aux_loop (measurement_id : cell) (pairs : list (string * string))
    (access_key secret_key : string) (all_tables : list DataFrame)
    : io (list DataFrame) :=
  match pairs with
  | [] => ret all_tables
  | (aux_type, aux_set) :: pairs' =>
      aux_id <~ lift (second_to_last aux_set) ;;
      df <~ fetch_stamped (aux_url aux_id) measurement_id aux_type
              access_key secret_key ;;
      aux_loop measurement_id pairs' access_key secret_key (all_tables ++ [df])
  end.

(** Lines 41-70: the body of the loop over the links. *)
Definition link_step (result : DataFrame) (r : row)
    (access_key secret_key : string) (all_tables : list DataFrame)
    : io (list DataFrame) :=
  measurement_id <~ lift (row_get result r "measurement_sets") ;;
  df <~ fetch_stamped (ms_url (str_of measurement_id)) measurement_id "scRNA"
          access_key secret_key ;;
  let all_tables := all_tables ++ [df] in
  aux <~ lift (row_get result r "associated_auxiliary_sets") ;;
  if notna aux then
    let aux_sets :=
      map PyStr.strip (PyStr.split "," (PyStr.strip (str_of aux))) in
    if (length aux_sets =? 1)%nat then
      aux_id <~ lift (second_to_last (nth 0 aux_sets EmptyString)) ;;
      df <~ fetch_stamped (aux_url aux_id) measurement_id "gRNA"
              access_key secret_key ;;
      ret (all_tables ++ [df])
    else
      aux_loop measurement_id (combine aux_types aux_sets)
        access_key secret_key all_tables
  else ret all_tables.

Fixpoint links_loop (result : DataFrame) (rs : list row)
    (access_key secret_key : string) (all_tables : list DataFrame)
    : io (list DataFrame) :=
  match rs with
  | [] => ret all_tables
  | r :: rs' =>
      all_tables <~ link_step result r access_key secret_key all_tables ;;
      links_loop result rs' access_key secret_key all_tables
  end.

Definition get_sequence_files (result : DataFrame)
    (access_key secret_key : string) : io DataFrame :=
  all_tables <~ links_loop result (rows result) access_key secret_key [] ;;
  ret (match all_tables with
       | [] => empty_frame
       | _ => concat_frames all_tables
       end).

(** Steps 2 and 3 of [main]. *)
Definition enumerate_and_reshape (analysis_sets : DataFrame)
    (access_key secret_key : string) : io DataFrame :=
  sequence_data <~ get_sequence_files analysis_sets access_key secret_key ;;
  lift (rearrange_sequence_files sequence_data).

End Catalog.

(** *** A small catalog to run the model on

    [site_get] serves the bodies of a fixed list of pages; [tsv_reader] reads
    plain tab-separated text (header line first, blank lines skipped, an
    empty field missing, a decimal field a number).  They stand in for the
    transport and for pandas' parser in the worked examples only; every
    statement below holds for any transport and any parser. *)

Fixpoint site_get (site : list (string * string)) (url access_key secret_key : string)
    : option string :=
  match site with
  | [] => None
  | (u, body) :: site' =>
      if String.eqb u url then Some body
      else site_get site' url access_key secret_key
  end.

Definition tsv_field (f : string) : cell :=
  if String.eqb f "" then NaN
  else match NilZero.int_of_string f with
       | Some d => Num (Z.of_int d)
       | None => Str f
       end.

Definition tsv_reader (text : string) : outcome DataFrame :=
  match filter (fun l => negb (String.eqb l "")) (PyStr.split PyStr.LF text) with
  | [] => Raise (ReaderError "No columns to parse from file")
  | header :: lines =>
      let cols := PyStr.split PyStr.TAB header in
      Ok (mkDF cols
            (map (fun l =>
                    map (fun i => tsv_field (nth i (PyStr.split PyStr.TAB l) ""))
                        (seq 0 (length cols)))
                 lines))
  end.

Definition tsv_line (fields : list string) : string :=
  PyStr.join PyStr.tab fields.

Definition tsv_body (stamp_line : string) (lines : list (list string)) : string :=
  PyStr.join PyStr.lf (stamp_line :: map tsv_line lines).

Definition file_header : list string :=
  ["ID"; "Accession"; "Illumina Read Type"; "Lane"; "MD5sum"; "Seqspecs"].

Definition ms_header : list string :=
  ["ID"; "Accession"; "Illumina Read Type"; "Lane"; "MD5sum"; "Flowcell ID";
   "Seqspecs"].

Definition demo_site : list (string * string) :=
  [ (ms_url "IGVFDS0002",
     tsv_body "2024-05-01 10:00:00.000000"
       [ms_header;
        ["/sequence-files/F1/"; "F1"; "R1"; "1"; "m1"; "FC1"; spec_ref "S1"];
        ["/sequence-files/F2/"; "F2"; "R2"; "1"; "m2"; "FC1"; spec_ref "S1"]]);
    (aux_url "IGVFDS0003",
     tsv_body "2024-05-01 10:00:01.000000"
       [file_header;
        ["/sequence-files/G1/"; "G1"; "R1"; "1"; "g1"; spec_ref "S2"]]);
    (aux_url "IGVFDS0004",
     tsv_body "2024-05-01 10:00:02.000000"
       [file_header;
        ["/sequence-files/H1/"; "H1"; "R1"; "1"; "h1"; spec_ref "S3"]]) ].

Definition link_cols : list string :=
  ["analysis_set_id"; "measurement_sets"; "associated_auxiliary_sets"].

Definition demo_links (aux : cell) : DataFrame :=
  mkDF link_cols [[Str "IGVFDS0001"; Str "IGVFDS0002"; aux]].

(** ** Vocabulary of the statements *)

(** The cell of row [r] under label [c], missing when [df] has no such
    column. *)
Definition cell_of (df : DataFrame) (c : string) (r : row) : cell :=
  match col_index c (columns df) with
  | Some i => at_ i r
  | None => NaN
  end.

(** One label per column and one cell per label in every row. *)
Fixpoint distinct_labels (cols : list string) : bool :=
  match cols with
  | [] => true
  | c :: cols' => negb (inb c cols') && distinct_labels cols'
  end.

Definition well_formed (df : DataFrame) : bool :=
  distinct_labels (columns df)
  && forallb (fun r => (length r =? length (columns df))%nat) (rows df).

(** The labels the Reshaper introduces are not already taken. *)
Definition pivot_labels : list string :=
  ["R1_path"; "R1_md5sum"; "R2_path"; "R2_md5sum"].

Definition fresh_pivot_labels (df : DataFrame) : bool :=
  forallb (fun c => negb (has_label c (columns df))) pivot_labels.

(** The columns the Reshaper reads. *)
Definition required_cols : list string :=
  ["Illumina Read Type"; "Accession"; "MD5sum"; "Lane"; "measurement_sets";
   "file_modality"; "Flowcell ID"; "Seqspecs"].

Definition has_required (df : DataFrame) : bool :=
  forallb (fun c => has_label c (columns df)) required_cols.

Definition is_read (t : string) (df : DataFrame) (r : row) : bool :=
  cell_eqb (cell_of df "Illumina Read Type" r) (Str t).

(** (Lane, measurement_sets, file_modality, Flowcell ID, Seqspecs) *)
Definition composite_key (df : DataFrame) (r : row) : list cell :=
  map (fun c => cell_of df c r) join_key.

(** What lines 101-103 do to one Seqspecs cell. *)
Definition normalize_seqspec (c : cell) : cell :=
  let t := replace_value "nan" "" (Str (str_of c)) in
  if negb (cell_eqb t (Str "")) then str_extract config_lit t else t.

(** The output rows for a matched pair, an R1 file alone, an R2 file alone,
    laid out on [final_cols]. *)
Definition pair_row (df : DataFrame) (x y : row) : row :=
  [cell_of df "Accession" x; cell_of df "MD5sum" x;
   cell_of df "Accession" y; cell_of df "MD5sum" y;
   cell_of df "measurement_sets" x; cell_of df "Lane" x;
   cell_of df "file_modality" x; cell_of df "Flowcell ID" x;
   normalize_seqspec (cell_of df "Seqspecs" x)].

Definition r1_only_row (df : DataFrame) (x : row) : row :=
  [cell_of df "Accession" x; cell_of df "MD5sum" x; NaN; NaN;
   cell_of df "measurement_sets" x; cell_of df "Lane" x;
   cell_of df "file_modality" x; cell_of df "Flowcell ID" x;
   normalize_seqspec (cell_of df "Seqspecs" x)].

Definition r2_only_row (df : DataFrame) (y : row) : row :=
  [NaN; NaN; cell_of df "Accession" y; cell_of df "MD5sum" y;
   cell_of df "measurement_sets" y; cell_of df "Lane" y;
   cell_of df "file_modality" y; cell_of df "Flowcell ID" y;
   normalize_seqspec (cell_of df "Seqspecs" y)].

(** The Reshaper's rows once the columns have been located: [irt] is the
    position of the read type, [p1] and [p2] the positions of [r1_cols] and
    [r2_cols] after the renamings. *)
Definition side_rows (t : string) (irt : nat) (p : list nat) (rs : list row)
    : list row :=
  map (take p) (filter (fun r => cell_eqb (at_ irt r) (Str t)) rs).

Definition merged_rows (irt : nat) (p1 p2 : list nat) (rs : list row)
    : list row :=
  merge_rows [0; 1; 2; 5; 6] [0; 1; 2; 5; 6] [3; 4] join_key r1_cols r2_cols
    (side_rows "R1" irt p1 rs) (side_rows "R2" irt p2 rs).

Definition pivot_rows (irt : nat) (p1 p2 : list nat) (rs : list row)
    : list row :=
  map (take [3; 4; 7; 8; 1; 0; 2; 5; 6])
    (sort_rows [1; 0; 2; 5]
       (map (fun r => set_nth 6 (normalize_seqspec (at_ 6 r)) r)
          (sort_rows [0; 1; 2; 5; 6] (merged_rows irt p1 p2 rs)))).

Definition r1_renaming : list (string * string) :=
  [("Accession", "R1_path"); ("MD5sum", "R1_md5sum")].

Definition r2_renaming : list (string * string) :=
  [("Accession", "R2_path"); ("MD5sum", "R2_md5sum")].

(** The columns [r1_cols] and [r2_cols] come from, before the renamings. *)
Definition source_cols : list string :=
  ["Lane"; "measurement_sets"; "file_modality"; "Accession"; "MD5sum";
   "Flowcell ID"; "Seqspecs"].

Definition side_view (df : DataFrame) (r : row) : row :=
  map (fun c => cell_of df c r) source_cols.

(** The rows of one read type. *)
Definition reads (t : string) (df : DataFrame) : list row :=
  filter (is_read t df) (rows df).


(** [s] reads [pre], the literal, a non-empty segment [g] without '/',
    a '/', and [post]. *)
Definition holds_segment (lit pre g post s : string) : Prop :=
  s = (pre ++ lit ++ g ++ "/" ++ post)%string
  /\ g <> "" /\ PyStr.mem "/" g = false.

(** A Seqspecs cell that is missing, empty, or a text in which the pattern
    finds a segment. *)
Definition extractable (c : cell) : bool :=
  match c with
  | NaN => true
  | Num _ => false
  | Str s =>
      String.eqb s ""
      || match search config_lit s with Some _ => true | None => false end
  end.

(** One R1 file whose Seqspecs cell is [spec]. *)
Definition one_file (spec : cell) : DataFrame :=
  mkDF catalog_cols
    [[Str "/sequence-files/F1/"; Str "F1"; Str "R1"; Num 1; Str "m1";
      Str "FC1"; spec; Str "MS1"; Str "scRNA"]].

Definition one_pair_row (spec : cell) : row :=
  [Str "F1"; Str "m1"; NaN; NaN; Str "MS1"; Num 1; Str "scRNA"; Str "FC1"; spec].

(** Two R1 files recorded for the same lane, flowcell and seqspec. *)
Definition twin_files : DataFrame :=
  mkDF catalog_cols
    [ file_row "F1" "R1" 1 "m1" "FC1" (spec_ref "SPEC1") "MS1" "scRNA";
      file_row "F2" "R1" 1 "m2" "FC1" (spec_ref "SPEC1") "MS1" "scRNA" ].

(** No two Seqspecs cells of R1 or R2 rows are told apart before the
    normalization and identified by it. *)
Definition seqspecs_separated (df : DataFrame) : Prop :=
  forall x y, In x (rows df) -> In y (rows df) ->
    is_read "R1" df x = true \/ is_read "R2" df x = true ->
    is_read "R1" df y = true \/ is_read "R2" df y = true ->
    normalize_seqspec (cell_of df "Seqspecs" x)
    = normalize_seqspec (cell_of df "Seqspecs" y) ->
    cell_of df "Seqspecs" x = cell_of df "Seqspecs" y.

(** The lines left once the leading lines that start with "20" are gone. *)
Fixpoint drop_leading_stamps (lines : list string) : list string :=
  match lines with
  | [] => []
  | line :: lines' =>
      if PyStr.startswith "20" line then drop_leading_stamps lines' else lines
  end.

(** A catalog page whose first column is the lane: lane 20 comes first. *)
Definition lane_page : string :=
  tsv_body "2024-05-01 10:00:00.000000"
    [["Lane"; "Accession"]; ["20"; "F1"]; ["3"; "F2"]].

(** The auxiliary-set references of a link: the field as text, stripped,
    split on commas, each piece stripped (lines 51-52). *)
Definition aux_refs (aux : cell) : list string :=
  map PyStr.strip (PyStr.split "," (PyStr.strip (str_of aux))).

(** Every row has one cell per label. *)
Definition rows_fit (df : DataFrame) : Prop :=
  Forall (fun r => length r = length (columns df)) (rows df).

(** The table the small catalog serves for a URL, as [fetch_data] returns
    it. *)
Definition page_table (url : string) : DataFrame :=
  match result_of (fetch_data (site_get demo_site) tsv_reader url "key" "secret")
  with
  | Ok df => df
  | _ => empty_frame
  end.

Definition ref3 : string := "/auxiliary-sets/IGVFDS0003/".
Definition ref4 : string := "/auxiliary-sets/IGVFDS0004/".
Definition ref5 : string := "/auxiliary-sets/IGVFDS0005/".

Definition link_row (aux : cell) : row :=
  [Str "IGVFDS0001"; Str "IGVFDS0002"; aux].


(** ** The Analysis-Set Resolver and the driver *)

Definition analysis_url (analysis_set : string) : string :=
  "https://api.data.igvf.org/multireport.tsv?type=MeasurementSet&input_for=%2Fanalysis-sets%2F"
  ++ analysis_set ++
  "%2F&field=%40id&field=auxiliary_sets&field=input_for".

Definition measurement_lit : string := "/measurement-sets/".

(** An exception of the Resolver: one of [exn], or the [AttributeError]
    pandas raises when [.str] is asked of a column that holds no text. *)
Inductive failure : Type :=
| Exception (e : exn)
| AttributeError (msg : string).

(** How a stage of the driver ends. *)
Inductive ending (A : Type) : Type :=
| Returned (a : A)
| Failed (f : failure)
| Exited (code : Z).
Arguments Returned {A} a.
Arguments Failed {A} f.
Arguments Exited {A} code.

Definition of_outcome {A : Type} (o : outcome A) : ending A :=
  match o with
  | Ok a => Returned a
  | Raise e => Failed (Exception e)
  | Exit c => Exited c
  end.

Definition is_text (c : cell) : bool :=
  match c with Str _ => true | _ => false end.

(** Whether a column has the dtype of texts: it holds a text, or it is the
    empty column of a parsed table.  A non-empty column of numbers and
    missing values is numeric. *)
Definition text_column (col : list cell) : bool :=
  match col with
  | [] => true
  | _ :: _ => existsb is_text col
  end.

(** [series.str.extract(pattern)] on a whole column. *)
Definition str_extract_column (lit : string) (col : list cell)
    : ending (list cell) :=
  if text_column col then Returned (map (str_extract lit) col)
  else Failed (AttributeError "Can only use .str accessor with string values!").

Fixpoint append_cells (values : list cell) (rs : list row) : list row :=
  match values, rs with
  | v :: values', r :: rs' => (r ++ [v]) :: append_cells values' rs'
  | _, _ => rs
  end.

(** [df[c] = values] for a column of values, one per row: overwrite the
    column or append it. *)
Definition setitem_column (df : DataFrame) (c : string) (values : list cell)
    : DataFrame :=
  match col_index c (columns df) with
  | Some i => mkDF (columns df) (assign_rows i values (rows df))
  | None => mkDF (columns df ++ [c]) (append_cells values (rows df))
  end.

(** What the driver does that can be seen from outside: requests to the
    catalog and tables written to files.  The messages it prints are not
    tracked, and writing a file is taken to succeed. *)
Inductive event : Type :=
| Requested (url : string)
| Saved (path : string) (table : DataFrame).

Section Driver.

Variable http_get : string -> string -> string -> option string.
Variable read_csv : string -> outcome DataFrame.

(** Lines 22-34. *)
Definition fetch_analysis_sets (analysis_set access_key secret_key : string)
    : list string * ending DataFrame :=
  let url := analysis_url analysis_set in
  let (log, fetched) := fetch_data http_get read_csv url access_key secret_key in
  (log,
   match fetched with
   | Ok df =>
       let df := setitem df "analysis_set_id" (Str analysis_set) in
       match getitem df "ID" with
       | Ok ids =>
           match str_extract_column measurement_lit ids with
           | Returned extracted =>
               let df := setitem_column df "measurement_sets" extracted in
               of_outcome
                 (getitems
                    (rename df [("Auxiliary Sets", "associated_auxiliary_sets")])
                    ["analysis_set_id"; "measurement_sets";
                     "associated_auxiliary_sets"])
           | Failed f => Failed f
           | Exited c => Exited c
           end
       | Raise e => Failed (Exception e)
       | Exit c => Exited c
       end
   | Raise e => Failed (Exception e)
   | Exit c => Exited c
   end).

(** Lines 126-150: the three steps of [main] and its [except Exception]
    clause.  The result is what happened and the exit status, 0 for a
    normal end; [sys.exit] inside a step is not an [Exception] and keeps
    its status. *)
Definition main
    (analysis_set_id access_key secret_key : string)
    (per_sample_output analysis_set_output : string) : list event * Z :=
  let (log1, resolved) :=
    fetch_analysis_sets analysis_set_id access_key secret_key in
  match resolved with
  | Returned analysis_sets =>
      let (log2, enumerated) :=
        get_sequence_files http_get read_csv analysis_sets
          access_key secret_key in
      let seen :=
        map Requested log1 ++ [Saved analysis_set_output analysis_sets]
        ++ map Requested log2 in
      match enumerated with
      | Ok sequence_data =>
          match rearrange_sequence_files sequence_data with
          | Ok sample_file =>
              (seen ++ [Saved per_sample_output sample_file], 0%Z)
          | Raise _ => (seen, 1%Z)
          | Exit c => (seen, c)
          end
      | Raise _ => (seen, 1%Z)
      | Exit c => (seen, c)
      end
  | Failed _ => (map Requested log1, 1%Z)
  | Exited c => (map Requested log1, c)
  end.

End Driver.

(** The small catalog with the page of an analysis set. *)
Definition analysis_page : string :=
  tsv_body "2024-05-01 09:59:59.000000"
    [["ID"; "Auxiliary Sets"; "Input For"];
     ["/measurement-sets/IGVFDS0002/"; (ref3 ++ ", " ++ ref4)%string;
      "/analysis-sets/IGVFDS0001/"]].

Definition demo_catalog : list (string * string) :=
  (analysis_url "IGVFDS0001", analysis_page) :: demo_site.

(** A table of the Enumerator and the request it came from: the page
    fetched for [url], stamped; the measurement-set request goes with the
    scRNA stamp, a request for an auxiliary set with gRNA or hash. *)
Definition stamped_fetch
    (http_get : string -> string -> string -> option string)
    (read_csv : string -> outcome DataFrame)
    (access_key secret_key : string) (url : string) (t : DataFrame) : Prop :=
  exists df m label,
    result_of (fetch_data http_get read_csv url access_key secret_key) = Ok df
    /\ t = stamp df m label
    /\ ((label = "scRNA" /\ url = ms_url (str_of m))
        \/ (In label aux_types /\ exists id, url = aux_url id)).

(** The Enumerator run on the link of the small catalog. *)
Definition demo_enumeration : io DataFrame :=
  get_sequence_files (site_get demo_site) tsv_reader
    (demo_links (Str (ref3 ++ ", " ++ ref4))) "key" "secret".

Definition demo_sequence_data : DataFrame :=
  match result_of demo_enumeration with
  | Ok df => df
  | _ => empty_frame
  end.

Definition row_count (t : DataFrame) : nat := length (rows t).

(** A page of an analysis set that lists the measurement sets only. *)
Definition ids_only_page : string :=
  tsv_body "2024-05-01 10:00:00.000000"
    [["ID"]; ["/measurement-sets/IGVFDS0007/"]].

(** The failures the Enumerator can meet on a table that has its two
    columns: the IndexError of a reference without '/', the exit with
    status 1 of a failed transport, and whatever the parser itself raises
    or exits with. *)
Definition expected_failure (read_csv : string -> outcome DataFrame)
    {A : Type} (o : outcome A) : Prop :=
  match o with
  | Ok _ => True
  | Raise e => e = IndexError \/ exists text, read_csv text = Raise e
  | Exit c => c = 1%Z \/ exists text, read_csv text = Exit c
  end.

(** A catalog whose analysis set lists an auxiliary set by its bare name,
    without any '/'. *)
Definition slashless_page : string :=
  tsv_body "2024-05-01 09:59:59.000000"
    [["ID"; "Auxiliary Sets"];
     ["/measurement-sets/IGVFDS0002/"; "IGVFDS0003"]].

Definition slashless_catalog : list (string * string) :=
  (analysis_url "IGVFDS0001", slashless_page) :: demo_site.




(** * Facts about the primitives *)

(** ** Equality and order of cells *)

Lemma cell_eqb_spec (a b : cell) : reflect (a = b) (cell_eqb a b).
Proof.
  destruct a as [|x|x], b as [|y|y]; simpl; try (constructor; congruence).
  - destruct (Z.eqb_spec x y); constructor; congruence.
  - destruct (String.eqb_spec x y); constructor; congruence.
Qed.


Lemma cell_eqb_eq (a b : cell) : cell_eqb a b = true <-> a = b.
Proof. destruct (cell_eqb_spec a b); split; congruence. Qed.

Lemma keys_eqb_spec (a b : list cell) : reflect (a = b) (keys_eqb a b).
Proof.
  revert b; induction a as [|x a IH]; intros [|y b]; simpl;
    try (constructor; congruence).
  destruct (cell_eqb_spec x y); simpl.
  - destruct (IH b); constructor; congruence.
  - constructor; congruence.
Qed.

Lemma keys_eqb_eq (a b : list cell) : keys_eqb a b = true <-> a = b.
Proof. destruct (keys_eqb_spec a b); split; congruence. Qed.

Lemma keys_eqb_refl (a : list cell) : keys_eqb a a = true.
Proof. apply keys_eqb_eq; reflexivity. Qed.







(** ** Sorting *)

Section SortFacts.

Variable ks : list nat.

Lemma insert_row_perm (x : row) (rs : list row) :
  Permutation (x :: rs) (insert_row ks x rs).
Proof.
  induction rs as [|y rs IH]; simpl; [reflexivity|].
  destruct (lex_leb (take ks x) (take ks y)); [reflexivity|].
  rewrite perm_swap. now constructor.
Qed.

Lemma sort_rows_perm (rs : list row) : Permutation rs (sort_rows ks rs).
Proof.
  induction rs as [|x rs IH]; simpl; [constructor|].
  rewrite <- insert_row_perm. now constructor.
Qed.



Lemma sort_rows_In (rs : list row) (r : row) : In r (sort_rows ks rs) <-> In r rs.
Proof.
  split; apply Permutation_in;
    [symmetry|]; apply sort_rows_perm.
Qed.

End SortFacts.

(** ** Column-wise operations, row by row *)

Lemma mask_rows_map (f : cell -> bool) (i : nat) (rs : list row) :
  mask_rows (map f (map (at_ i) rs)) rs = filter (fun r => f (at_ i r)) rs.
Proof.
  induction rs as [|r rs IH]; simpl; [reflexivity|].
  rewrite IH. reflexivity.
Qed.

Lemma assign_rows_map (f : cell -> cell) (i : nat) (rs : list row) :
  assign_rows i (map f (map (at_ i) rs)) rs
  = map (fun r => set_nth i (f (at_ i r)) r) rs.
Proof.
  induction rs as [|r rs IH]; simpl; [reflexivity|].
  now rewrite IH.
Qed.

Lemma loc_assign_rows_map (p : cell -> bool) (g : cell -> cell) (i : nat)
    (rs : list row) :
  loc_assign_rows i (map p (map (at_ i) rs))
    (map g (map (at_ i) (mask_rows (map p (map (at_ i) rs)) rs))) rs
  = map (fun r => if p (at_ i r) then set_nth i (g (at_ i r)) r else r) rs.
Proof.
  induction rs as [|r rs IH]; simpl; [reflexivity|].
  destruct (p (at_ i r)); simpl; now rewrite IH.
Qed.

(** Selecting twice is selecting on the conjunction. *)
Lemma select_twice :
  forall (rs : list row) (first second : row -> bool),
    filter (fun r => first r && second r) rs = filter second (filter first rs).
Proof.
  intros rs first second. induction rs as [|r rs IH]; [reflexivity|].
  cbn [filter]. destruct (first r); cbn [andb filter]; now rewrite IH.
Qed.

Lemma at_set_nth (i : nat) (v : cell) (r : row) :
  (i < length r)%nat -> at_ i (set_nth i v r) = v.
Proof.
  revert r; induction i as [|i IH]; intros [|c r] H; simpl in *; try lia.
  - reflexivity.
  - apply IH. lia.
Qed.

Lemma set_nth_length (i : nat) (v : cell) (r : row) :
  length (set_nth i v r) = length r.
Proof.
  revert r; induction i as [|i IH]; intros [|c r]; simpl; auto.
Qed.

Lemma set_nth_set_nth (i : nat) (v w : cell) (r : row) :
  set_nth i w (set_nth i v r) = set_nth i w r.
Proof.
  revert r; induction i as [|i IH]; intros [|c r]; simpl; auto.
  now rewrite IH.
Qed.

(** ** Membership in an outer merge *)

Section MergeFacts.

Variables lk rk rn : list nat.
Variables on lcols rcols : list string.
Variables ls rs : list row.

Lemma merge_rows_In (m : row) :
  In m (merge_rows lk rk rn on lcols rcols ls rs) <->
  (exists l r, In l ls /\ In r rs /\ take lk l = take rk r /\
               m = l ++ take rn r)
  \/ (exists l, In l ls /\ (forall r, In r rs -> take lk l <> take rk r) /\
                m = l ++ repeat NaN (length rn))
  \/ (exists r, In r rs /\ (forall l, In l ls -> take lk l <> take rk r) /\
                m = left_of_right on lcols rcols r ++ take rn r).
Proof.
  unfold merge_rows. rewrite in_app_iff, in_flat_map, in_map_iff.
  split.
  - intros [[l [Hl Hm]]|[r [Hm Hr]]].
    + destruct (filter _ rs) as [|r0 ms] eqn:Hf.
      * right; left. exists l. split; [exact Hl|]. split.
        -- intros r Hr Heq.
           assert (Hin : In r (filter (fun r => keys_eqb (take lk l) (take rk r)) rs)).
           { apply filter_In. split; [exact Hr|]. now apply keys_eqb_eq. }
           rewrite Hf in Hin. exact Hin.
        -- destruct Hm as [Hm|[]]. now symmetry.
      * left. apply in_map_iff in Hm. destruct Hm as [r [Hm Hr]].
        rewrite <- Hf in Hr. apply filter_In in Hr. destruct Hr as [Hr Hk].
        exists l, r. repeat split; auto. now apply keys_eqb_eq.
    + right; right. apply filter_In in Hr. destruct Hr as [Hr Hk].
      exists r. split; [exact Hr|]. split; [|now symmetry].
      intros l Hl Heq. apply negb_true_iff in Hk.
      assert (Hex : existsb (fun l => keys_eqb (take lk l) (take rk r)) ls = true).
      { apply existsb_exists. exists l. split; [exact Hl|]. now apply keys_eqb_eq. }
      congruence.
  - intros [[l [r [Hl [Hr [Hk Hm]]]]]|[[l [Hl [Hno Hm]]]|[r [Hr [Hno Hm]]]]].
    + left. exists l. split; [exact Hl|].
      assert (Hin : In r (filter (fun r => keys_eqb (take lk l) (take rk r)) rs)).
      { apply filter_In. split; [exact Hr|]. now apply keys_eqb_eq. }
      destruct (filter _ rs) as [|r0 ms]; [destruct Hin|].
      apply in_map_iff. exists r. split; [now symmetry|exact Hin].
    + left. exists l. split; [exact Hl|].
      destruct (filter _ rs) as [|r0 ms] eqn:Hf.
      * left. now symmetry.
      * exfalso.
        assert (Hin : In r0 (filter (fun r => keys_eqb (take lk l) (take rk r)) rs)).
        { rewrite Hf. now left. }
        apply filter_In in Hin. destruct Hin as [Hr0 Hk].
        apply (Hno r0 Hr0). now apply keys_eqb_eq.
    + right. exists r. split; [now symmetry|].
      apply filter_In. split; [exact Hr|]. apply negb_true_iff.
      destruct (existsb _ ls) eqn:Hex; [|reflexivity].
      apply existsb_exists in Hex. destruct Hex as [l [Hl Hk]].
      exfalso. apply (Hno l Hl). now apply keys_eqb_eq.
Qed.

End MergeFacts.

(** ** The Reshaper, unfolded *)

Lemma locate_length (cs cols : list string) (p : list nat) :
  locate cs cols = Some p -> length p = length cs.
Proof.
  revert p; induction cs as [|c cs IH]; simpl; intros p H.
  - now inversion H.
  - destruct (col_index c cols); [|discriminate].
    destruct (locate cs cols); [|discriminate].
    inversion H; subst; simpl. f_equal. now apply IH.
Qed.

Lemma process_seqspecs_rows (df : DataFrame) (i : nat) :
  col_index "Seqspecs" (columns df) = Some i ->
  Forall (fun r => (i < length r)%nat) (rows df) ->
  process_seqspecs df
  = mkDF (columns df)
      (map (fun r => set_nth i (normalize_seqspec (at_ i r)) r) (rows df)).
Proof.
  intros Hi Hlen. unfold process_seqspecs. rewrite Hi. f_equal.
  rewrite assign_rows_map.
  rewrite (loc_assign_rows_map (fun c => negb (cell_eqb c (Str "")))
             (str_extract config_lit)).
  rewrite map_map. apply map_ext_in. intros r Hr.
  rewrite Forall_forall in Hlen. specialize (Hlen r Hr).
  rewrite at_set_nth by exact Hlen.
  unfold normalize_seqspec.
  destruct (negb _); [|reflexivity].
  now rewrite set_nth_set_nth.
Qed.

Lemma mask_select_read (t : string) (irt : nat) (rs : list row) :
  mask_rows
    (map (fun c => cell_eqb c (Str t))
       (map (at_ irt)
          (mask_rows (map (isin [Str "R1"; Str "R2"]) (map (at_ irt) rs)) rs)))
    (mask_rows (map (isin [Str "R1"; Str "R2"]) (map (at_ irt) rs)) rs)
  = filter (fun r => isin [Str "R1"; Str "R2"] (at_ irt r)
                     && cell_eqb (at_ irt r) (Str t)) rs.
Proof.
  rewrite (mask_rows_map (isin [Str "R1"; Str "R2"])).
  rewrite (mask_rows_map (fun c => cell_eqb c (Str t))).
  symmetry. apply select_twice.
Qed.

Lemma filter_read_R1 (irt : nat) (rs : list row) :
  filter (fun r => isin [Str "R1"; Str "R2"] (at_ irt r)
                   && cell_eqb (at_ irt r) (Str "R1")) rs
  = filter (fun r => cell_eqb (at_ irt r) (Str "R1")) rs.
Proof.
  apply filter_ext. intros r. unfold isin; simpl.
  destruct (cell_eqb (at_ irt r) (Str "R1")); simpl; [reflexivity|].
  now rewrite andb_false_r.
Qed.

Lemma filter_read_R2 (irt : nat) (rs : list row) :
  filter (fun r => isin [Str "R1"; Str "R2"] (at_ irt r)
                   && cell_eqb (at_ irt r) (Str "R2")) rs
  = filter (fun r => cell_eqb (at_ irt r) (Str "R2")) rs.
Proof.
  apply filter_ext. intros r. unfold isin; simpl.
  destruct (cell_eqb (at_ irt r) (Str "R2")); simpl;
    [now rewrite orb_true_r|now rewrite andb_false_r].
Qed.

Lemma merged_rows_long (irt : nat) (p1 p2 : list nat) (rs : list row) :
  length p1 = 7%nat ->
  Forall (fun r => (6 < length r)%nat) (merged_rows irt p1 p2 rs).
Proof.
  intros Hp1. apply Forall_forall. intros m Hm.
  unfold merged_rows in Hm. apply merge_rows_In in Hm.
  assert (Hside : forall l, In l (side_rows "R1" irt p1 rs) -> length l = 7%nat).
  { intros l Hl. unfold side_rows in Hl. apply in_map_iff in Hl.
    destruct Hl as [x [<- _]]. unfold take. now rewrite length_map. }
  destruct Hm as [[l [r [Hl [_ [_ ->]]]]]|[[l [Hl [_ ->]]]|[r [_ [_ ->]]]]];
    rewrite length_app.
  - rewrite (Hside l Hl). lia.
  - rewrite (Hside l Hl). lia.
  - unfold left_of_right. rewrite length_map. simpl. lia.
Qed.

Lemma rearrange_located (sf : DataFrame) (irt : nat) (p1 p2 : list nat) :
  empty sf = false ->
  col_index "Illumina Read Type" (columns sf) = Some irt ->
  locate r1_cols (map (rename_label r1_renaming) (columns sf)) = Some p1 ->
  locate r2_cols (map (rename_label r2_renaming) (columns sf)) = Some p2 ->
  rearrange_sequence_files sf
  = Ok (mkDF final_cols (pivot_rows irt p1 p2 (rows sf))).
Proof.
  intros Hne Hirt Hp1 Hp2.
  unfold rearrange_sequence_files. rewrite Hne.
  unfold getitem, select. cbn [columns rows]. rewrite Hirt. cbn [bind].
  rewrite !mask_select_read, filter_read_R1, filter_read_R2.
  unfold rename, getitems. cbn [columns rows].
  unfold r1_renaming in Hp1. unfold r2_renaming in Hp2.
  rewrite Hp1, Hp2. cbn [bind].
  unfold merge_outer. cbn [columns rows].
  change (locate join_key r1_cols) with (Some [0; 1; 2; 5; 6]%nat).
  change (locate join_key r2_cols) with (Some [0; 1; 2; 5; 6]%nat).
  change (positions_from (fun c => negb (inb c join_key)) r2_cols 0)
    with [3; 4]%nat.
  change (filter (fun c => negb (inb c join_key)) r2_cols)
    with ["R2_path"; "R2_md5sum"].
  cbn [bind].
  fold (side_rows "R1" irt p1 (rows sf)).
  fold (side_rows "R2" irt p2 (rows sf)).
  fold (merged_rows irt p1 p2 (rows sf)).
  rewrite (process_seqspecs_rows _ 6); cbn [columns rows].
  - unfold sort_values. cbn [columns rows].
    change (locate sort_key (r1_cols ++ ["R2_path"; "R2_md5sum"]))
      with (Some [1; 0; 2; 5]%nat).
    cbn [bind]. unfold getitems. cbn [columns rows].
    change (locate final_cols (r1_cols ++ ["R2_path"; "R2_md5sum"]))
      with (Some [3; 4; 7; 8; 1; 0; 2; 5; 6]%nat).
    reflexivity.
  - reflexivity.
  - eapply Permutation_Forall; [apply sort_rows_perm|].
    apply merged_rows_long.
    apply locate_length in Hp1. exact Hp1.
Qed.

Lemma rearrange_no_read_type (sf : DataFrame) :
  empty sf = false ->
  col_index "Illumina Read Type" (columns sf) = None ->
  rearrange_sequence_files sf = Raise (KeyError ["Illumina Read Type"]).
Proof.
  intros Hne Hirt. unfold rearrange_sequence_files. rewrite Hne.
  unfold getitem. now rewrite Hirt.
Qed.

Lemma rearrange_inv (sf out : DataFrame) :
  empty sf = false ->
  rearrange_sequence_files sf = Ok out ->
  exists irt p1 p2,
    col_index "Illumina Read Type" (columns sf) = Some irt /\
    locate r1_cols (map (rename_label r1_renaming) (columns sf)) = Some p1 /\
    locate r2_cols (map (rename_label r2_renaming) (columns sf)) = Some p2 /\
    out = mkDF final_cols (pivot_rows irt p1 p2 (rows sf)).
Proof.
  intros Hne Hok.
  destruct (col_index "Illumina Read Type" (columns sf)) as [irt|] eqn:Hirt.
  2:{ rewrite (rearrange_no_read_type sf Hne Hirt) in Hok. discriminate. }
  destruct (locate r1_cols (map (rename_label r1_renaming) (columns sf)))
    as [p1|] eqn:Hp1.
  2:{ exfalso. revert Hok. unfold rearrange_sequence_files. rewrite Hne.
      unfold getitem, select. cbn [columns rows]. rewrite Hirt. cbn [bind].
      unfold rename, getitems. cbn [columns rows].
      unfold r1_renaming in Hp1. rewrite Hp1. cbn [bind]. discriminate. }
  destruct (locate r2_cols (map (rename_label r2_renaming) (columns sf)))
    as [p2|] eqn:Hp2.
  2:{ exfalso. revert Hok. unfold rearrange_sequence_files. rewrite Hne.
      unfold getitem, select. cbn [columns rows]. rewrite Hirt. cbn [bind].
      unfold rename, getitems. cbn [columns rows].
      unfold r1_renaming in Hp1. unfold r2_renaming in Hp2.
      rewrite Hp1, Hp2. cbn [bind]. discriminate. }
  rewrite (rearrange_located sf irt p1 p2 Hne Hirt Hp1 Hp2) in Hok.
  inversion Hok; subst. exists irt, p1, p2. auto.
Qed.

(** ** Renaming and the positions of labels *)

Lemma col_index_map (f : string -> string) (c c' : string) (cols : list string) :
  (forall d, In d cols -> String.eqb (f d) c = String.eqb d c') ->
  col_index c (map f cols) = col_index c' cols.
Proof.
  induction cols as [|d cols IH]; simpl; intros H; [reflexivity|].
  rewrite (H d (or_introl eq_refl)).
  destruct (String.eqb d c'); [reflexivity|].
  rewrite IH; [reflexivity|]. intros e He. apply H. now right.
Qed.

Lemma has_label_In (c : string) (cols : list string) :
  has_label c cols = true <-> In c cols.
Proof.
  unfold has_label. induction cols as [|d cols IH]; simpl.
  - split; [discriminate|tauto].
  - destruct (String.eqb_spec d c) as [->|Hdc].
    + split; auto.
    + destruct (col_index c cols); simpl in *.
      * split; [intros _; right; now apply IH|reflexivity].
      * split; [discriminate|]. intros [H|H]; [congruence|]. now apply IH.
Qed.

Lemma has_label_false (c : string) (cols : list string) :
  has_label c cols = false -> forall d, In d cols -> d <> c.
Proof.
  intros H d Hd ->. apply has_label_In in Hd. congruence.
Qed.

Ltac label_cases d :=
  unfold r1_renaming, r2_renaming; cbn [rename_label];
  repeat match goal with
         | |- context [String.eqb ?a d] =>
             destruct (String.eqb_spec a d) as [<-|?]
         | |- context [String.eqb d ?b] =>
             destruct (String.eqb_spec d b) as [->|?]
         end;
  try reflexivity; try congruence.

Lemma rename_keeps (m : list (string * string)) (c : string) (cols : list string) :
  (m = r1_renaming \/ m = r2_renaming) ->
  In c ["Lane"; "measurement_sets"; "file_modality"; "Flowcell ID"; "Seqspecs"] ->
  col_index c (map (rename_label m) cols) = col_index c cols.
Proof.
  intros Hm Hc. apply col_index_map. intros d _.
  simpl in Hc.
  destruct Hm as [-> | ->];
    decompose [or] Hc; subst; try contradiction; label_cases d.
Qed.

Lemma rename_path1 (cols : list string) :
  has_label "R1_path" cols = false ->
  col_index "R1_path" (map (rename_label r1_renaming) cols)
  = col_index "Accession" cols.
Proof.
  intros H. apply col_index_map. intros d Hd.
  pose proof (has_label_false _ _ H d Hd). label_cases d.
Qed.

Lemma rename_md5_1 (cols : list string) :
  has_label "R1_md5sum" cols = false ->
  col_index "R1_md5sum" (map (rename_label r1_renaming) cols)
  = col_index "MD5sum" cols.
Proof.
  intros H. apply col_index_map. intros d Hd.
  pose proof (has_label_false _ _ H d Hd). label_cases d.
Qed.

Lemma rename_path2 (cols : list string) :
  has_label "R2_path" cols = false ->
  col_index "R2_path" (map (rename_label r2_renaming) cols)
  = col_index "Accession" cols.
Proof.
  intros H. apply col_index_map. intros d Hd.
  pose proof (has_label_false _ _ H d Hd). label_cases d.
Qed.

Lemma rename_md5_2 (cols : list string) :
  has_label "R2_md5sum" cols = false ->
  col_index "R2_md5sum" (map (rename_label r2_renaming) cols)
  = col_index "MD5sum" cols.
Proof.
  intros H. apply col_index_map. intros d Hd.
  pose proof (has_label_false _ _ H d Hd). label_cases d.
Qed.

Lemma fresh_pivot_labels_inv (sf : DataFrame) :
  fresh_pivot_labels sf = true ->
  has_label "R1_path" (columns sf) = false /\
  has_label "R1_md5sum" (columns sf) = false /\
  has_label "R2_path" (columns sf) = false /\
  has_label "R2_md5sum" (columns sf) = false.
Proof.
  unfold fresh_pivot_labels, pivot_labels. simpl.
  rewrite !andb_true_iff, !negb_true_iff. tauto.
Qed.

Lemma locate_r1_fresh (sf : DataFrame) :
  fresh_pivot_labels sf = true ->
  locate r1_cols (map (rename_label r1_renaming) (columns sf))
  = locate source_cols (columns sf).
Proof.
  intros H. apply fresh_pivot_labels_inv in H. destruct H as [H1 [H2 _]].
  unfold r1_cols, source_cols. cbn [locate].
  rewrite rename_path1, rename_md5_1 by assumption.
  rewrite !(rename_keeps r1_renaming) by (auto; simpl; tauto).
  reflexivity.
Qed.

Lemma locate_r2_fresh (sf : DataFrame) :
  fresh_pivot_labels sf = true ->
  locate r2_cols (map (rename_label r2_renaming) (columns sf))
  = locate source_cols (columns sf).
Proof.
  intros H. apply fresh_pivot_labels_inv in H. destruct H as [_ [_ [H1 H2]]].
  unfold r2_cols, source_cols. cbn [locate].
  rewrite rename_path2, rename_md5_2 by assumption.
  rewrite !(rename_keeps r2_renaming) by (auto; simpl; tauto).
  reflexivity.
Qed.

Lemma take_located (df : DataFrame) (cs : list string) (p : list nat) (r : row) :
  locate cs (columns df) = Some p ->
  take p r = map (fun c => cell_of df c r) cs.
Proof.
  revert p; induction cs as [|c cs IH]; simpl; intros p H.
  - now inversion H.
  - unfold cell_of at 1.
    destruct (col_index c (columns df)); [|discriminate].
    destruct (locate cs (columns df)); [|discriminate].
    inversion H; subst; simpl. f_equal. now apply IH.
Qed.

Lemma side_rows_In (sf : DataFrame) (t : string) (irt : nat) (p : list nat)
    (l : row) :
  col_index "Illumina Read Type" (columns sf) = Some irt ->
  locate source_cols (columns sf) = Some p ->
  In l (side_rows t irt p (rows sf)) <->
  exists x, In x (rows sf) /\ is_read t sf x = true /\ l = side_view sf x.
Proof.
  intros Hirt Hp. unfold side_rows, is_read, cell_of, side_view.
  rewrite Hirt, in_map_iff. split.
  - intros [x [Hl Hx]]. apply filter_In in Hx. destruct Hx as [Hx Ht].
    exists x. repeat split; auto.
    rewrite <- Hl. now apply take_located.
  - intros [x [Hx [Ht Hl]]]. exists x. split.
    + rewrite Hl. now apply take_located.
    + apply filter_In. auto.
Qed.

Lemma pivot_rows_In_merged (irt : nat) (p1 p2 : list nat) (rs : list row)
    (o : row) :
  In o (pivot_rows irt p1 p2 rs) <->
  exists m, In m (merged_rows irt p1 p2 rs) /\
            o = take [3; 4; 7; 8; 1; 0; 2; 5; 6]
                  (set_nth 6 (normalize_seqspec (at_ 6 m)) m).
Proof.
  unfold pivot_rows. rewrite in_map_iff. split.
  - intros [m' [Ho Hm']]. apply sort_rows_In in Hm'.
    apply in_map_iff in Hm'. destruct Hm' as [m [Hm' Hm]].
    apply sort_rows_In in Hm. exists m. split; [exact Hm|]. now subst.
  - intros [m [Hm Ho]]. eexists. split; [symmetry; exact Ho|].
    apply sort_rows_In. apply in_map_iff. exists m. split; [reflexivity|].
    now apply sort_rows_In.
Qed.

Lemma side_view_key (sf : DataFrame) (x : row) :
  take [0; 1; 2; 5; 6] (side_view sf x) = composite_key sf x.
Proof. reflexivity. Qed.

(** The rows of the Reshaper's output, in terms of the input rows. *)
Lemma pivot_rows_In (sf : DataFrame) (irt : nat) (p : list nat) (o : row) :
  col_index "Illumina Read Type" (columns sf) = Some irt ->
  locate source_cols (columns sf) = Some p ->
  In o (pivot_rows irt p p (rows sf)) <->
  (exists x y, In x (rows sf) /\ In y (rows sf) /\
               is_read "R1" sf x = true /\ is_read "R2" sf y = true /\
               composite_key sf x = composite_key sf y /\
               o = pair_row sf x y)
  \/ (exists x, In x (rows sf) /\ is_read "R1" sf x = true /\
                (forall y, In y (rows sf) -> is_read "R2" sf y = true ->
                           composite_key sf x <> composite_key sf y) /\
                o = r1_only_row sf x)
  \/ (exists y, In y (rows sf) /\ is_read "R2" sf y = true /\
                (forall x, In x (rows sf) -> is_read "R1" sf x = true ->
                           composite_key sf x <> composite_key sf y) /\
                o = r2_only_row sf y).
Proof.
  intros Hirt Hp. rewrite pivot_rows_In_merged. unfold merged_rows.
  split.
  - intros [m [Hm Ho]]. apply merge_rows_In in Hm.
    destruct Hm as [[l [r [Hl [Hr [Hk Hm]]]]]|[[l [Hl [Hno Hm]]]|[r [Hr [Hno Hm]]]]].
    + apply (side_rows_In sf "R1" irt p l Hirt Hp) in Hl.
      apply (side_rows_In sf "R2" irt p r Hirt Hp) in Hr.
      destruct Hl as [x [Hx [Hxt ->]]]. destruct Hr as [y [Hy [Hyt ->]]].
      left. exists x, y. rewrite !side_view_key in Hk.
      repeat split; auto. subst o m. reflexivity.
    + apply (side_rows_In sf "R1" irt p l Hirt Hp) in Hl.
      destruct Hl as [x [Hx [Hxt ->]]].
      right; left. exists x. repeat split; auto.
      * intros y Hy Hyt Heq. apply (Hno (side_view sf y)).
        -- apply (side_rows_In sf "R2" irt p _ Hirt Hp). eauto.
        -- now rewrite !side_view_key.
      * subst o m. reflexivity.
    + apply (side_rows_In sf "R2" irt p r Hirt Hp) in Hr.
      destruct Hr as [y [Hy [Hyt ->]]].
      right; right. exists y. repeat split; auto.
      * intros x Hx Hxt Heq. apply (Hno (side_view sf x)).
        -- apply (side_rows_In sf "R1" irt p _ Hirt Hp). eauto.
        -- now rewrite !side_view_key.
      * subst o m. reflexivity.
  - intros [[x [y [Hx [Hy [Hxt [Hyt [Hk Ho]]]]]]]
           |[[x [Hx [Hxt [Hno Ho]]]]|[y [Hy [Hyt [Hno Ho]]]]]].
    + exists (side_view sf x ++ take [3; 4] (side_view sf y)). split.
      * apply merge_rows_In. left. exists (side_view sf x), (side_view sf y).
        repeat split.
        -- apply (side_rows_In sf "R1" irt p _ Hirt Hp). eauto.
        -- apply (side_rows_In sf "R2" irt p _ Hirt Hp). eauto.
        -- now rewrite !side_view_key.
      * subst o. reflexivity.
    + exists (side_view sf x ++ repeat NaN 2). split.
      * apply merge_rows_In. right; left. exists (side_view sf x).
        repeat split.
        -- apply (side_rows_In sf "R1" irt p _ Hirt Hp). eauto.
        -- intros r Hr Heq.
           apply (side_rows_In sf "R2" irt p r Hirt Hp) in Hr.
           destruct Hr as [y [Hy [Hyt ->]]].
           rewrite !side_view_key in Heq. exact (Hno y Hy Hyt Heq).
      * subst o. reflexivity.
    + exists (left_of_right join_key r1_cols r2_cols (side_view sf y)
              ++ take [3; 4] (side_view sf y)). split.
      * apply merge_rows_In. right; right. exists (side_view sf y).
        repeat split.
        -- apply (side_rows_In sf "R2" irt p _ Hirt Hp). eauto.
        -- intros l Hl Heq.
           apply (side_rows_In sf "R1" irt p l Hirt Hp) in Hl.
           destruct Hl as [x [Hx [Hxt ->]]].
           rewrite !side_view_key in Heq. exact (Hno x Hx Hxt Heq).
      * subst o. reflexivity.
Qed.

Lemma has_required_located (sf : DataFrame) :
  has_required sf = true ->
  exists irt p,
    col_index "Illumina Read Type" (columns sf) = Some irt /\
    locate source_cols (columns sf) = Some p.
Proof.
  unfold has_required, required_cols, has_label, source_cols. cbn [forallb locate].
  rewrite !andb_true_iff.
  destruct (col_index "Illumina Read Type" (columns sf)) as [irt|];
    [|intuition discriminate].
  destruct (col_index "Accession" (columns sf)); [|intuition discriminate].
  destruct (col_index "MD5sum" (columns sf)); [|intuition discriminate].
  destruct (col_index "Lane" (columns sf)); [|intuition discriminate].
  destruct (col_index "measurement_sets" (columns sf)); [|intuition discriminate].
  destruct (col_index "file_modality" (columns sf)); [|intuition discriminate].
  destruct (col_index "Flowcell ID" (columns sf)); [|intuition discriminate].
  destruct (col_index "Seqspecs" (columns sf)); [|intuition discriminate].
  intros _. eauto.
Qed.

(** With its columns present, the Reshaper returns. *)
Lemma rearrange_total (sf : DataFrame) :
  fresh_pivot_labels sf = true ->
  has_required sf = true ->
  empty sf = false ->
  exists irt p,
    col_index "Illumina Read Type" (columns sf) = Some irt /\
    locate source_cols (columns sf) = Some p /\
    rearrange_sequence_files sf
    = Ok (mkDF final_cols (pivot_rows irt p p (rows sf))).
Proof.
  intros Hfresh Hreq Hne.
  destruct (has_required_located sf Hreq) as [irt [p [Hirt Hp]]].
  exists irt, p. repeat split; auto.
  apply rearrange_located; auto.
  - now rewrite locate_r1_fresh.
  - now rewrite locate_r2_fresh.
Qed.

Lemma rearrange_scoped (sf out : DataFrame) :
  fresh_pivot_labels sf = true ->
  empty sf = false ->
  rearrange_sequence_files sf = Ok out ->
  exists irt p,
    col_index "Illumina Read Type" (columns sf) = Some irt /\
    locate source_cols (columns sf) = Some p /\
    out = mkDF final_cols (pivot_rows irt p p (rows sf)).
Proof.
  intros Hfresh Hne Hok.
  destruct (rearrange_inv sf out Hne Hok) as [irt [p1 [p2 [Hirt [Hp1 [Hp2 ->]]]]]].
  rewrite locate_r1_fresh in Hp1 by assumption.
  rewrite locate_r2_fresh in Hp2 by assumption.
  assert (p2 = p1) by congruence. subst p2.
  exists irt, p1. auto.
Qed.

Lemma empty_no_reads (sf : DataFrame) (t : string) (x : row) :
  empty sf = true -> In x (rows sf) -> is_read t sf x = false.
Proof.
  unfold empty, is_read, cell_of. intros He Hx.
  destruct (columns sf) as [|c cols]; [reflexivity|].
  destruct (rows sf); [destruct Hx|discriminate].
Qed.

Lemma rearrange_empty (sf : DataFrame) :
  empty sf = true -> rearrange_sequence_files sf = Ok empty_frame.
Proof.
  intros He. unfold rearrange_sequence_files. now rewrite He.
Qed.

(** * The Read-Pair Reshaper: outer join, order, columns *)

(** C4.  On a well-formed table that has the columns the Reshaper reads,
    the Reshaper returns, and its rows are exactly the outer join of the R1
    rows with the R2 rows on (Lane, measurement_sets, file_modality,
    Flowcell ID, Seqspecs): every R1 row and R2 row with the same key give a
    row carrying both path/md5sum pairs; an R1 row (an R2 row) whose key no
    R2 row (no R1 row) has gives a row whose opposite path and md5sum are
    missing; and every output row arises in one of these three ways, so rows
    of any other read type contribute nothing and no R1 or R2 row is lost. *)
Theorem reshaper_outer_join (sf : DataFrame) :
  well_formed sf = true ->
  fresh_pivot_labels sf = true ->
  has_required sf = true ->
  exists out,
    rearrange_sequence_files sf = Ok out /\
    (forall x y, In x (rows sf) -> In y (rows sf) ->
       is_read "R1" sf x = true -> is_read "R2" sf y = true ->
       composite_key sf x = composite_key sf y ->
       In (pair_row sf x y) (rows out)) /\
    (forall x, In x (rows sf) -> is_read "R1" sf x = true ->
       (forall y, In y (rows sf) -> is_read "R2" sf y = true ->
                  composite_key sf x <> composite_key sf y) ->
       In (r1_only_row sf x) (rows out)) /\
    (forall y, In y (rows sf) -> is_read "R2" sf y = true ->
       (forall x, In x (rows sf) -> is_read "R1" sf x = true ->
                  composite_key sf x <> composite_key sf y) ->
       In (r2_only_row sf y) (rows out)) /\
    (forall o, In o (rows out) ->
       (exists x y, In x (rows sf) /\ In y (rows sf) /\
                    is_read "R1" sf x = true /\ is_read "R2" sf y = true /\
                    composite_key sf x = composite_key sf y /\
                    o = pair_row sf x y)
       \/ (exists x, In x (rows sf) /\ is_read "R1" sf x = true /\
                     (forall y, In y (rows sf) -> is_read "R2" sf y = true ->
                                composite_key sf x <> composite_key sf y) /\
                     o = r1_only_row sf x)
       \/ (exists y, In y (rows sf) /\ is_read "R2" sf y = true /\
                     (forall x, In x (rows sf) -> is_read "R1" sf x = true ->
                                composite_key sf x <> composite_key sf y) /\
                     o = r2_only_row sf y)).
Proof.
  intros _ Hfresh Hreq.
  destruct (empty sf) eqn:Hne.
  - exists empty_frame. split; [now apply rearrange_empty|].
    repeat split.
    + intros x y Hx _ Hxt. rewrite (empty_no_reads sf "R1" x Hne Hx) in Hxt.
      discriminate.
    + intros x Hx Hxt. rewrite (empty_no_reads sf "R1" x Hne Hx) in Hxt.
      discriminate.
    + intros y Hy Hyt. rewrite (empty_no_reads sf "R2" y Hne Hy) in Hyt.
      discriminate.
    + intros o [].
  - destruct (rearrange_total sf Hfresh Hreq Hne) as [irt [p [Hirt [Hp Hok]]]].
    eexists. split; [exact Hok|]. cbn [rows].
    repeat split.
    + intros x y Hx Hy Hxt Hyt Hk.
      apply (pivot_rows_In sf irt p _ Hirt Hp). left. exists x, y. repeat split; assumption.
    + intros x Hx Hxt Hno.
      apply (pivot_rows_In sf irt p _ Hirt Hp). right; left. exists x. repeat split; assumption.
    + intros y Hy Hyt Hno.
      apply (pivot_rows_In sf irt p _ Hirt Hp). right; right. exists y. repeat split; assumption.
    + intros o Ho. now apply (pivot_rows_In sf irt p o Hirt Hp).
Qed.

Lemma reshaper_outer_join_witness :
  exists out,
    rearrange_sequence_files demo_files = Ok out /\
    (forall x y, In x (rows demo_files) -> In y (rows demo_files) ->
       is_read "R1" demo_files x = true -> is_read "R2" demo_files y = true ->
       composite_key demo_files x = composite_key demo_files y ->
       In (pair_row demo_files x y) (rows out)) /\
    (forall x, In x (rows demo_files) -> is_read "R1" demo_files x = true ->
       (forall y, In y (rows demo_files) -> is_read "R2" demo_files y = true ->
                  composite_key demo_files x <> composite_key demo_files y) ->
       In (r1_only_row demo_files x) (rows out)) /\
    (forall y, In y (rows demo_files) -> is_read "R2" demo_files y = true ->
       (forall x, In x (rows demo_files) -> is_read "R1" demo_files x = true ->
                  composite_key demo_files x <> composite_key demo_files y) ->
       In (r2_only_row demo_files y) (rows out)).
Proof.
  destruct (reshaper_outer_join demo_files) as [out [Hok [H1 [H2 [H3 _]]]]];
    try reflexivity.
  exists out. auto.
Defined.

Example demo_files_pivot :
  rearrange_sequence_files demo_files
  = Ok (mkDF final_cols
          [[NaN; NaN; Str "F5"; Str "m5"; Str "MS1"; Num 1; Str "gRNA";
            Str "FC1"; Str ""];
           [Str "F3"; Str "m3"; NaN; NaN; Str "MS1"; Num 1; Str "scRNA";
            Str "FC1"; Str "SPEC1"];
           [Str "F1"; Str "m1"; Str "F2"; Str "m2"; Str "MS1"; Num 2;
            Str "scRNA"; Str "FC1"; Str "SPEC1"]]).
Proof. reflexivity. Qed.




(** * Empty tables and re-application *)

(** C6.  An empty table (no row or no column) makes the Reshaper return
    [pd.DataFrame()], a table with no label and no row, through its first
    test; and a link table with no row makes the Enumerator request nothing
    and return that same empty table, which the Reshaper in turn maps to the
    empty table: nothing raises and nothing is requested, whatever the
    transport and the parser. *)
Theorem empty_tables_propagate
    (http_get : string -> string -> string -> option string)
    (read_csv : string -> outcome DataFrame)
    (access_key secret_key : string) :
  (forall sf, empty sf = true -> rearrange_sequence_files sf = Ok empty_frame)
  /\ columns empty_frame = [] /\ rows empty_frame = []
  /\ (forall result, rows result = [] ->
        get_sequence_files http_get read_csv result access_key secret_key
        = ([], Ok empty_frame)
        /\ enumerate_and_reshape http_get read_csv result access_key secret_key
           = ([], Ok empty_frame)).
Proof.
  split; [exact rearrange_empty|]. split; [reflexivity|]. split; [reflexivity|].
  intros result Hrows.
  unfold enumerate_and_reshape, get_sequence_files. rewrite Hrows.
  split; reflexivity.
Qed.

Lemma empty_tables_propagate_witness :
  rearrange_sequence_files (mkDF catalog_cols []) = Ok empty_frame
  /\ enumerate_and_reshape (site_get demo_site) tsv_reader (mkDF link_cols [])
       "key" "secret"
     = ([], Ok empty_frame).
Proof.
  destruct (empty_tables_propagate (site_get demo_site) tsv_reader
              "key" "secret") as [H1 [_ [_ H2]]].
  split.
  - apply H1. reflexivity.
  - apply (H2 (mkDF link_cols [])). reflexivity.
Defined.

(** C7 as stated fails: the Reshaper's output for [demo_files] has three
    rows, and the Reshaper applied to it raises instead of returning an
    empty table. *)
Lemma reapplication_raises :
  exists out,
    empty demo_files = false /\
    rearrange_sequence_files demo_files = Ok out /\
    rearrange_sequence_files out = Raise (KeyError ["Illumina Read Type"]) /\
    rearrange_sequence_files out <> Ok empty_frame.
Proof.
  eexists. split; [reflexivity|]. split; [reflexivity|].
  split; [reflexivity|discriminate].
Qed.

(** C7, amended.  Whenever the Reshaper returns a table, applying it to
    that table returns the empty table if the table has no row, and raises
    a KeyError for the label 'Illumina Read Type' if it has one: the output
    has exactly the nine final labels and the read type is not among
    them. *)
Theorem reapplication (sf out : DataFrame) :
  rearrange_sequence_files sf = Ok out ->
  (rows out = [] -> rearrange_sequence_files out = Ok empty_frame)
  /\ (rows out <> [] ->
      rearrange_sequence_files out = Raise (KeyError ["Illumina Read Type"])).
Proof.
  intros Hok. destruct (empty sf) eqn:Hne.
  - rewrite (rearrange_empty sf Hne) in Hok. inversion Hok; subst.
    split; [reflexivity|]. intros H. now contradiction H.
  - destruct (rearrange_inv sf out Hne Hok) as [irt [p1 [p2 [_ [_ [_ ->]]]]]].
    cbn [rows]. split.
    + intros Hrows. apply rearrange_empty. unfold empty. cbn [columns rows].
      now rewrite Hrows.
    + intros Hrows. apply rearrange_no_read_type; [|reflexivity].
      unfold empty. cbn [columns rows].
      destruct (pivot_rows irt p1 p2 (rows sf)); [now contradiction Hrows|reflexivity].
Qed.

Lemma reapplication_witness :
  rearrange_sequence_files
    (mkDF final_cols
       [[NaN; NaN; Str "F5"; Str "m5"; Str "MS1"; Num 1; Str "gRNA";
         Str "FC1"; Str ""];
        [Str "F3"; Str "m3"; NaN; NaN; Str "MS1"; Num 1; Str "scRNA";
         Str "FC1"; Str "SPEC1"];
        [Str "F1"; Str "m1"; Str "F2"; Str "m2"; Str "MS1"; Num 2;
         Str "scRNA"; Str "FC1"; Str "SPEC1"]])
  = Raise (KeyError ["Illumina Read Type"]).
Proof.
  apply (reapplication demo_files); [reflexivity|discriminate].
Defined.

(** * Seqspecs: the pattern and the normalization *)

Lemma strip_prefix_app (p r : string) :
  strip_prefix p (p ++ r)%string = Some r.
Proof.
  induction p as [|a p IH]; simpl; [reflexivity|].
  now rewrite Ascii.eqb_refl.
Qed.

Lemma strip_prefix_inv (p s r : string) :
  strip_prefix p s = Some r -> s = (p ++ r)%string.
Proof.
  revert s; induction p as [|a p IH]; simpl; intros s H.
  - now inversion H.
  - destruct s as [|b s]; [discriminate|].
    destruct (Ascii.eqb_spec a b) as [->|]; [|discriminate].
    f_equal. now apply IH.
Qed.

Lemma span_segment_inv (s g rest : string) :
  span_segment s = (g, rest) ->
  s = (g ++ rest)%string /\ PyStr.mem "/" g = false /\
  (rest = "" \/ exists r, rest = String "/" r).
Proof.
  revert g rest; induction s as [|c s IH]; simpl; intros g rest H.
  - inversion H; subst. auto.
  - destruct (Ascii.eqb_spec c "/") as [->|Hc].
    + inversion H; subst. simpl. eauto.
    + destruct (span_segment s) as [g' rest'] eqn:Hs.
      inversion H; subst.
      destruct (IH g' rest eq_refl) as [-> [Hm Hr]].
      simpl. repeat split; auto.
      rewrite Hm. destruct (Ascii.eqb_spec c "/"); [contradiction|reflexivity].
Qed.

Lemma span_segment_app (g r : string) :
  PyStr.mem "/" g = false ->
  span_segment (g ++ String "/" r)%string = (g, String "/" r).
Proof.
  induction g as [|c g IH]; simpl; intros H; [reflexivity|].
  apply orb_false_iff in H. destruct H as [Hc Hg].
  rewrite Hc, (IH Hg). reflexivity.
Qed.

Lemma match_here_inv (lit s g : string) :
  match_here lit s = Some g -> exists post, holds_segment lit "" g post s.
Proof.
  unfold match_here, holds_segment. intros H.
  destruct (strip_prefix lit s) as [after|] eqn:Hp; [|discriminate].
  apply strip_prefix_inv in Hp.
  destruct (span_segment after) as [seg rest] eqn:Hs.
  destruct seg as [|c seg]; [discriminate|].
  destruct rest as [|d rest]; [discriminate|].
  inversion H; subst g.
  destruct (span_segment_inv _ _ _ Hs) as [-> [Hm [Hr|[r Hr]]]];
    [discriminate|].
  inversion Hr; subst. exists r. simpl. repeat split; auto. discriminate.
Qed.

Lemma match_here_app (lit g post : string) :
  g <> "" -> PyStr.mem "/" g = false ->
  match_here lit (lit ++ g ++ "/" ++ post)%string = Some g.
Proof.
  intros Hg Hm. unfold match_here. rewrite strip_prefix_app.
  simpl. rewrite (span_segment_app g post Hm).
  destruct g; [contradiction|reflexivity].
Qed.

(** What the pattern finds is a segment of the text, and no segment starts
    further to the left. *)
Lemma search_sound (lit s g : string) :
  search lit s = Some g ->
  exists pre post,
    holds_segment lit pre g post s /\
    forall pre' g' post', holds_segment lit pre' g' post' s ->
                          (String.length pre <= String.length pre')%nat.
Proof.
  induction s as [|c s IH]; simpl.
  - destruct (match_here lit "") as [g0|] eqn:Hh; [|discriminate].
    intros H; inversion H; subst g0.
    destruct (match_here_inv _ _ _ Hh) as [post Hpost].
    exists "", post. split; [exact Hpost|]. intros; simpl; lia.
  - destruct (match_here lit (String c s)) as [g0|] eqn:Hh.
    + intros H; inversion H; subst g0.
      destruct (match_here_inv _ _ _ Hh) as [post Hpost].
      exists "", post. split; [exact Hpost|]. intros; simpl; lia.
    + intros H. destruct (IH H) as [pre [post [[Hs [Hg Hm]] Hleft]]].
      exists (String c pre), post. split.
      * unfold holds_segment. split; [|auto].
        change (String c s = String c (pre ++ lit ++ g ++ "/" ++ post)%string).
        now f_equal.
      * intros pre' g' post' [Hs' [Hg' Hm']].
        destruct pre' as [|c' pre'].
        -- change (String c s = (lit ++ g' ++ "/" ++ post')%string) in Hs'.
           rewrite Hs', (match_here_app lit g' post' Hg' Hm') in Hh.
           discriminate.
        -- change (String c s
                   = String c' (pre' ++ lit ++ g' ++ "/" ++ post')%string) in Hs'.
           inversion Hs'; subst c'.
           simpl. apply le_n_S. apply (Hleft pre' g' post').
           unfold holds_segment. auto.
Qed.

Lemma search_here (lit s g : string) :
  match_here lit s = Some g -> search lit s = Some g.
Proof. destruct s; simpl; intros ->; reflexivity. Qed.

(** A text that holds a segment is never left without a match. *)
Lemma search_complete (lit pre g post s : string) :
  holds_segment lit pre g post s -> exists g', search lit s = Some g'.
Proof.
  intros [Hs [Hg Hm]]. subst s.
  induction pre as [|c pre IH].
  - exists g. apply search_here.
    change (match_here lit (lit ++ g ++ "/" ++ post)%string = Some g).
    now apply match_here_app.
  - simpl. destruct (match_here lit _) as [g0|]; eauto.
Qed.

Lemma normalize_missing : normalize_seqspec NaN = Str "".
Proof. reflexivity. Qed.

Lemma normalize_empty : normalize_seqspec (Str "") = Str "".
Proof. reflexivity. Qed.

Lemma normalize_nan_text : normalize_seqspec (Str "nan") = Str "".
Proof. reflexivity. Qed.

(** The normalization only looks at the text of the cell. *)
Lemma normalize_text (c : cell) :
  normalize_seqspec c = normalize_seqspec (Str (str_of c)).
Proof. reflexivity. Qed.

Lemma normalize_match (s g : string) :
  search config_lit s = Some g -> normalize_seqspec (Str s) = Str g.
Proof.
  intros H. unfold normalize_seqspec, replace_value. cbn [str_of cell_eqb].
  destruct (String.eqb_spec s "nan") as [->|Hnan]; [discriminate H|].
  cbn [cell_eqb].
  destruct (String.eqb_spec s "") as [->|Hne]; [discriminate H|].
  cbn [negb str_extract]. now rewrite H.
Qed.

Lemma normalize_no_match (s : string) :
  s <> "" -> s <> "nan" -> search config_lit s = None ->
  normalize_seqspec (Str s) = NaN.
Proof.
  intros Hne Hnan H. unfold normalize_seqspec, replace_value.
  cbn [str_of cell_eqb].
  destruct (String.eqb_spec s "nan"); [contradiction|].
  cbn [cell_eqb].
  destruct (String.eqb_spec s ""); [contradiction|].
  cbn [negb str_extract]. now rewrite H.
Qed.

Lemma normalize_extractable (c : cell) :
  extractable c = true -> normalize_seqspec c <> NaN.
Proof.
  destruct c as [|z|s]; simpl; try discriminate.
  intros H. apply orb_true_iff in H. destruct H as [H|H].
  - apply String.eqb_eq in H. subst. discriminate.
  - destruct (search config_lit s) as [g|] eqn:Hs; [|discriminate].
    rewrite (normalize_match s g Hs). discriminate.
Qed.

(** The rows of the output in terms of the rows of the input, whenever the
    Reshaper returns. *)
Lemma output_rows (sf out : DataFrame) (o : row) :
  fresh_pivot_labels sf = true ->
  rearrange_sequence_files sf = Ok out ->
  In o (rows out) <->
  (exists x y, In x (rows sf) /\ In y (rows sf) /\
               is_read "R1" sf x = true /\ is_read "R2" sf y = true /\
               composite_key sf x = composite_key sf y /\
               o = pair_row sf x y)
  \/ (exists x, In x (rows sf) /\ is_read "R1" sf x = true /\
                (forall y, In y (rows sf) -> is_read "R2" sf y = true ->
                           composite_key sf x <> composite_key sf y) /\
                o = r1_only_row sf x)
  \/ (exists y, In y (rows sf) /\ is_read "R2" sf y = true /\
                (forall x, In x (rows sf) -> is_read "R1" sf x = true ->
                           composite_key sf x <> composite_key sf y) /\
                o = r2_only_row sf y).
Proof.
  intros Hfresh Hok. destruct (empty sf) eqn:Hne.
  - rewrite (rearrange_empty sf Hne) in Hok. inversion Hok; subst. simpl.
    split; [tauto|].
    intros [[x [y [Hx [_ [Hxt _]]]]]|[[x [Hx [Hxt _]]]|[y [Hy [Hyt _]]]]].
    + rewrite (empty_no_reads sf "R1" x Hne Hx) in Hxt. discriminate.
    + rewrite (empty_no_reads sf "R1" x Hne Hx) in Hxt. discriminate.
    + rewrite (empty_no_reads sf "R2" y Hne Hy) in Hyt. discriminate.
  - destruct (rearrange_scoped sf out Hfresh Hne Hok) as [irt [p [Hirt [Hp ->]]]].
    cbn [rows]. now apply pivot_rows_In.
Qed.

Lemma output_columns (sf out : DataFrame) :
  rearrange_sequence_files sf = Ok out ->
  out = empty_frame \/ columns out = final_cols.
Proof.
  intros Hok. destruct (empty sf) eqn:Hne.
  - rewrite (rearrange_empty sf Hne) in Hok. inversion Hok. now left.
  - destruct (rearrange_inv sf out Hne Hok) as [irt [p1 [p2 [_ [_ [_ ->]]]]]].
    now right.
Qed.

Lemma match_dec (sf : DataFrame) (t : string) (k : list cell) :
  (exists y, In y (rows sf) /\ is_read t sf y = true /\ k = composite_key sf y)
  \/ (forall y, In y (rows sf) -> is_read t sf y = true ->
                k <> composite_key sf y).
Proof.
  destruct (existsb (fun y => is_read t sf y && keys_eqb k (composite_key sf y))
              (rows sf)) eqn:Hex.
  - left. apply existsb_exists in Hex. destruct Hex as [y [Hy Hb]].
    apply andb_true_iff in Hb. destruct Hb as [Hyt Hk].
    apply keys_eqb_eq in Hk. eauto.
  - right. intros y Hy Hyt Hk.
    assert (existsb (fun y => is_read t sf y && keys_eqb k (composite_key sf y))
              (rows sf) = true); [|congruence].
    apply existsb_exists. exists y. split; [exact Hy|].
    rewrite Hyt. simpl. now apply keys_eqb_eq.
Qed.

Lemma key_seqspecs (sf : DataFrame) (x y : row) :
  composite_key sf x = composite_key sf y ->
  cell_of sf "Seqspecs" x = cell_of sf "Seqspecs" y.
Proof.
  intros H. apply (f_equal (fun k => nth 4 k NaN)) in H. exact H.
Qed.

(** Every Seqspecs cell of the output is the normalization of the Seqspecs
    cell of an R1 or R2 row, and every such row is represented. *)
Lemma seqspecs_column (sf out : DataFrame) :
  fresh_pivot_labels sf = true ->
  rearrange_sequence_files sf = Ok out ->
  (forall o, In o (rows out) ->
     exists x, In x (rows sf) /\
               (is_read "R1" sf x = true \/ is_read "R2" sf x = true) /\
               cell_of out "Seqspecs" o
               = normalize_seqspec (cell_of sf "Seqspecs" x))
  /\ (forall x, In x (rows sf) ->
        is_read "R1" sf x = true \/ is_read "R2" sf x = true ->
        exists o, In o (rows out) /\
                  cell_of out "Seqspecs" o
                  = normalize_seqspec (cell_of sf "Seqspecs" x)).
Proof.
  intros Hfresh Hok.
  assert (Hcols : forall o, In o (rows out) -> columns out = final_cols).
  { intros o Ho. destruct (output_columns sf out Hok) as [->|H]; [destruct Ho|exact H]. }
  split.
  - intros o Ho. pose proof (Hcols o Ho) as Hc.
    apply (output_rows sf out o Hfresh Hok) in Ho.
    unfold cell_of at 1. rewrite Hc.
    destruct Ho as [[x [y [Hx [_ [Hxt [_ [_ ->]]]]]]]
                   |[[x [Hx [Hxt [_ ->]]]]|[y [Hy [Hyt [_ ->]]]]]];
      eexists; (split; [eassumption|]); (split; [eauto|reflexivity]).
  - intros x Hx [Hxt|Hxt].
    + destruct (match_dec sf "R2" (composite_key sf x)) as [[y [Hy [Hyt Hk]]]|Hno].
      * exists (pair_row sf x y).
        assert (Ho : In (pair_row sf x y) (rows out)).
        { apply (output_rows sf out _ Hfresh Hok). left. exists x, y.
          repeat split; assumption. }
        split; [exact Ho|]. unfold cell_of at 1. now rewrite (Hcols _ Ho).
      * exists (r1_only_row sf x).
        assert (Ho : In (r1_only_row sf x) (rows out)).
        { apply (output_rows sf out _ Hfresh Hok). right; left. exists x.
          repeat split; assumption. }
        split; [exact Ho|]. unfold cell_of at 1. now rewrite (Hcols _ Ho).
    + destruct (match_dec sf "R1" (composite_key sf x)) as [[y [Hy [Hyt Hk]]]|Hno].
      * exists (pair_row sf y x).
        assert (Ho : In (pair_row sf y x) (rows out)).
        { apply (output_rows sf out _ Hfresh Hok). left. exists y, x.
          repeat split; auto. }
        split; [exact Ho|]. unfold cell_of at 1. rewrite (Hcols _ Ho).
        cbn. now rewrite (key_seqspecs sf x y Hk).
      * exists (r2_only_row sf x).
        assert (Ho : In (r2_only_row sf x) (rows out)).
        { apply (output_rows sf out _ Hfresh Hok). right; right. exists x.
          repeat split; auto.
          intros y Hy Hyt Hk. apply (Hno y Hy Hyt). now symmetry. }
        split; [exact Ho|]. unfold cell_of at 1. now rewrite (Hcols _ Ho).
Qed.

(** C1 as stated fails: a non-empty Seqspecs value in which the pattern
    finds nothing comes out null. *)
Lemma seqspec_null_after_normalization :
  "s3://bucket/layout.yaml" <> ""
  /\ rearrange_sequence_files (one_file (Str "s3://bucket/layout.yaml"))
     = Ok (mkDF final_cols [one_pair_row NaN])
  /\ cell_of (mkDF final_cols [one_pair_row NaN]) "Seqspecs" (one_pair_row NaN)
     = NaN.
Proof. split; [discriminate|]. split; reflexivity. Qed.

(** C1, amended.  On a well-formed table that has the columns the Reshaper
    reads, the Reshaper returns; the Seqspecs cells of its output are the
    normalized Seqspecs cells of the R1 and R2 rows, each of them
    represented.  The normalization maps a missing value to the empty text,
    leaves the empty text as it is, and maps a text in which
    '/configuration-files/' is somewhere followed by a non-empty segment
    without '/' and a '/' to the segment of the leftmost such place; every
    text holding such a segment is mapped to a text.  So no Seqspecs cell of
    the output is null provided every Seqspecs cell of an R1 or R2 row is
    missing, empty or holds such a segment.  In particular
    '.../configuration-files/XYZ123/' yields 'XYZ123'. *)
Theorem seqspec_normalization (sf : DataFrame) :
  well_formed sf = true ->
  fresh_pivot_labels sf = true ->
  has_required sf = true ->
  exists out,
    rearrange_sequence_files sf = Ok out /\
    (forall o, In o (rows out) ->
       exists x, In x (rows sf) /\
                 (is_read "R1" sf x = true \/ is_read "R2" sf x = true) /\
                 cell_of out "Seqspecs" o
                 = normalize_seqspec (cell_of sf "Seqspecs" x)) /\
    (forall x, In x (rows sf) ->
       is_read "R1" sf x = true \/ is_read "R2" sf x = true ->
       exists o, In o (rows out) /\
                 cell_of out "Seqspecs" o
                 = normalize_seqspec (cell_of sf "Seqspecs" x)) /\
    normalize_seqspec NaN = Str "" /\
    normalize_seqspec (Str "") = Str "" /\
    (forall s g, search config_lit s = Some g ->
       normalize_seqspec (Str s) = Str g /\
       exists pre post,
         holds_segment config_lit pre g post s /\
         forall pre' g' post', holds_segment config_lit pre' g' post' s ->
                               (String.length pre <= String.length pre')%nat) /\
    (forall s pre g post, holds_segment config_lit pre g post s ->
       exists g', search config_lit s = Some g' /\
                  normalize_seqspec (Str s) = Str g') /\
    ((forall x, In x (rows sf) ->
        is_read "R1" sf x = true \/ is_read "R2" sf x = true ->
        extractable (cell_of sf "Seqspecs" x) = true) ->
     forall o, In o (rows out) -> cell_of out "Seqspecs" o <> NaN) /\
    normalize_seqspec (Str "https://api.data.igvf.org/configuration-files/XYZ123/")
    = Str "XYZ123".
Proof.
  intros _ Hfresh Hreq.
  assert (Hok : exists out, rearrange_sequence_files sf = Ok out).
  { destruct (empty sf) eqn:Hne.
    - exists empty_frame. now apply rearrange_empty.
    - destruct (rearrange_total sf Hfresh Hreq Hne) as [irt [p [_ [_ Hok]]]].
      eauto. }
  destruct Hok as [out Hok]. exists out. split; [exact Hok|].
  destruct (seqspecs_column sf out Hfresh Hok) as [Hfrom Hto].
  split; [exact Hfrom|]. split; [exact Hto|].
  split; [reflexivity|]. split; [reflexivity|].
  split.
  { intros s g Hs. split; [now apply normalize_match|now apply search_sound]. }
  split.
  { intros s pre g post Hh.
    destruct (search_complete _ _ _ _ _ Hh) as [g' Hg'].
    exists g'. split; [exact Hg'|now apply normalize_match]. }
  split; [|reflexivity].
  intros Hall o Ho. destruct (Hfrom o Ho) as [x [Hx [Hxt ->]]].
  apply normalize_extractable. now apply Hall.
Qed.

Lemma seqspec_normalization_witness :
  exists out,
    rearrange_sequence_files demo_files = Ok out /\
    forall o, In o (rows out) -> cell_of out "Seqspecs" o <> NaN.
Proof.
  destruct (seqspec_normalization demo_files)
    as [out [Hok [_ [_ [_ [_ [_ [_ [Hnn _]]]]]]]]]; try reflexivity.
  exists out. split; [exact Hok|]. apply Hnn.
  intros x Hx _. simpl in Hx.
  repeat (destruct Hx as [<-|Hx]; [reflexivity|]). destruct Hx.
Defined.

(** C10 as stated fails: the text 'nan' is non-empty and holds no
    '/configuration-files/<segment>/', yet it comes out as the empty text,
    not as null. *)
Lemma nan_text_becomes_empty :
  "nan" <> ""
  /\ search config_lit "nan" = None
  /\ (forall pre g post, ~ holds_segment config_lit pre g post "nan")
  /\ normalize_seqspec (Str "nan") = Str ""
  /\ rearrange_sequence_files (one_file (Str "nan"))
     = Ok (mkDF final_cols [one_pair_row (Str "")]).
Proof.
  split; [discriminate|]. split; [reflexivity|]. split.
  - intros pre g post H. destruct (search_complete _ _ _ _ _ H) as [g' Hg'].
    discriminate Hg'.
  - split; reflexivity.
Qed.

(** C10, amended.  A Seqspecs value of an R1 or R2 row whose text is not
    empty, is not 'nan' (the text a missing value is turned into, replaced
    by the empty text), and holds no '/configuration-files/' followed by a
    non-empty segment without '/' and a '/', is normalized to null: the
    pattern finds nothing in it, and the output has a row whose Seqspecs
    cell is null for it. *)
Theorem seqspec_without_segment_is_null (sf : DataFrame) (x : row) (s : string) :
  well_formed sf = true ->
  fresh_pivot_labels sf = true ->
  has_required sf = true ->
  In x (rows sf) ->
  is_read "R1" sf x = true \/ is_read "R2" sf x = true ->
  str_of (cell_of sf "Seqspecs" x) = s ->
  s <> "" ->
  s <> "nan" ->
  (forall pre g post, ~ holds_segment config_lit pre g post s) ->
  search config_lit s = None
  /\ normalize_seqspec (cell_of sf "Seqspecs" x) = NaN
  /\ exists out o,
       rearrange_sequence_files sf = Ok out /\ In o (rows out) /\
       cell_of out "Seqspecs" o = NaN.
Proof.
  intros _ Hfresh Hreq Hx Hxt Hcell Hne Hnan Hno.
  assert (Hs : search config_lit s = None).
  { destruct (search config_lit s) as [g|] eqn:Hs; [|reflexivity].
    destruct (search_sound _ _ _ Hs) as [pre [post [Hh _]]].
    now contradiction (Hno pre g post). }
  split; [exact Hs|].
  assert (Hnorm : normalize_seqspec (cell_of sf "Seqspecs" x) = NaN).
  { rewrite normalize_text, Hcell. now apply normalize_no_match. }
  split; [exact Hnorm|].
  assert (Hok : exists out, rearrange_sequence_files sf = Ok out).
  { destruct (empty sf) eqn:Hemp.
    - exists empty_frame. now apply rearrange_empty.
    - destruct (rearrange_total sf Hfresh Hreq Hemp) as [irt [p [_ [_ Hok]]]].
      eauto. }
  destruct Hok as [out Hok].
  destruct (seqspecs_column sf out Hfresh Hok) as [_ Hto].
  destruct (Hto x Hx Hxt) as [o [Ho Hval]].
  exists out, o. repeat split; auto.
  now rewrite Hval.
Qed.

Lemma seqspec_without_segment_is_null_witness :
  search config_lit "s3://bucket/layout.yaml" = None
  /\ normalize_seqspec (Str "s3://bucket/layout.yaml") = NaN
  /\ exists out o,
       rearrange_sequence_files (one_file (Str "s3://bucket/layout.yaml"))
       = Ok out
       /\ In o (rows out) /\ cell_of out "Seqspecs" o = NaN.
Proof.
  apply (seqspec_without_segment_is_null
           (one_file (Str "s3://bucket/layout.yaml"))
           [Str "/sequence-files/F1/"; Str "F1"; Str "R1"; Num 1; Str "m1";
            Str "FC1"; Str "s3://bucket/layout.yaml"; Str "MS1"; Str "scRNA"]
           "s3://bucket/layout.yaml");
    try reflexivity; try discriminate.
  - simpl. auto.
  - left. reflexivity.
  - intros pre g post H. destruct (search_complete _ _ _ _ _ H) as [g' Hg'].
    discriminate Hg'.
Defined.

(** * Keys of the output *)

Lemma side_rows_reads (sf : DataFrame) (t : string) (irt : nat) (p : list nat) :
  col_index "Illumina Read Type" (columns sf) = Some irt ->
  locate source_cols (columns sf) = Some p ->
  side_rows t irt p (rows sf) = map (side_view sf) (reads t sf).
Proof.
  intros Hirt Hp. unfold side_rows, reads.
  rewrite (filter_ext (is_read t sf) (fun r => cell_eqb (at_ irt r) (Str t))).
  - apply map_ext. intros r. now apply take_located.
  - intros r. unfold is_read, cell_of. now rewrite Hirt.
Qed.

Lemma filter_none {A : Type} (p : A -> bool) (l : list A) :
  (forall x, In x l -> p x = false) -> filter p l = [].
Proof.
  induction l as [|a l IH]; simpl; intros H; [reflexivity|].
  rewrite (H a (or_introl eq_refl)). apply IH. intros x Hx. apply H. now right.
Qed.

Lemma filter_key_unique (f : row -> list cell) (k : list cell) (rs : list row) :
  NoDup (map f rs) ->
  (length (filter (fun r => keys_eqb k (f r)) rs) <= 1)%nat.
Proof.
  induction rs as [|r rs IH]; simpl; intros Hnd; [lia|].
  inversion Hnd as [|? ? Hnotin Hnd']; subst.
  destruct (keys_eqb_spec k (f r)) as [->|Hk]; [|now apply IH].
  simpl. rewrite filter_none; [simpl; lia|].
  intros r' Hr'. destruct (keys_eqb_spec (f r) (f r')) as [Heq|]; [|reflexivity].
  exfalso. apply Hnotin. rewrite Heq. now apply in_map.
Qed.

Lemma take_key_app (l t : row) :
  length l = 7%nat -> take [0; 1; 2; 5; 6] (l ++ t) = take [0; 1; 2; 5; 6] l.
Proof.
  intros H. do 7 (destruct l as [|? l]; [discriminate|]).
  destruct l; [reflexivity|discriminate].
Qed.

(** Rows selected from rows with distinct keys have distinct keys. *)
Lemma distinct_keys_selected :
  forall (key : row -> list cell) (keep : row -> bool) (rs : list row),
    NoDup (map key rs) -> NoDup (map key (filter keep rs)).
Proof.
  intros key keep rs. induction rs as [|r rs IH]; intros Hnd.
  - constructor.
  - cbn [map] in Hnd. apply NoDup_cons_iff in Hnd. destruct Hnd as [Hnew Hnd].
    cbn [filter]. destruct (keep r); [|now apply IH].
    cbn [map]. apply NoDup_cons; [|now apply IH].
    intros Hin. apply Hnew. apply in_map_iff in Hin.
    destruct Hin as [r' [Hk Hr']]. apply filter_In in Hr'.
    rewrite <- Hk. apply in_map. tauto.
Qed.

Lemma matched_keys (rs ls : list row) :
  NoDup (map (take [0; 1; 2; 5; 6]) rs) ->
  Forall (fun l => length l = 7%nat) ls ->
  map (take [0; 1; 2; 5; 6])
    (flat_map
       (fun l =>
          match filter (fun r => keys_eqb (take [0; 1; 2; 5; 6] l)
                                   (take [0; 1; 2; 5; 6] r)) rs with
          | [] => [l ++ repeat NaN (length [3; 4]%nat)]
          | ms => map (fun r => l ++ take [3; 4] r) ms
          end) ls)
  = map (take [0; 1; 2; 5; 6]) ls.
Proof.
  intros Hrs. induction 1 as [|l ls Hl Hls IH]; [reflexivity|].
  cbn [flat_map]. rewrite map_app.
  change (map (take [0; 1; 2; 5; 6]) (l :: ls))
    with ([take [0; 1; 2; 5; 6] l] ++ map (take [0; 1; 2; 5; 6]) ls).
  f_equal; [|exact IH].
  pose proof (filter_key_unique (take [0; 1; 2; 5; 6])
                (take [0; 1; 2; 5; 6] l) rs Hrs) as Hle.
  destruct (filter _ rs) as [|r [|r' ms]].
  - cbn [map]. now rewrite take_key_app.
  - cbn [map]. now rewrite take_key_app.
  - simpl in Hle. lia.
Qed.

Section MergeKeys.

Variables ls rs : list row.
Hypothesis ls_long : Forall (fun l => length l = 7%nat) ls.
Hypothesis ls_distinct : NoDup (map (take [0; 1; 2; 5; 6]) ls).
Hypothesis rs_distinct : NoDup (map (take [0; 1; 2; 5; 6]) rs).

Lemma merge_keys_distinct :
  NoDup (map (take [0; 1; 2; 5; 6])
           (merge_rows [0; 1; 2; 5; 6] [0; 1; 2; 5; 6] [3; 4]
              join_key r1_cols r2_cols ls rs)).
Proof.
  unfold merge_rows. rewrite map_app, matched_keys, map_map by assumption.
  apply NoDup_app.
  - exact ls_distinct.
  - apply (distinct_keys_selected
             (fun r => take [0; 1; 2; 5; 6]
                         (left_of_right join_key r1_cols r2_cols r
                          ++ take [3; 4] r))).
    exact rs_distinct.
  - intros k Hl Hr. apply in_map_iff in Hl. destruct Hl as [l [Hk Hl]].
    apply in_map_iff in Hr. destruct Hr as [r [Hk' Hr]].
    apply filter_In in Hr. destruct Hr as [_ Hun].
    apply negb_true_iff in Hun.
    assert (Hex : existsb (fun l => keys_eqb (take [0; 1; 2; 5; 6] l)
                                      (take [0; 1; 2; 5; 6] r)) ls = true);
      [|congruence].
    apply existsb_exists. exists l. split; [exact Hl|].
    apply keys_eqb_eq. rewrite Hk. rewrite <- Hk'. reflexivity.
Qed.

End MergeKeys.

Lemma merged_key_source (sf : DataFrame) (irt : nat) (p : list nat) (m : row) :
  col_index "Illumina Read Type" (columns sf) = Some irt ->
  locate source_cols (columns sf) = Some p ->
  In m (merged_rows irt p p (rows sf)) ->
  exists z, In z (rows sf) /\
            (is_read "R1" sf z = true \/ is_read "R2" sf z = true) /\
            take [0; 1; 2; 5; 6] m = composite_key sf z.
Proof.
  intros Hirt Hp Hm. unfold merged_rows in Hm. apply merge_rows_In in Hm.
  destruct Hm as [[l [r [Hl [_ [_ ->]]]]]|[[l [Hl [_ ->]]]|[r [Hr [_ ->]]]]].
  - apply (side_rows_In sf "R1" irt p l Hirt Hp) in Hl.
    destruct Hl as [x [Hx [Hxt ->]]]. exists x. auto.
  - apply (side_rows_In sf "R1" irt p l Hirt Hp) in Hl.
    destruct Hl as [x [Hx [Hxt ->]]]. exists x. auto.
  - apply (side_rows_In sf "R2" irt p r Hirt Hp) in Hr.
    destruct Hr as [y [Hy [Hyt ->]]]. exists y. auto.
Qed.

Lemma normalized_key (m : row) :
  (6 < length m)%nat ->
  take [0; 1; 2; 5; 6] (set_nth 6 (normalize_seqspec (at_ 6 m)) m)
  = set_nth 4 (normalize_seqspec (at_ 4 (take [0; 1; 2; 5; 6] m)))
      (take [0; 1; 2; 5; 6] m).
Proof.
  intros H. do 7 (destruct m as [|? m]; [simpl in H; lia|]). reflexivity.
Qed.

(** C5 as stated fails: two R1 files sharing the composite key give two
    different output rows with one and the same key. *)
Lemma twin_files_share_key :
  exists out o1 o2,
    rearrange_sequence_files twin_files = Ok out /\
    rows out = [o1; o2] /\
    o1 <> o2 /\
    composite_key out o1 = composite_key out o2 /\
    ~ NoDup (map (composite_key out) (rows out)).
Proof.
  eexists. eexists. eexists.
  split; [reflexivity|]. split; [reflexivity|].
  split; [discriminate|]. split; [reflexivity|].
  intros H. cbn in H. inversion H as [|? ? Hnotin _]; subst.
  apply Hnotin. now left.
Qed.

(** C5, amended.  If no two R1 rows of the input share the composite key
    (Lane, measurement_sets, file_modality, Flowcell ID, Seqspecs), no two
    R2 rows share it, and the normalization identifies no two different
    Seqspecs cells of R1 or R2 rows, then the Reshaper returns a table whose
    rows have pairwise different keys. *)
Theorem output_keys_distinct (sf : DataFrame) :
  well_formed sf = true ->
  fresh_pivot_labels sf = true ->
  has_required sf = true ->
  NoDup (map (composite_key sf) (reads "R1" sf)) ->
  NoDup (map (composite_key sf) (reads "R2" sf)) ->
  seqspecs_separated sf ->
  exists out,
    rearrange_sequence_files sf = Ok out /\
    NoDup (map (composite_key out) (rows out)).
Proof.
  intros _ Hfresh Hreq Hn1 Hn2 Hsep.
  destruct (empty sf) eqn:Hne.
  { exists empty_frame. split; [now apply rearrange_empty|constructor]. }
  destruct (rearrange_total sf Hfresh Hreq Hne) as [irt [p [Hirt [Hp Hok]]]].
  eexists. split; [exact Hok|]. cbn [rows]. unfold pivot_rows.
  rewrite map_map.
  rewrite (map_ext _ (take [0; 1; 2; 5; 6])) by (intros m; reflexivity).
  eapply Permutation_NoDup.
  { apply Permutation_map. apply sort_rows_perm. }
  rewrite map_map.
  eapply Permutation_NoDup.
  { apply Permutation_map. apply sort_rows_perm. }
  assert (Hlong := merged_rows_long irt p p (rows sf)
                     (locate_length _ _ _ Hp)).
  rewrite Forall_forall in Hlong.
  rewrite (map_ext_in _
             (fun m => set_nth 4 (normalize_seqspec
                                    (at_ 4 (take [0; 1; 2; 5; 6] m)))
                         (take [0; 1; 2; 5; 6] m)))
    by (intros m Hm; apply normalized_key; now apply Hlong).
  rewrite <- (map_map (take [0; 1; 2; 5; 6])
                (fun k => set_nth 4 (normalize_seqspec (at_ 4 k)) k)).
  apply NoDup_map_NoDup_ForallPairs.
  - intros a b Ha Hb Hab.
    apply in_map_iff in Ha. destruct Ha as [m1 [<- Hm1]].
    apply in_map_iff in Hb. destruct Hb as [m2 [<- Hm2]].
    destruct (merged_key_source sf irt p m1 Hirt Hp Hm1) as [z1 [Hz1 [Ht1 Hk1]]].
    destruct (merged_key_source sf irt p m2 Hirt Hp Hm2) as [z2 [Hz2 [Ht2 Hk2]]].
    rewrite Hk1, Hk2 in *. unfold composite_key, join_key in *.
    cbn [map] in *. cbn in Hab. inversion Hab as [[Ha1 Ha2 Ha3 Ha4 Hn]].
    rewrite (Hsep z1 z2 Hz1 Hz2 Ht1 Ht2 Hn). reflexivity.
  - unfold merged_rows.
    rewrite !(side_rows_reads sf _ irt p Hirt Hp).
    apply merge_keys_distinct.
    + apply Forall_forall. intros l Hl. apply in_map_iff in Hl.
      destruct Hl as [x [<- _]]. reflexivity.
    + rewrite map_map.
      rewrite (map_ext _ (composite_key sf)) by (intros x; reflexivity).
      exact Hn1.
    + rewrite map_map.
      rewrite (map_ext _ (composite_key sf)) by (intros x; reflexivity).
      exact Hn2.
Qed.

Lemma output_keys_distinct_witness :
  exists out,
    rearrange_sequence_files demo_files = Ok out /\
    NoDup (map (composite_key out) (rows out)).
Proof.
  apply (output_keys_distinct demo_files); try reflexivity.
  - cbn. repeat constructor; simpl; intuition discriminate.
  - cbn. repeat constructor; simpl; intuition discriminate.
  - intros x y Hx Hy _ _ Hn. simpl in Hx, Hy.
    decompose [or] Hx; try contradiction; subst x;
      decompose [or] Hy; try contradiction; subst y;
      try reflexivity; vm_compute in Hn; discriminate Hn.
Defined.

(** * The fetcher *)

Lemma split_nonempty (sep : ascii) (s : string) : PyStr.split sep s <> [].
Proof.
  destruct s as [|c s]; simpl; [discriminate|].
  destruct (Ascii.eqb c sep); [discriminate|].
  destruct (PyStr.split sep s); discriminate.
Qed.

Lemma split_no_sep (sep : ascii) (s : string) :
  Forall (fun x => PyStr.mem sep x = false) (PyStr.split sep s).
Proof.
  induction s as [|c s IH]; simpl.
  - repeat constructor.
  - destruct (Ascii.eqb c sep) eqn:Hc.
    + constructor; [reflexivity|exact IH].
    + destruct (PyStr.split sep s) as [|h t].
      * repeat constructor. simpl. now rewrite Hc.
      * inversion IH; subst. constructor; [|assumption].
        simpl. rewrite Hc. assumption.
Qed.

Lemma split_app (sep : ascii) (x rest : string) :
  PyStr.mem sep x = false ->
  PyStr.split sep (x ++ String sep rest)%string = x :: PyStr.split sep rest.
Proof.
  induction x as [|c x IH]; simpl; intros H.
  - now rewrite Ascii.eqb_refl.
  - apply orb_false_iff in H. destruct H as [Hc Hx].
    rewrite Hc, (IH Hx). reflexivity.
Qed.

Lemma split_none (sep : ascii) (x : string) :
  PyStr.mem sep x = false -> PyStr.split sep x = [x].
Proof.
  induction x as [|c x IH]; simpl; intros H; [reflexivity|].
  apply orb_false_iff in H. destruct H as [Hc Hx].
  rewrite Hc, (IH Hx). reflexivity.
Qed.

(** Splitting what was joined gives the pieces back. *)
Lemma split_join (sep : ascii) (pieces : list string) :
  pieces <> [] ->
  Forall (fun x => PyStr.mem sep x = false) pieces ->
  PyStr.split sep (PyStr.join (String sep "") pieces) = pieces.
Proof.
  intros Hne Hall. induction Hall as [|x l Hx Hl IH]; [contradiction|].
  destruct l as [|y l].
  - simpl. now apply split_none.
  - change (PyStr.join (String sep "") (x :: y :: l))
      with (x ++ String sep (PyStr.join (String sep "") (y :: l)))%string.
    rewrite split_app by exact Hx. f_equal. apply IH. discriminate.
Qed.

Lemma filter_all {A : Type} (p : A -> bool) (l : list A) :
  (forall x, In x l -> p x = true) -> filter p l = l.
Proof.
  induction l as [|a l IH]; simpl; intros H; [reflexivity|].
  rewrite (H a (or_introl eq_refl)). f_equal. apply IH.
  intros x Hx. apply H. now right.
Qed.

Lemma filter_drop_leading (lines : list string) :
  (forall line, In line (drop_leading_stamps lines) ->
                PyStr.startswith "20" line = false) ->
  filter (fun line => negb (PyStr.startswith "20" line)) lines
  = drop_leading_stamps lines.
Proof.
  induction lines as [|l lines IH]; cbn [filter drop_leading_stamps];
    [reflexivity|].
  destruct (PyStr.startswith "20" l) eqn:Hl; cbn [negb]; intros H.
  - now apply IH.
  - f_equal. apply filter_all. intros line Hin.
    rewrite (H line (or_intror Hin)). reflexivity.
Qed.

Lemma rstrip_idem (s : string) : PyStr.rstrip (PyStr.rstrip s) = PyStr.rstrip s.
Proof.
  induction s as [|c s IH]; simpl; [reflexivity|].
  destruct (PyStr.rstrip s) as [|d r] eqn:Hr.
  - destruct (PyStr.isspace c) eqn:Hc; simpl; [reflexivity|now rewrite Hc].
  - simpl. simpl in IH. rewrite IH. reflexivity.
Qed.

Lemma lstrip_fixed (c : ascii) (s : string) :
  PyStr.isspace c = false -> PyStr.lstrip (String c s) = String c s.
Proof. simpl. now intros ->. Qed.

Lemma lstrip_head (s : string) :
  PyStr.lstrip s = "" \/
  exists c t, PyStr.lstrip s = String c t /\ PyStr.isspace c = false.
Proof.
  induction s as [|c s IH]; simpl; [now left|].
  destruct (PyStr.isspace c) eqn:Hc; [exact IH|]. right. eauto.
Qed.

Lemma rstrip_head (c : ascii) (t : string) :
  PyStr.isspace c = false ->
  exists r, PyStr.rstrip (String c t) = String c r.
Proof.
  intros Hc. simpl. destruct (PyStr.rstrip t); [rewrite Hc|]; eauto.
Qed.

(** A stripped label is left alone by [strip]. *)
Lemma strip_idem (s : string) : PyStr.strip (PyStr.strip s) = PyStr.strip s.
Proof.
  unfold PyStr.strip.
  destruct (lstrip_head s) as [->|[c [t [-> Hc]]]]; [reflexivity|].
  destruct (rstrip_head c t Hc) as [r Hr].
  rewrite Hr, (lstrip_fixed c r Hc), <- Hr. apply rstrip_idem.
Qed.

(** C2 as stated fails: on [lane_page] the data line of lane 20 comes after
    the leading timestamp line, starts with "20", and is not handed to the
    parser; the parsed table has lost the file of lane 20. *)
Lemma later_stamp_line_dropped :
  In (tsv_line ["20"; "F1"])
     (drop_leading_stamps (PyStr.split PyStr.LF lane_page))
  /\ ~ In (tsv_line ["20"; "F1"]) (PyStr.split PyStr.LF (tsv_data lane_page))
  /\ tsv_data lane_page
     = PyStr.join PyStr.lf [tsv_line ["Lane"; "Accession"]; tsv_line ["3"; "F2"]]
  /\ tsv_data lane_page
     <> PyStr.join PyStr.lf
          (drop_leading_stamps (PyStr.split PyStr.LF lane_page))
  /\ fetch_data (site_get [("page", lane_page)]) tsv_reader "page" "key" "secret"
     = (["page"], Ok (mkDF ["Lane"; "Accession"] [[Num 3; Str "F2"]])).
Proof.
  split; [vm_compute; tauto|].
  split; [vm_compute; intuition discriminate|].
  split; [reflexivity|].
  split; [vm_compute; discriminate|reflexivity].
Qed.

(** C2, amended.  When the transport answers, the fetcher requests the URL
    once and hands to the parser the body's lines that do not start with
    "20", in their order, joined by newlines: every line starting with "20"
    is discarded wherever it stands, and every other line is kept.  Unless
    all lines are discarded, the lines of the text handed over are exactly
    the kept lines.  When no line after the leading ones starts with "20",
    what is discarded is exactly the leading lines.  The labels of the
    returned table are the parsed labels stripped of surrounding
    whitespace, the rows are the parsed rows. *)
Theorem fetch_data_discards_stamp_lines
    (http_get : string -> string -> string -> option string)
    (read_csv : string -> outcome DataFrame)
    (url access_key secret_key text : string) :
  http_get url access_key secret_key = Some text ->
  fetch_data http_get read_csv url access_key secret_key
  = ([url], df <- read_csv (tsv_data text) ;; Ok (strip_columns df))
  /\ tsv_data text = PyStr.join PyStr.lf (kept_lines text)
  /\ (forall line,
        In line (kept_lines text) <->
        In line (PyStr.split PyStr.LF text)
        /\ PyStr.startswith "20" line = false)
  /\ (kept_lines text <> [] ->
      PyStr.split PyStr.LF (tsv_data text) = kept_lines text)
  /\ ((forall line,
         In line (drop_leading_stamps (PyStr.split PyStr.LF text)) ->
         PyStr.startswith "20" line = false) ->
      kept_lines text = drop_leading_stamps (PyStr.split PyStr.LF text))
  /\ (forall parsed,
        read_csv (tsv_data text) = Ok parsed ->
        exists df,
          result_of (fetch_data http_get read_csv url access_key secret_key)
          = Ok df
          /\ columns df = map PyStr.strip (columns parsed)
          /\ rows df = rows parsed
          /\ forall c, In c (columns df) -> PyStr.strip c = c).
Proof.
  intros Hget. unfold fetch_data. rewrite Hget.
  split; [reflexivity|]. split; [reflexivity|]. split.
  { intros line. unfold kept_lines. rewrite filter_In, negb_true_iff. tauto. }
  split.
  { intros Hne. unfold tsv_data. apply split_join; [exact Hne|].
    unfold kept_lines. apply Forall_forall. intros line Hin.
    apply filter_In in Hin. destruct Hin as [Hin _].
    pose proof (split_no_sep PyStr.LF text) as Hall.
    rewrite Forall_forall in Hall. now apply Hall. }
  split.
  { intros Hlater. unfold kept_lines. now apply filter_drop_leading. }
  intros parsed Hparsed. rewrite Hparsed. cbn [bind result_of snd].
  exists (strip_columns parsed). repeat split.
  intros c Hc. cbn [strip_columns columns] in Hc.
  apply in_map_iff in Hc. destruct Hc as [c0 [<- _]]. apply strip_idem.
Qed.

Lemma fetch_data_discards_stamp_lines_witness :
  fetch_data (site_get demo_site) tsv_reader (aux_url "IGVFDS0003")
    "key" "secret"
  = ([aux_url "IGVFDS0003"],
     Ok (mkDF file_header
           [[Str "/sequence-files/G1/"; Str "G1"; Str "R1"; Num 1; Str "g1";
             Str (spec_ref "S2")]])).
Proof.
  destruct (fetch_data_discards_stamp_lines (site_get demo_site) tsv_reader
              (aux_url "IGVFDS0003") "key" "secret"
              (tsv_body "2024-05-01 10:00:01.000000"
                 [file_header;
                  ["/sequence-files/G1/"; "G1"; "R1"; "1"; "g1"; spec_ref "S2"]])
              eq_refl) as [Hfetch _].
  rewrite Hfetch. reflexivity.
Defined.

(** * The Sequence-File Enumerator *)

Lemma split_length_mem (sep : ascii) (s : string) :
  PyStr.mem sep s = true -> (2 <= length (PyStr.split sep s))%nat.
Proof.
  induction s as [|c s IH]; simpl; [discriminate|].
  destruct (Ascii.eqb c sep) eqn:Hc; simpl.
  - intros _. pose proof (split_nonempty sep s).
    destruct (PyStr.split sep s); [contradiction|simpl; lia].
  - intros H. specialize (IH H).
    destruct (PyStr.split sep s); simpl in *; lia.
Qed.

Lemma second_to_last_raises (s : string) :
  second_to_last s = Raise IndexError <-> PyStr.mem "/" s = false.
Proof.
  unfold second_to_last. split.
  - destruct (PyStr.mem "/" s) eqn:Hm; [|reflexivity].
    pose proof (split_length_mem "/" s Hm) as Hlen.
    destruct (Nat.ltb_spec (length (PyStr.split "/" s)) 2); [lia|discriminate].
  - intros Hm. now rewrite (split_none "/" s Hm).
Qed.

Lemma second_to_last_defined (s : string) :
  PyStr.mem "/" s = true -> exists id, second_to_last s = Ok id.
Proof.
  intros Hm. unfold second_to_last.
  pose proof (split_length_mem "/" s Hm) as Hlen.
  destruct (Nat.ltb_spec (length (PyStr.split "/" s)) 2); [lia|eauto].
Qed.

Section EnumeratorFacts.

Variable http_get : string -> string -> string -> option string.
Variable read_csv : string -> outcome DataFrame.
Variables access_key secret_key : string.

Lemma fetch_data_requested (url : string) :
  fetch_data http_get read_csv url access_key secret_key
  = ([url], result_of (fetch_data http_get read_csv url access_key secret_key)).
Proof. reflexivity. Qed.

Lemma fetch_stamped_ok (url : string) (m : cell) (label : string)
    (df : DataFrame) :
  result_of (fetch_data http_get read_csv url access_key secret_key) = Ok df ->
  fetch_stamped http_get read_csv url m label access_key secret_key
  = ([url], Ok (stamp df m label)).
Proof.
  intros H. unfold fetch_stamped. rewrite fetch_data_requested, H. reflexivity.
Qed.

Variable result : DataFrame.
Variable r : row.
Variable all_tables : list DataFrame.
Variables m aux : cell.
Variable df0 : DataFrame.

Hypothesis measurement_id_read : row_get result r "measurement_sets" = Ok m.
Hypothesis aux_read : row_get result r "associated_auxiliary_sets" = Ok aux.
Hypothesis aux_present : notna aux = true.
Hypothesis ms_fetched :
  result_of (fetch_data http_get read_csv (ms_url (str_of m))
               access_key secret_key) = Ok df0.


Lemma link_step_two (a b : string) (rest : list string) (ia ib : string)
    (df1 df2 : DataFrame) :
  aux_refs aux = a :: b :: rest ->
  second_to_last a = Ok ia ->
  second_to_last b = Ok ib ->
  result_of (fetch_data http_get read_csv (aux_url ia) access_key secret_key)
  = Ok df1 ->
  result_of (fetch_data http_get read_csv (aux_url ib) access_key secret_key)
  = Ok df2 ->
  link_step http_get read_csv result r access_key secret_key all_tables
  = ([ms_url (str_of m); aux_url ia; aux_url ib],
     Ok (all_tables ++ [stamp df0 m "scRNA"] ++ [stamp df1 m "gRNA"]
         ++ [stamp df2 m "hash"])).
Proof.
  intros Hsets Hia Hib Hf1 Hf2. unfold link_step.
  rewrite measurement_id_read. cbn [lift io_bind].
  rewrite (fetch_stamped_ok _ m "scRNA" df0 ms_fetched).
  rewrite aux_read. cbn [lift io_bind]. rewrite aux_present.
  fold (aux_refs aux). rewrite Hsets.
  cbn [length Nat.eqb combine aux_types aux_loop].
  rewrite Hia. cbn [lift io_bind].
  rewrite (fetch_stamped_ok _ m "gRNA" df1 Hf1).
  rewrite Hib. cbn [lift io_bind].
  rewrite (fetch_stamped_ok _ m "hash" df2 Hf2).
  cbn [ret io_bind app]. now rewrite <- !app_assoc.
Qed.

Lemma link_step_first_bad (a : string) (rest : list string) :
  aux_refs aux = a :: rest ->
  PyStr.mem "/" a = false ->
  link_step http_get read_csv result r access_key secret_key all_tables
  = ([ms_url (str_of m)], Raise IndexError).
Proof.
  intros Hsets Hbad. apply second_to_last_raises in Hbad. unfold link_step.
  rewrite measurement_id_read. cbn [lift io_bind].
  rewrite (fetch_stamped_ok _ m "scRNA" df0 ms_fetched).
  rewrite aux_read. cbn [lift io_bind]. rewrite aux_present.
  fold (aux_refs aux). rewrite Hsets.
  destruct rest as [|b rest].
  - cbn [length Nat.eqb nth]. rewrite Hbad. reflexivity.
  - cbn [length Nat.eqb combine aux_types aux_loop]. rewrite Hbad. reflexivity.
Qed.

Lemma link_step_second_bad (a b : string) (rest : list string) (ia : string)
    (df1 : DataFrame) :
  aux_refs aux = a :: b :: rest ->
  second_to_last a = Ok ia ->
  result_of (fetch_data http_get read_csv (aux_url ia) access_key secret_key)
  = Ok df1 ->
  PyStr.mem "/" b = false ->
  link_step http_get read_csv result r access_key secret_key all_tables
  = ([ms_url (str_of m); aux_url ia], Raise IndexError).
Proof.
  intros Hsets Hia Hf1 Hbad. apply second_to_last_raises in Hbad.
  unfold link_step.
  rewrite measurement_id_read. cbn [lift io_bind].
  rewrite (fetch_stamped_ok _ m "scRNA" df0 ms_fetched).
  rewrite aux_read. cbn [lift io_bind]. rewrite aux_present.
  fold (aux_refs aux). rewrite Hsets.
  cbn [length Nat.eqb combine aux_types aux_loop].
  rewrite Hia. cbn [lift io_bind].
  rewrite (fetch_stamped_ok _ m "gRNA" df1 Hf1).
  rewrite Hbad. reflexivity.
Qed.

Lemma link_step_first_fetch_fails (a b : string) (rest : list string)
    (ia : string) :
  aux_refs aux = a :: b :: rest ->
  second_to_last a = Ok ia ->
  (forall df,
     result_of (fetch_data http_get read_csv (aux_url ia) access_key secret_key)
     <> Ok df) ->
  forall tables,
    result_of (link_step http_get read_csv result r access_key secret_key
                 all_tables) <> Ok tables.
Proof.
  intros Hsets Hia Hfail tables. unfold link_step.
  rewrite measurement_id_read. cbn [lift io_bind].
  rewrite (fetch_stamped_ok _ m "scRNA" df0 ms_fetched).
  rewrite aux_read. cbn [lift io_bind]. rewrite aux_present.
  fold (aux_refs aux). rewrite Hsets.
  cbn [length Nat.eqb combine aux_types aux_loop].
  rewrite Hia. cbn [lift io_bind].
  unfold fetch_stamped. rewrite fetch_data_requested.
  destruct (result_of (fetch_data http_get read_csv (aux_url ia)
                         access_key secret_key)) as [df|e|c] eqn:Hr;
    cbn; try discriminate.
  now contradiction (Hfail df).
Qed.

(** Returning normally takes a '/' in the first reference and, when there
    is one, in the second. *)
Lemma link_step_needs_slashes (tables : list DataFrame) :
  result_of (link_step http_get read_csv result r access_key secret_key
               all_tables) = Ok tables ->
  forall a rest, aux_refs aux = a :: rest ->
    PyStr.mem "/" a = true
    /\ forall b rest', rest = b :: rest' -> PyStr.mem "/" b = true.
Proof.
  intros Hok a rest Hsets.
  assert (Ha : PyStr.mem "/" a = true).
  { destruct (PyStr.mem "/" a) eqn:Hm; [reflexivity|].
    rewrite (link_step_first_bad a rest Hsets Hm) in Hok. discriminate. }
  split; [exact Ha|]. intros b rest' ->.
  destruct (PyStr.mem "/" b) eqn:Hb; [reflexivity|exfalso].
  destruct (second_to_last_defined a Ha) as [ia Hia].
  destruct (result_of (fetch_data http_get read_csv (aux_url ia)
                         access_key secret_key)) as [df1|e|c] eqn:Hf1.
  - rewrite (link_step_second_bad a b rest' ia df1 Hsets Hia Hf1 Hb) in Hok.
    discriminate.
  - apply (link_step_first_fetch_fails a b rest' ia Hsets Hia) with (tables := tables);
      [|exact Hok].
    intros df. rewrite Hf1. discriminate.
  - apply (link_step_first_fetch_fails a b rest' ia Hsets Hia) with (tables := tables);
      [|exact Hok].
    intros df. rewrite Hf1. discriminate.
Qed.

End EnumeratorFacts.

(** ** Stamps and concatenation *)

Lemma col_index_bound (c : string) (cols : list string) (i : nat) :
  col_index c cols = Some i -> (i < length cols)%nat /\ nth i cols "" = c.
Proof.
  revert i; induction cols as [|d cols IH]; simpl; intros i H; [discriminate|].
  destruct (String.eqb_spec d c) as [->|Hdc].
  - inversion H; subst. split; [lia|reflexivity].
  - destruct (col_index c cols) as [j|]; [|discriminate].
    inversion H; subst. destruct (IH j eq_refl). split; [lia|assumption].
Qed.

Lemma col_index_app_new (c : string) (cols : list string) :
  col_index c cols = None -> col_index c (cols ++ [c]) = Some (length cols).
Proof.
  induction cols as [|d cols IH]; simpl; intros H.
  - now rewrite String.eqb_refl.
  - destruct (String.eqb d c); [discriminate|].
    destruct (col_index c cols); [discriminate|].
    now rewrite IH.
Qed.

Lemma col_index_app_old (c d : string) (cols : list string) (i : nat) :
  col_index c cols = Some i -> col_index c (cols ++ [d]) = Some i.
Proof.
  revert i; induction cols as [|e cols IH]; simpl; intros i H; [discriminate|].
  destruct (String.eqb e c); [exact H|].
  destruct (col_index c cols) as [j|]; [|discriminate].
  now rewrite (IH j eq_refl).
Qed.

Lemma at_app_last (r : row) (v : cell) : at_ (length r) (r ++ [v]) = v.
Proof. unfold at_. now rewrite nth_middle. Qed.

Lemma at_app_old (r : row) (v : cell) (i : nat) :
  (i < length r)%nat -> at_ i (r ++ [v]) = at_ i r.
Proof. intros H. unfold at_. now apply app_nth1. Qed.


Lemma setitem_fit (df : DataFrame) (c : string) (v : cell) :
  rows_fit df -> rows_fit (setitem df c v).
Proof.
  unfold rows_fit, setitem. intros H.
  destruct (col_index c (columns df)) as [i|]; cbn [columns rows];
    apply Forall_map; eapply Forall_impl; try exact H; intros r Hr; cbn beta.
  - now rewrite set_nth_length.
  - rewrite !length_app, Hr. reflexivity.
Qed.

Lemma well_formed_fit (df : DataFrame) : well_formed df = true -> rows_fit df.
Proof.
  unfold well_formed, rows_fit. intros H. apply andb_true_iff in H.
  destruct H as [_ H]. rewrite forallb_forall in H.
  apply Forall_forall. intros r Hr. apply Nat.eqb_eq. now apply H.
Qed.

Lemma inb_In (c : string) (cs : list string) : inb c cs = true <-> In c cs.
Proof.
  unfold inb. rewrite existsb_exists. split.
  - intros [d [Hd Heq]]. apply String.eqb_eq in Heq. now subst.
  - intros H. exists c. split; [exact H|apply String.eqb_refl].
Qed.

Lemma union_labels_acc (tables : list DataFrame) (acc : list string) (c : string) :
  In c acc \/ (exists t, In t tables /\ In c (columns t)) ->
  In c (fold_left
          (fun acc t => acc ++ filter (fun c => negb (inb c acc)) (columns t))
          tables acc).
Proof.
  revert acc; induction tables as [|t tables IH]; simpl; intros acc H.
  - destruct H as [H|[t [[] _]]]. exact H.
  - apply IH. destruct H as [H|[t' [[<-|Ht'] Hc]]].
    + left. apply in_or_app. now left.
    + left. apply in_or_app.
      destruct (inb c acc) eqn:Hin.
      * left. now apply inb_In.
      * right. apply filter_In. split; [exact Hc|now rewrite Hin].
    + right. eauto.
Qed.

Lemma setitem_has (df : DataFrame) (c : string) (v : cell) :
  has_label c (columns (setitem df c v)) = true.
Proof.
  unfold setitem, has_label.
  destruct (col_index c (columns df)) as [i|] eqn:Hi; cbn [columns].
  - now rewrite Hi.
  - now rewrite (col_index_app_new c _ Hi).
Qed.










(** C9 as stated fails: a third reference without any '/' has fewer than
    two '/'-separated components, yet the Enumerator returns normally, with
    three requests; and a reference with a '/' but no trailing slash raises
    nothing either. *)
Lemma third_reference_unchecked :
  aux_refs (Str (ref3 ++ ", " ++ ref4 ++ ", junk")) = [ref3; ref4; "junk"]
  /\ PyStr.mem "/" "junk" = false
  /\ second_to_last "junk" = Raise IndexError
  /\ (exists df,
        get_sequence_files (site_get demo_site) tsv_reader
          (demo_links (Str (ref3 ++ ", " ++ ref4 ++ ", junk"))) "key" "secret"
        = ([ms_url "IGVFDS0002"; aux_url "IGVFDS0003"; aux_url "IGVFDS0004"],
           Ok df)
        /\ length (rows df) = 4%nat)
  /\ second_to_last "IGVFDS0003/extra" = Ok "IGVFDS0003".
Proof.
  split; [reflexivity|]. split; [reflexivity|]. split; [reflexivity|].
  split; [|reflexivity].
  eexists. split; vm_compute; reflexivity.
Qed.

(** C9, amended.  The identifier of an auxiliary set is the second-to-last
    '/'-separated component of its reference; taking it raises an index
    error exactly when the reference contains no '/'.  For a link whose
    measurement set is read and fetched and whose auxiliary field is
    present: a first reference without '/' makes the Enumerator raise the
    index error right after the measurement-set request; a second reference
    without '/' makes it raise after the first auxiliary set has been
    fetched; so returning normally requires a '/' in the first reference
    and, when there is one, in the second.  References beyond the second
    are never looked at: with the first two in order and fetched, the link
    is processed normally whatever follows. *)
Theorem aux_reference_needs_slash
    (http_get : string -> string -> string -> option string)
    (read_csv : string -> outcome DataFrame)
    (access_key secret_key : string)
    (result : DataFrame) (r : row) (all_tables : list DataFrame)
    (m aux : cell) (df0 : DataFrame) :
  row_get result r "measurement_sets" = Ok m ->
  row_get result r "associated_auxiliary_sets" = Ok aux ->
  notna aux = true ->
  result_of (fetch_data http_get read_csv (ms_url (str_of m))
               access_key secret_key) = Ok df0 ->
  (forall s, second_to_last s = Raise IndexError <-> PyStr.mem "/" s = false)
  /\ (forall s, PyStr.mem "/" s = true ->
        second_to_last s
        = Ok (nth (length (PyStr.split "/" s) - 2) (PyStr.split "/" s) ""))
  /\ (forall a rest,
        aux_refs aux = a :: rest -> PyStr.mem "/" a = false ->
        link_step http_get read_csv result r access_key secret_key all_tables
        = ([ms_url (str_of m)], Raise IndexError))
  /\ (forall a b rest ia df1,
        aux_refs aux = a :: b :: rest ->
        second_to_last a = Ok ia ->
        result_of (fetch_data http_get read_csv (aux_url ia)
                     access_key secret_key) = Ok df1 ->
        PyStr.mem "/" b = false ->
        link_step http_get read_csv result r access_key secret_key all_tables
        = ([ms_url (str_of m); aux_url ia], Raise IndexError))
  /\ (forall tables,
        result_of (link_step http_get read_csv result r access_key secret_key
                     all_tables) = Ok tables ->
        forall a rest, aux_refs aux = a :: rest ->
          PyStr.mem "/" a = true
          /\ forall b rest', rest = b :: rest' -> PyStr.mem "/" b = true)
  /\ (forall a b rest ia ib df1 df2,
        aux_refs aux = a :: b :: rest ->
        second_to_last a = Ok ia ->
        second_to_last b = Ok ib ->
        result_of (fetch_data http_get read_csv (aux_url ia)
                     access_key secret_key) = Ok df1 ->
        result_of (fetch_data http_get read_csv (aux_url ib)
                     access_key secret_key) = Ok df2 ->
        link_step http_get read_csv result r access_key secret_key all_tables
        = ([ms_url (str_of m); aux_url ia; aux_url ib],
           Ok (all_tables ++ [stamp df0 m "scRNA"] ++ [stamp df1 m "gRNA"]
               ++ [stamp df2 m "hash"]))).
Proof.
  intros Hm Haux Hpresent Hf0.
  split; [exact second_to_last_raises|]. split.
  { intros s Hs. unfold second_to_last.
    pose proof (split_length_mem "/" s Hs) as Hlen.
    destruct (Nat.ltb_spec (length (PyStr.split "/" s)) 2); [lia|reflexivity]. }
  split.
  { intros a rest. now apply link_step_first_bad with (df0 := df0). }
  split.
  { intros a b rest ia df1. now apply link_step_second_bad with (df0 := df0). }
  split.
  { intros tables Hok.
    exact (link_step_needs_slashes http_get read_csv access_key secret_key
             result r all_tables m aux df0 Hm Haux Hpresent Hf0 tables Hok). }
  intros a b rest ia ib df1 df2.
  now apply link_step_two.
Qed.

Lemma aux_reference_needs_slash_witness :
  link_step (site_get demo_site) tsv_reader (demo_links (Str "IGVFDS0003"))
    (link_row (Str "IGVFDS0003")) "key" "secret" []
  = ([ms_url "IGVFDS0002"], Raise IndexError).
Proof.
  destruct (aux_reference_needs_slash (site_get demo_site) tsv_reader
              "key" "secret" (demo_links (Str "IGVFDS0003"))
              (link_row (Str "IGVFDS0003")) [] (Str "IGVFDS0002")
              (Str "IGVFDS0003") (page_table (ms_url "IGVFDS0002")))
    as [_ [_ [Hfirst _]]]; [vm_compute; reflexivity .. |].
  apply (Hfirst "IGVFDS0003" []); vm_compute; reflexivity.
Defined.

(** * Further properties of the pipeline *)

(** ** Splitting, joining and the extraction of identifiers *)

Lemma split_cons_head (sep c : ascii) (s : string) :
  Ascii.eqb c sep = false ->
  exists h t, PyStr.split sep s = h :: t
              /\ PyStr.split sep (String c s) = String c h :: t.
Proof.
  intros Hc. simpl. rewrite Hc.
  pose proof (split_nonempty sep s) as Hne.
  destruct (PyStr.split sep s) as [|h t]; [contradiction|]. eauto.
Qed.

(** Splitting a text around one separator splits both sides. *)
Lemma split_around (sep : ascii) (x y : string) :
  PyStr.split sep (x ++ String sep y)%string
  = PyStr.split sep x ++ PyStr.split sep y.
Proof.
  induction x as [|c x IH].
  - simpl. now rewrite Ascii.eqb_refl.
  - change ((String c x ++ String sep y)%string)
      with (String c (x ++ String sep y)%string).
    destruct (Ascii.eqb c sep) eqn:Hc.
    + simpl. rewrite Hc. simpl. now rewrite <- IH.
    + destruct (split_cons_head sep c x Hc) as [h [t [Hx Hcx]]].
      destruct (split_cons_head sep c (x ++ String sep y)%string Hc)
        as [h' [t' [Hxy Hcxy]]].
      rewrite Hcx, Hcxy. rewrite IH, Hx in Hxy. simpl in Hxy.
      inversion Hxy; subst. reflexivity.
Qed.

Lemma join_cons (sep x : string) (pieces : list string) :
  pieces <> [] ->
  PyStr.join sep (x :: pieces) = (x ++ sep ++ PyStr.join sep pieces)%string.
Proof. destruct pieces; [contradiction|reflexivity]. Qed.

(** Joining what was split gives the text back. *)
Lemma join_split (sep : ascii) (s : string) :
  PyStr.join (String sep "") (PyStr.split sep s) = s.
Proof.
  induction s as [|c s IH]; [reflexivity|].
  destruct (Ascii.eqb_spec c sep) as [->|Hc].
  - simpl. rewrite Ascii.eqb_refl.
    rewrite join_cons by apply split_nonempty. rewrite IH. reflexivity.
  - apply Ascii.eqb_neq in Hc.
    destruct (split_cons_head sep c s Hc) as [h [t [Hs Hcs]]].
    rewrite Hcs. rewrite Hs in IH.
    destruct t as [|h' t].
    + change (String c (PyStr.join (String sep "") [h]) = String c s).
      now rewrite IH.
    + change (String c (PyStr.join (String sep "") (h :: h' :: t))
              = String c s).
      now rewrite IH.
Qed.

(** X1.
    A body none of whose lines starts with "20" reaches the parser as it
    is: the fetcher changes nothing else in the text, and the table
    returned is the parsed table with stripped labels. *)
Theorem body_without_stamp_lines_unchanged
    (http_get : string -> string -> string -> option string)
    (read_csv : string -> outcome DataFrame)
    (url access_key secret_key text : string) :
  http_get url access_key secret_key = Some text ->
  (forall line, In line (PyStr.split PyStr.LF text) ->
                PyStr.startswith "20" line = false) ->
  tsv_data text = text
  /\ fetch_data http_get read_csv url access_key secret_key
     = ([url], df <- read_csv text ;; Ok (strip_columns df)).
Proof.
  intros Hget Hlines.
  assert (Hsame : tsv_data text = text).
  { unfold tsv_data, kept_lines. rewrite filter_all.
    - apply join_split.
    - intros line Hin. now rewrite (Hlines line Hin). }
  split; [exact Hsame|].
  unfold fetch_data. now rewrite Hget, Hsame.
Qed.

Lemma body_without_stamp_lines_unchanged_witness :
  tsv_data (tsv_body "ID" [["/sequence-files/F1/"]; ["/sequence-files/F2/"]])
  = tsv_body "ID" [["/sequence-files/F1/"]; ["/sequence-files/F2/"]].
Proof.
  apply (body_without_stamp_lines_unchanged
           (site_get
              [("page",
                tsv_body "ID" [["/sequence-files/F1/"]; ["/sequence-files/F2/"]])])
           tsv_reader "page" "key" "secret").
  - reflexivity.
  - intros line Hin. vm_compute in Hin.
    decompose [or] Hin; try contradiction; subst line; reflexivity.
Defined.

(** X2.
    The identifier taken from a reference is the component before the last
    '/': for a reference ending in '/' it is the last name of the path, and
    for one that does not end in '/' it is the name before the last one, so
    that '/auxiliary-sets/X' gives 'auxiliary-sets' and not 'X'. *)
Theorem second_to_last_component (before name last : string) :
  PyStr.mem "/" name = false ->
  PyStr.mem "/" last = false ->
  second_to_last (before ++ "/" ++ name ++ "/" ++ last)%string = Ok name.
Proof.
  intros Hname Hlast. unfold second_to_last.
  change (before ++ "/" ++ name ++ "/" ++ last)%string
    with (before ++ String "/" (name ++ String "/" last))%string.
  rewrite !split_around, (split_none "/" name Hname), (split_none "/" last Hlast).
  cbn [app]. rewrite !length_app. cbn [length].
  destruct (Nat.ltb_spec (length (PyStr.split "/" before) + 2) 2); [lia|].
  replace (length (PyStr.split "/" before) + 2 - 2)%nat
    with (length (PyStr.split "/" before)) by lia.
  now rewrite nth_middle.
Qed.

Lemma second_to_last_component_witness :
  second_to_last "/auxiliary-sets/IGVFDS0003/" = Ok "IGVFDS0003"
  /\ second_to_last "/auxiliary-sets/IGVFDS0003" = Ok "auxiliary-sets".
Proof.
  split.
  - apply (second_to_last_component "/auxiliary-sets" "IGVFDS0003" "");
      reflexivity.
  - apply (second_to_last_component "" "auxiliary-sets" "IGVFDS0003");
      reflexivity.
Defined.

(** X3.
    A reference in the catalog's own form, the literal followed by a
    non-empty name and a '/', gives the name back: the Seqspecs
    normalization returns the name of '/configuration-files/<name>/...',
    and the pattern of the Resolver the name of
    '/measurement-sets/<name>/...'. *)
Theorem extraction_round_trip (lit name rest : string) :
  name <> "" ->
  PyStr.mem "/" name = false ->
  search lit (lit ++ name ++ "/" ++ rest)%string = Some name
  /\ str_extract lit (Str (lit ++ name ++ "/" ++ rest)%string) = Str name
  /\ normalize_seqspec (Str (config_lit ++ name ++ "/" ++ rest)%string)
     = Str name.
Proof.
  intros Hne Hname.
  assert (Hs : forall l, search l (l ++ name ++ "/" ++ rest)%string = Some name).
  { intros l. apply search_here. now apply match_here_app. }
  split; [apply Hs|]. split.
  - cbn [str_extract]. now rewrite Hs.
  - apply normalize_match. apply Hs.
Qed.

Lemma extraction_round_trip_witness :
  search measurement_lit "/measurement-sets/IGVFDS0002/" = Some "IGVFDS0002".
Proof.
  apply (extraction_round_trip measurement_lit "IGVFDS0002" "");
    [discriminate|reflexivity].
Defined.

(** ** The Enumerator, link by link *)

Lemma io_bind_assoc {A B C : Type} (m : io A) (f : A -> io B) (g : B -> io C) :
  io_bind (io_bind m f) g = io_bind m (fun a => io_bind (f a) g).
Proof.
  destruct m as [log [a|e|c]]; cbn [io_bind]; try reflexivity.
  destruct (f a) as [log' [b|e|c]]; cbn [io_bind]; try reflexivity.
  destruct (g b) as [log'' r]. now rewrite app_assoc.
Qed.

Lemma io_bind_ret {A : Type} (m : io A) : io_bind m ret = m.
Proof.
  destruct m as [log [a|e|c]]; cbn [io_bind ret]; try reflexivity.
  now rewrite app_nil_r.
Qed.

Section LinkFacts.

Variable http_get : string -> string -> string -> option string.
Variable read_csv : string -> outcome DataFrame.
Variables access_key secret_key : string.
Variable result : DataFrame.

Lemma links_loop_app (rs1 rs2 : list row) (tables : list DataFrame) :
  links_loop http_get read_csv result (rs1 ++ rs2) access_key secret_key tables
  = io_bind
      (links_loop http_get read_csv result rs1 access_key secret_key tables)
      (fun tables' =>
         links_loop http_get read_csv result rs2 access_key secret_key tables').
Proof.
  revert tables; induction rs1 as [|r rs1 IH]; intros tables.
  - cbn [app links_loop ret io_bind].
    destruct (links_loop _ _ _ rs2 _ _ tables) as [log o]. reflexivity.
  - cbn [app links_loop]. rewrite io_bind_assoc.
    destruct (link_step http_get read_csv result r access_key secret_key tables)
      as [log [t|e|c]]; cbn [io_bind]; try reflexivity.
    now rewrite IH.
Qed.

(** Every way a link can be processed to the end. *)
Lemma link_step_cases (r : row) (tables tables' : list DataFrame)
    (log : list string) :
  link_step http_get read_csv result r access_key secret_key tables
  = (log, Ok tables') ->
  exists m aux df0,
    row_get result r "measurement_sets" = Ok m
    /\ row_get result r "associated_auxiliary_sets" = Ok aux
    /\ result_of (fetch_data http_get read_csv (ms_url (str_of m))
                    access_key secret_key) = Ok df0
    /\ ((notna aux = false
         /\ log = [ms_url (str_of m)]
         /\ tables' = tables ++ [stamp df0 m "scRNA"])
        \/ (notna aux = true
            /\ exists a ia df1,
                 aux_refs aux = [a]
                 /\ second_to_last a = Ok ia
                 /\ result_of (fetch_data http_get read_csv (aux_url ia)
                                 access_key secret_key) = Ok df1
                 /\ log = [ms_url (str_of m); aux_url ia]
                 /\ tables' = tables ++ [stamp df0 m "scRNA"; stamp df1 m "gRNA"])
        \/ (notna aux = true
            /\ exists a b rest ia ib df1 df2,
                 aux_refs aux = a :: b :: rest
                 /\ second_to_last a = Ok ia
                 /\ second_to_last b = Ok ib
                 /\ result_of (fetch_data http_get read_csv (aux_url ia)
                                 access_key secret_key) = Ok df1
                 /\ result_of (fetch_data http_get read_csv (aux_url ib)
                                 access_key secret_key) = Ok df2
                 /\ log = [ms_url (str_of m); aux_url ia; aux_url ib]
                 /\ tables' = tables ++ [stamp df0 m "scRNA"; stamp df1 m "gRNA";
                                         stamp df2 m "hash"])).
Proof.
  unfold link_step.
  destruct (row_get result r "measurement_sets") as [m|e|c] eqn:Hm;
    cbn [lift io_bind]; try discriminate.
  unfold fetch_stamped at 1. rewrite fetch_data_requested.
  destruct (result_of (fetch_data http_get read_csv (ms_url (str_of m))
                         access_key secret_key)) as [df0|e|c] eqn:Hf0;
    cbn [io_bind ret]; try discriminate.
  destruct (row_get result r "associated_auxiliary_sets") as [aux|e|c] eqn:Haux;
    cbn [lift io_bind app]; try discriminate.
  destruct (notna aux) eqn:Hna.
  - fold (aux_refs aux).
    destruct (aux_refs aux) as [|a [|b rest]] eqn:Hrefs.
    + exfalso. unfold aux_refs in Hrefs. apply map_eq_nil in Hrefs.
      now apply (split_nonempty "," (PyStr.strip (str_of aux))).
    + cbn [length Nat.eqb nth].
      destruct (second_to_last a) as [ia|e|c] eqn:Hia;
        cbn [lift io_bind]; try discriminate.
      unfold fetch_stamped. rewrite fetch_data_requested.
      destruct (result_of (fetch_data http_get read_csv (aux_url ia)
                             access_key secret_key)) as [df1|e|c] eqn:Hf1;
        cbn [io_bind ret app]; try discriminate.
      intros H. inversion H; subst. exists m, aux, df0.
      repeat split; auto. right; left. split; [exact Hna|].
      exists a, ia, df1. rewrite <- app_assoc. repeat split; auto.
    + cbn [length Nat.eqb combine aux_types aux_loop].
      destruct (second_to_last a) as [ia|e|c] eqn:Hia;
        cbn [lift io_bind]; try discriminate.
      unfold fetch_stamped at 1. rewrite fetch_data_requested.
      destruct (result_of (fetch_data http_get read_csv (aux_url ia)
                             access_key secret_key)) as [df1|e|c] eqn:Hf1;
        cbn [io_bind ret app]; try discriminate.
      destruct (second_to_last b) as [ib|e|c] eqn:Hib;
        cbn [lift io_bind app]; try discriminate.
      unfold fetch_stamped. rewrite fetch_data_requested.
      destruct (result_of (fetch_data http_get read_csv (aux_url ib)
                             access_key secret_key)) as [df2|e|c] eqn:Hf2;
        cbn [io_bind ret app]; try discriminate.
      intros H. inversion H; subst. exists m, aux, df0.
      repeat split; auto. right; right. split; [exact Hna|].
      exists a, b, rest, ia, ib, df1, df2. rewrite <- !app_assoc.
      repeat split; auto.
  - cbn [ret]. intros H. inversion H; subst. exists m, aux, df0.
    repeat split; auto.
Qed.

End LinkFacts.

Lemma stamp_row_count (df : DataFrame) (m : cell) (label : string) :
  row_count (stamp df m label) = row_count df.
Proof.
  unfold row_count, stamp, setitem.
  destruct (col_index "measurement_sets" (columns df)); cbn [columns rows];
    match goal with
    | |- context [col_index "file_modality" ?cols] =>
        destruct (col_index "file_modality" cols)
    end; cbn [rows]; now rewrite !length_map.
Qed.

Lemma concat_row_count (tables : list DataFrame) :
  row_count (concat_frames tables) = list_sum (map row_count tables).
Proof.
  unfold row_count, concat_frames. cbn [rows].
  generalize (union_labels tables). intros cols.
  induction tables as [|t tables IH]; [reflexivity|].
  cbn [flat_map map list_sum]. now rewrite length_app, length_map, IH.
Qed.

Section EnumeratorRuns.

Variable http_get : string -> string -> string -> option string.
Variable read_csv : string -> outcome DataFrame.
Variables access_key secret_key : string.
Variable result : DataFrame.

Lemma link_step_tables (r : row) (tables tables' : list DataFrame)
    (log : list string) :
  link_step http_get read_csv result r access_key secret_key tables
  = (log, Ok tables') ->
  exists new,
    tables' = tables ++ new
    /\ Forall2 (stamped_fetch http_get read_csv access_key secret_key) log new.
Proof.
  intros H. apply link_step_cases in H.
  destruct H as [m [aux [df0 [_ [_ [Hf0 Hcases]]]]]].
  assert (P0 : stamped_fetch http_get read_csv access_key secret_key
                 (ms_url (str_of m)) (stamp df0 m "scRNA")).
  { exists df0, m, "scRNA". split; [exact Hf0|]. split; [reflexivity|].
    left. split; reflexivity. }
  assert (Paux : forall ia df label,
             In label aux_types ->
             result_of (fetch_data http_get read_csv (aux_url ia)
                          access_key secret_key) = Ok df ->
             stamped_fetch http_get read_csv access_key secret_key
               (aux_url ia) (stamp df m label)).
  { intros ia df label Hl Hf. exists df, m, label.
    split; [exact Hf|]. split; [reflexivity|]. right. split; [exact Hl|].
    now exists ia. }
  destruct Hcases as [[_ [-> ->]]
                     |[[_ [a [ia [df1 [_ [_ [Hf1 [-> ->]]]]]]]]
                      |[_ [a [b [rest [ia [ib [df1 [df2
                          [_ [_ [_ [Hf1 [Hf2 [-> ->]]]]]]]]]]]]]]]].
  - eexists. split; [reflexivity|]. repeat constructor. exact P0.
  - eexists. split; [reflexivity|]. repeat constructor; [exact P0|].
    apply Paux; [simpl; auto|exact Hf1].
  - eexists. split; [reflexivity|]. repeat constructor; [exact P0| |].
    + apply Paux; [simpl; auto|exact Hf1].
    + apply Paux; [simpl; auto|exact Hf2].
Qed.

Lemma links_loop_tables (rs : list row) (tables tables' : list DataFrame)
    (log : list string) :
  links_loop http_get read_csv result rs access_key secret_key tables
  = (log, Ok tables') ->
  exists new,
    tables' = tables ++ new
    /\ Forall2 (stamped_fetch http_get read_csv access_key secret_key) log new.
Proof.
  revert tables log; induction rs as [|r rs IH]; intros tables log.
  - cbn [links_loop ret]. intros H. inversion H; subst.
    exists []. rewrite app_nil_r. split; [reflexivity|constructor].
  - cbn [links_loop].
    destruct (link_step http_get read_csv result r access_key secret_key tables)
      as [log1 [t1|e|c]] eqn:Hstep; cbn [io_bind]; try discriminate.
    destruct (links_loop http_get read_csv result rs access_key secret_key t1)
      as [log2 o2] eqn:Hrest.
    intros H. inversion H; subst.
    destruct (link_step_tables r tables t1 log1 Hstep) as [new1 [-> H1]].
    destruct (IH _ _ Hrest) as [new2 [-> H2]].
    exists (new1 ++ new2). rewrite app_assoc. split; [reflexivity|].
    now apply Forall2_app.
Qed.

Lemma get_sequence_files_tables (log : list string) (out : DataFrame) :
  get_sequence_files http_get read_csv result access_key secret_key
  = (log, Ok out) ->
  exists tables,
    links_loop http_get read_csv result (rows result) access_key secret_key []
    = (log, Ok tables)
    /\ Forall2 (stamped_fetch http_get read_csv access_key secret_key) log tables
    /\ out = match tables with
             | [] => empty_frame
             | _ :: _ => concat_frames tables
             end.
Proof.
  unfold get_sequence_files.
  destruct (links_loop http_get read_csv result (rows result)
              access_key secret_key []) as [log0 [tables|e|c]] eqn:Hloop;
    cbn [io_bind ret]; try discriminate.
  rewrite app_nil_r. intros H. inversion H; subst. exists tables.
  destruct (links_loop_tables _ _ _ _ Hloop) as [new [Hnew Hall]].
  cbn [app] in Hnew. subst new. auto.
Qed.

End EnumeratorRuns.

(** X4.
    Whenever the Enumerator returns, its tables and its requests go in
    pairs, in order: each table is the page of one request, stamped, the
    scRNA stamp on the page of a measurement set and gRNA or hash on that of
    an auxiliary set.  The output is the concatenation of these tables (the
    empty table when there is none), and it has as many rows as the pages
    fetched have together. *)
Theorem enumerator_tables_match_requests
    (http_get : string -> string -> string -> option string)
    (read_csv : string -> outcome DataFrame)
    (access_key secret_key : string)
    (result : DataFrame) (log : list string) (out : DataFrame) :
  get_sequence_files http_get read_csv result access_key secret_key
  = (log, Ok out) ->
  exists tables,
    Forall2 (stamped_fetch http_get read_csv access_key secret_key) log tables
    /\ out = match tables with
             | [] => empty_frame
             | _ :: _ => concat_frames tables
             end
    /\ Forall2
         (fun url t =>
            exists page,
              result_of (fetch_data http_get read_csv url access_key secret_key)
              = Ok page
              /\ row_count t = row_count page) log tables
    /\ row_count out = list_sum (map row_count tables).
Proof.
  intros H.
  destruct (get_sequence_files_tables _ _ _ _ _ _ _ H)
    as [tables [_ [Hall Hout]]].
  exists tables. split; [exact Hall|]. split; [exact Hout|]. split.
  - eapply Forall2_impl; [|exact Hall].
    intros url t [df [m [label [Hf [-> _]]]]].
    exists df. split; [exact Hf|apply stamp_row_count].
  - rewrite Hout. destruct tables; [reflexivity|apply concat_row_count].
Qed.

Lemma enumerator_tables_match_requests_witness :
  exists tables,
    Forall2 (stamped_fetch (site_get demo_site) tsv_reader "key" "secret")
      [ms_url "IGVFDS0002"; aux_url "IGVFDS0003"; aux_url "IGVFDS0004"] tables
    /\ row_count demo_sequence_data = list_sum (map row_count tables).
Proof.
  destruct (enumerator_tables_match_requests (site_get demo_site) tsv_reader
              "key" "secret" (demo_links (Str (ref3 ++ ", " ++ ref4)))
              [ms_url "IGVFDS0002"; aux_url "IGVFDS0003"; aux_url "IGVFDS0004"]
              demo_sequence_data)
    as [tables [Hall [_ [_ Hcount]]]]; [vm_compute; reflexivity|].
  exists tables. split; assumption.
Defined.

(** X5.
    A link processed to the end costs one request for its measurement set
    and one for each of its first two auxiliary references, none when the
    auxiliary field is missing; and it adds one table per request. *)
Theorem link_request_count
    (http_get : string -> string -> string -> option string)
    (read_csv : string -> outcome DataFrame)
    (access_key secret_key : string)
    (result : DataFrame) (r : row) (tables tables' : list DataFrame)
    (log : list string) :
  link_step http_get read_csv result r access_key secret_key tables
  = (log, Ok tables') ->
  exists aux,
    row_get result r "associated_auxiliary_sets" = Ok aux
    /\ length log
       = (1 + if notna aux then Nat.min 2 (length (aux_refs aux)) else 0)%nat
    /\ length tables' = (length tables + length log)%nat.
Proof.
  intros H. apply link_step_cases in H.
  destruct H as [m [aux [df0 [_ [Haux [_ Hcases]]]]]].
  exists aux. split; [exact Haux|].
  destruct Hcases as [[Hna [-> ->]]
                     |[[Hna [a [ia [df1 [Hrefs [_ [_ [-> ->]]]]]]]]
                      |[Hna [a [b [rest [ia [ib [df1 [df2
                          [Hrefs [_ [_ [_ [_ [-> ->]]]]]]]]]]]]]]]];
    rewrite Hna, ?Hrefs, length_app; cbn [length Nat.min]; split; lia.
Qed.

Lemma link_request_count_witness :
  exists aux,
    row_get (demo_links (Str (ref3 ++ ", " ++ ref4 ++ ", " ++ ref5)))
      (link_row (Str (ref3 ++ ", " ++ ref4 ++ ", " ++ ref5)))
      "associated_auxiliary_sets" = Ok aux
    /\ 3%nat = (1 + if notna aux then Nat.min 2 (length (aux_refs aux)) else 0)%nat
    /\ 3%nat = (0 + 3)%nat.
Proof.
  apply (link_request_count (site_get demo_site) tsv_reader "key" "secret"
           (demo_links (Str (ref3 ++ ", " ++ ref4 ++ ", " ++ ref5)))
           (link_row (Str (ref3 ++ ", " ++ ref4 ++ ", " ++ ref5))) []
           [stamp (page_table (ms_url "IGVFDS0002")) (Str "IGVFDS0002") "scRNA";
            stamp (page_table (aux_url "IGVFDS0003")) (Str "IGVFDS0002") "gRNA";
            stamp (page_table (aux_url "IGVFDS0004")) (Str "IGVFDS0002") "hash"]
           [ms_url "IGVFDS0002"; aux_url "IGVFDS0003"; aux_url "IGVFDS0004"]).
  vm_compute. reflexivity.
Defined.

(** X6.
    The Enumerator stops at the first link that fails: its outcome is the
    failure of that link, and its requests are those made up to it; no
    later link is looked at.  In particular, when the transport fails on
    the request for a measurement set, the Enumerator leaves with exit
    status 1 right after that request. *)
Theorem enumerator_stops_at_first_failure
    (http_get : string -> string -> string -> option string)
    (read_csv : string -> outcome DataFrame)
    (access_key secret_key : string)
    (result : DataFrame) (rs1 : list row) (r : row) (rs2 : list row)
    (log1 : list string) (tables : list DataFrame) :
  rows result = rs1 ++ r :: rs2 ->
  links_loop http_get read_csv result rs1 access_key secret_key []
  = (log1, Ok tables) ->
  (forall log2 e,
     link_step http_get read_csv result r access_key secret_key tables
     = (log2, Raise e) ->
     get_sequence_files http_get read_csv result access_key secret_key
     = (log1 ++ log2, Raise e))
  /\ (forall log2 c,
        link_step http_get read_csv result r access_key secret_key tables
        = (log2, Exit c) ->
        get_sequence_files http_get read_csv result access_key secret_key
        = (log1 ++ log2, Exit c))
  /\ (forall m,
        row_get result r "measurement_sets" = Ok m ->
        http_get (ms_url (str_of m)) access_key secret_key = None ->
        get_sequence_files http_get read_csv result access_key secret_key
        = (log1 ++ [ms_url (str_of m)], Exit 1)).
Proof.
  intros Hrows Hfirst.
  assert (Hraise : forall log2 e,
             link_step http_get read_csv result r access_key secret_key tables
             = (log2, Raise e) ->
             get_sequence_files http_get read_csv result access_key secret_key
             = (log1 ++ log2, Raise e)).
  { intros log2 e Hstep. unfold get_sequence_files.
    rewrite Hrows, links_loop_app, Hfirst. cbn [io_bind links_loop].
    rewrite Hstep. reflexivity. }
  assert (Hexit : forall log2 c,
             link_step http_get read_csv result r access_key secret_key tables
             = (log2, Exit c) ->
             get_sequence_files http_get read_csv result access_key secret_key
             = (log1 ++ log2, Exit c)).
  { intros log2 c Hstep. unfold get_sequence_files.
    rewrite Hrows, links_loop_app, Hfirst. cbn [io_bind links_loop].
    rewrite Hstep. reflexivity. }
  split; [exact Hraise|]. split; [exact Hexit|].
  intros m Hm Hget. apply Hexit. unfold link_step. rewrite Hm.
  cbn [lift io_bind]. unfold fetch_stamped, fetch_data. rewrite Hget.
  reflexivity.
Qed.

Lemma enumerator_stops_at_first_failure_witness :
  get_sequence_files (site_get demo_site) tsv_reader
    (mkDF link_cols
       [link_row (Str ref3); [Str "IGVFDS0001"; Str "IGVFDS0009"; NaN];
        link_row (Str ref4)])
    "key" "secret"
  = ([ms_url "IGVFDS0002"; aux_url "IGVFDS0003"] ++ [ms_url "IGVFDS0009"],
     Exit 1).
Proof.
  destruct (enumerator_stops_at_first_failure (site_get demo_site) tsv_reader
              "key" "secret"
              (mkDF link_cols
                 [link_row (Str ref3); [Str "IGVFDS0001"; Str "IGVFDS0009"; NaN];
                  link_row (Str ref4)])
              [link_row (Str ref3)] [Str "IGVFDS0001"; Str "IGVFDS0009"; NaN]
              [link_row (Str ref4)]
              [ms_url "IGVFDS0002"; aux_url "IGVFDS0003"]
              [stamp (page_table (ms_url "IGVFDS0002")) (Str "IGVFDS0002") "scRNA";
               stamp (page_table (aux_url "IGVFDS0003")) (Str "IGVFDS0002") "gRNA"])
    as [_ [_ Htransport]]; [vm_compute; reflexivity .. |].
  apply (Htransport (Str "IGVFDS0009")); vm_compute; reflexivity.
Defined.

(** X7.
    A link table with a row but without the column of measurement sets
    makes the Enumerator raise a KeyError before any request; one without
    the column of auxiliary sets makes it raise after the first measurement
    set has been requested and fetched. *)
Theorem enumerator_missing_column
    (http_get : string -> string -> string -> option string)
    (read_csv : string -> outcome DataFrame)
    (access_key secret_key : string)
    (result : DataFrame) (r : row) (rs : list row) :
  rows result = r :: rs ->
  (col_index "measurement_sets" (columns result) = None ->
   get_sequence_files http_get read_csv result access_key secret_key
   = ([], Raise (KeyError ["measurement_sets"])))
  /\ (forall m df0,
        row_get result r "measurement_sets" = Ok m ->
        result_of (fetch_data http_get read_csv (ms_url (str_of m))
                     access_key secret_key) = Ok df0 ->
        col_index "associated_auxiliary_sets" (columns result) = None ->
        get_sequence_files http_get read_csv result access_key secret_key
        = ([ms_url (str_of m)], Raise (KeyError ["associated_auxiliary_sets"]))).
Proof.
  intros Hrows. split.
  - intros Hnone. unfold get_sequence_files. rewrite Hrows.
    cbn [links_loop]. unfold link_step, row_get. rewrite Hnone. reflexivity.
  - intros m df0 Hm Hf0 Hnone. unfold get_sequence_files. rewrite Hrows.
    cbn [links_loop]. unfold link_step. rewrite Hm. cbn [lift io_bind].
    rewrite (fetch_stamped_ok _ _ _ _ _ m "scRNA" df0 Hf0).
    unfold row_get at 1. rewrite Hnone. reflexivity.
Qed.

Lemma enumerator_missing_column_witness :
  get_sequence_files (site_get demo_site) tsv_reader
    (mkDF ["analysis_set_id"; "measurement_sets"]
       [[Str "IGVFDS0001"; Str "IGVFDS0002"]]) "key" "secret"
  = ([ms_url "IGVFDS0002"], Raise (KeyError ["associated_auxiliary_sets"])).
Proof.
  destruct (enumerator_missing_column (site_get demo_site) tsv_reader
              "key" "secret"
              (mkDF ["analysis_set_id"; "measurement_sets"]
                 [[Str "IGVFDS0001"; Str "IGVFDS0002"]])
              [Str "IGVFDS0001"; Str "IGVFDS0002"] [])
    as [_ Haux]; [reflexivity|].
  apply (Haux (Str "IGVFDS0002") (page_table (ms_url "IGVFDS0002")));
    vm_compute; reflexivity.
Defined.

(** ** Well-formed tables are kept well-formed *)

Lemma distinct_labels_NoDup (cols : list string) :
  distinct_labels cols = true <-> NoDup cols.
Proof.
  induction cols as [|c cols IH]; simpl.
  - split; [constructor|reflexivity].
  - rewrite andb_true_iff, negb_true_iff, IH. split.
    + intros [Hc Hnd]. constructor; [|exact Hnd].
      intros Hin. apply inb_In in Hin. congruence.
    + intros H. inversion H as [|? ? Hc Hnd]; subst. split; [|exact Hnd].
      destruct (inb c cols) eqn:Hin; [|reflexivity].
      apply inb_In in Hin. contradiction.
Qed.

Lemma well_formed_iff (df : DataFrame) :
  well_formed df = true <-> NoDup (columns df) /\ rows_fit df.
Proof.
  unfold well_formed, rows_fit.
  rewrite andb_true_iff, distinct_labels_NoDup, forallb_forall, Forall_forall.
  split; intros [H1 H2]; (split; [exact H1|]); intros r Hr.
  - apply Nat.eqb_eq. now apply H2.
  - apply Nat.eqb_eq. now apply H2.
Qed.

Lemma setitem_well_formed (df : DataFrame) (c : string) (v : cell) :
  well_formed df = true -> well_formed (setitem df c v) = true.
Proof.
  rewrite !well_formed_iff. intros [Hnd Hfit].
  split; [|now apply setitem_fit].
  unfold setitem. destruct (col_index c (columns df)) eqn:Hc; cbn [columns].
  - exact Hnd.
  - apply NoDup_app; [exact Hnd|repeat constructor; intros []|].
    intros d Hd [<-|[]]. apply has_label_In in Hd. unfold has_label in Hd.
    now rewrite Hc in Hd.
Qed.

Lemma stamp_well_formed (df : DataFrame) (m : cell) (label : string) :
  well_formed df = true -> well_formed (stamp df m label) = true.
Proof. intros H. unfold stamp. now do 2 apply setitem_well_formed. Qed.

Lemma union_labels_NoDup (tables : list DataFrame) :
  (forall t, In t tables -> NoDup (columns t)) -> NoDup (union_labels tables).
Proof.
  unfold union_labels.
  assert (H : forall acc, NoDup acc ->
            (forall t, In t tables -> NoDup (columns t)) ->
            NoDup (fold_left
                     (fun acc t =>
                        acc ++ filter (fun c => negb (inb c acc)) (columns t))
                     tables acc)).
  { induction tables as [|t tables IH]; intros acc Hacc Hall; [exact Hacc|].
    cbn [fold_left]. apply IH.
    - apply NoDup_app; [exact Hacc| |].
      + apply NoDup_filter. apply Hall. now left.
      + intros c Hc Hin. apply filter_In in Hin. destruct Hin as [_ Hn].
        apply negb_true_iff in Hn. apply inb_In in Hc. congruence.
    - intros t' Ht'. apply Hall. now right. }
  apply H. constructor.
Qed.

Lemma concat_well_formed (tables : list DataFrame) :
  (forall t, In t tables -> well_formed t = true) ->
  well_formed (concat_frames tables) = true.
Proof.
  intros Hall. apply well_formed_iff. split.
  - apply union_labels_NoDup. intros t Ht.
    now apply (well_formed_iff t), Hall.
  - unfold rows_fit, concat_frames. cbn [columns rows].
    apply Forall_forall. intros r Hr. apply in_flat_map in Hr.
    destruct Hr as [t [_ Hr]]. apply in_map_iff in Hr.
    destruct Hr as [r0 [<- _]]. unfold realign. apply length_map.
Qed.

Lemma paired_with_request {A B : Type} (P : A -> B -> Prop)
    (xs : list A) (ys : list B) (y : B) :
  Forall2 P xs ys -> In y ys -> exists x, In x xs /\ P x y.
Proof.
  induction 1 as [|x y' xs ys Hxy Hrest IH]; intros Hin; [destruct Hin|].
  destruct Hin as [<-|Hin].
  - exists x. split; [now left|exact Hxy].
  - destruct (IH Hin) as [x' [Hx' HP]]. exists x'. split; [now right|exact HP].
Qed.

(** X8.
    If the pages come from the fetcher well-formed (distinct labels, one
    cell per label in every row), then so does the Enumerator's output; and
    as soon as one request was made, the output has the two stamp columns
    the Reshaper reads. *)
Theorem enumerator_output_well_formed
    (http_get : string -> string -> string -> option string)
    (read_csv : string -> outcome DataFrame)
    (access_key secret_key : string)
    (result : DataFrame) (log : list string) (out : DataFrame) :
  (forall url page,
     result_of (fetch_data http_get read_csv url access_key secret_key)
     = Ok page ->
     well_formed page = true) ->
  get_sequence_files http_get read_csv result access_key secret_key
  = (log, Ok out) ->
  well_formed out = true
  /\ (log <> [] ->
      has_label "measurement_sets" (columns out) = true
      /\ has_label "file_modality" (columns out) = true).
Proof.
  intros Hpages H.
  destruct (get_sequence_files_tables _ _ _ _ _ _ _ H)
    as [tables [_ [Hall ->]]].
  assert (Hwf : forall t, In t tables -> well_formed t = true).
  { intros t Ht.
    destruct (paired_with_request _ _ _ _ Hall Ht) as [url [_ Hst]].
    destruct Hst as [df [m [label [Hf [-> _]]]]].
    apply stamp_well_formed. now apply (Hpages url). }
  split.
  - destruct tables; [reflexivity|now apply concat_well_formed].
  - intros Hlog. destruct Hall as [|url t log' tables' Hst Hrest];
      [contradiction|].
    destruct Hst as [df [m [label [_ [-> _]]]]].
    split; apply has_label_In; unfold concat_frames; cbn [columns];
      apply union_labels_acc; right; eexists; (split; [now left|]);
      apply has_label_In.
    + unfold stamp.
      assert (Hin : In "measurement_sets"
                      (columns (setitem df "measurement_sets" m))).
      { apply has_label_In. apply setitem_has. }
      unfold setitem at 1.
      destruct (col_index "file_modality" _); cbn [columns];
        [exact (proj2 (has_label_In _ _) Hin)|].
      apply has_label_In. apply in_or_app. now left.
    + apply setitem_has.
Qed.

Lemma enumerator_output_well_formed_witness :
  well_formed demo_sequence_data = true
  /\ ([ms_url "IGVFDS0002"; aux_url "IGVFDS0003"; aux_url "IGVFDS0004"] <> [] ->
      has_label "measurement_sets" (columns demo_sequence_data) = true
      /\ has_label "file_modality" (columns demo_sequence_data) = true).
Proof.
  apply (enumerator_output_well_formed (site_get demo_site) tsv_reader
           "key" "secret" (demo_links (Str (ref3 ++ ", " ++ ref4)))).
  - intros url page. unfold fetch_data, result_of. cbn [snd].
    unfold demo_site. cbn [site_get].
    destruct (String.eqb (ms_url "IGVFDS0002") url);
      [intros H; vm_compute in H; inversion H; reflexivity|].
    destruct (String.eqb (aux_url "IGVFDS0003") url);
      [intros H; vm_compute in H; inversion H; reflexivity|].
    destruct (String.eqb (aux_url "IGVFDS0004") url);
      [intros H; vm_compute in H; inversion H; reflexivity|].
    discriminate.
  - vm_compute. reflexivity.
Defined.

(** ** The Reshaper: missing columns, other read types, lone mates *)

(** The Reshaper on a table with a row and a column, case by case. *)
Lemma rearrange_nonempty (sf : DataFrame) :
  empty sf = false ->
  rearrange_sequence_files sf
  = match col_index "Illumina Read Type" (columns sf) with
    | None => Raise (KeyError ["Illumina Read Type"])
    | Some irt =>
        match locate r1_cols (map (rename_label r1_renaming) (columns sf)) with
        | None =>
            Raise (KeyError
                     (filter
                        (fun c =>
                           negb (has_label c
                                   (map (rename_label r1_renaming) (columns sf))))
                        r1_cols))
        | Some p1 =>
            match locate r2_cols (map (rename_label r2_renaming) (columns sf))
            with
            | None =>
                Raise (KeyError
                         (filter
                            (fun c =>
                               negb (has_label c
                                       (map (rename_label r2_renaming)
                                          (columns sf))))
                            r2_cols))
            | Some p2 => Ok (mkDF final_cols (pivot_rows irt p1 p2 (rows sf)))
            end
        end
    end.
Proof.
  intros Hne.
  destruct (col_index "Illumina Read Type" (columns sf)) as [irt|] eqn:Hirt;
    [|now apply rearrange_no_read_type].
  destruct (locate r1_cols (map (rename_label r1_renaming) (columns sf)))
    as [p1|] eqn:Hp1.
  - destruct (locate r2_cols (map (rename_label r2_renaming) (columns sf)))
      as [p2|] eqn:Hp2; [now apply rearrange_located|].
    unfold rearrange_sequence_files. rewrite Hne.
    unfold getitem, select. cbn [columns rows]. rewrite Hirt. cbn [bind].
    unfold rename, getitems. cbn [columns rows].
    unfold r1_renaming in Hp1. unfold r2_renaming in Hp2.
    rewrite Hp1, Hp2. reflexivity.
  - unfold rearrange_sequence_files. rewrite Hne.
    unfold getitem, select. cbn [columns rows]. rewrite Hirt. cbn [bind].
    unfold rename, getitems. cbn [columns rows].
    unfold r1_renaming in Hp1. rewrite Hp1. reflexivity.
Qed.

Lemma locate_none_missing (cs cols : list string) :
  locate cs cols = None ->
  filter (fun c => negb (has_label c cols)) cs <> [].
Proof.
  induction cs as [|c cs IH]; simpl; [discriminate|].
  unfold has_label at 1.
  destruct (col_index c cols); [|discriminate].
  destruct (locate cs cols); [discriminate|]. intros _. now apply IH.
Qed.

Lemma located_has_required (sf : DataFrame) (irt : nat) (p : list nat) :
  col_index "Illumina Read Type" (columns sf) = Some irt ->
  locate source_cols (columns sf) = Some p ->
  has_required sf = true.
Proof.
  unfold has_required, required_cols, has_label, source_cols.
  cbn [forallb locate]. intros ->.
  destruct (col_index "Lane" (columns sf)); [|discriminate].
  destruct (col_index "measurement_sets" (columns sf)); [|discriminate].
  destruct (col_index "file_modality" (columns sf)); [|discriminate].
  destruct (col_index "Accession" (columns sf)); [|discriminate].
  destruct (col_index "MD5sum" (columns sf)); [|discriminate].
  destruct (col_index "Flowcell ID" (columns sf)); [|discriminate].
  destruct (col_index "Seqspecs" (columns sf)); [|discriminate].
  reflexivity.
Qed.

(** X9.
    On a table with a row, the Reshaper returns exactly when the eight
    columns it reads are there; when one is missing it raises a KeyError
    naming missing labels (under the names they have after the renaming),
    and it never leaves through an exit. *)
Theorem reshaper_returns_iff_columns (sf : DataFrame) :
  well_formed sf = true ->
  fresh_pivot_labels sf = true ->
  empty sf = false ->
  (has_required sf = true <->
   exists out, rearrange_sequence_files sf = Ok out)
  /\ (has_required sf = false ->
      exists labels,
        labels <> []
        /\ incl labels ("Illumina Read Type" :: r1_cols)
        /\ rearrange_sequence_files sf = Raise (KeyError labels)).
Proof.
  intros _ Hfresh Hne.
  assert (Hmissing : has_required sf = false ->
            exists labels,
              labels <> []
              /\ incl labels ("Illumina Read Type" :: r1_cols)
              /\ rearrange_sequence_files sf = Raise (KeyError labels)).
  { intros Hreq. rewrite (rearrange_nonempty sf Hne).
    destruct (col_index "Illumina Read Type" (columns sf)) as [irt|] eqn:Hirt.
    - rewrite locate_r1_fresh by assumption.
      destruct (locate source_cols (columns sf)) as [p|] eqn:Hp.
      + rewrite (located_has_required sf irt p Hirt Hp) in Hreq. discriminate.
      + eexists. split; [|split; [|reflexivity]].
        * apply locate_none_missing. now rewrite locate_r1_fresh.
        * intros c Hc. apply filter_In in Hc. right. tauto.
    - exists ["Illumina Read Type"]. split; [discriminate|].
      split; [|reflexivity]. intros c [<-|[]]. now left. }
  split; [|exact Hmissing]. split.
  - intros Hreq.
    destruct (rearrange_total sf Hfresh Hreq Hne) as [irt [p [_ [_ Hok]]]].
    eauto.
  - intros [out Hok]. destruct (has_required sf) eqn:Hreq; [reflexivity|].
    destruct (Hmissing eq_refl) as [labels [_ [_ Hraise]]]. congruence.
Qed.

Lemma reshaper_returns_iff_columns_witness :
  exists labels,
    labels <> []
    /\ incl labels ("Illumina Read Type" :: r1_cols)
    /\ rearrange_sequence_files (page_table (aux_url "IGVFDS0003"))
       = Raise (KeyError labels).
Proof.
  destruct (reshaper_returns_iff_columns (page_table (aux_url "IGVFDS0003")))
    as [_ Hmissing]; [vm_compute; reflexivity .. |].
  apply Hmissing. vm_compute. reflexivity.
Defined.

Lemma side_rows_kept (t : string) (irt : nat) (p : list nat) (rs : list row) :
  In t ["R1"; "R2"] ->
  side_rows t irt p
    (filter (fun r => cell_eqb (at_ irt r) (Str "R1")
                      || cell_eqb (at_ irt r) (Str "R2")) rs)
  = side_rows t irt p rs.
Proof.
  intros Ht. unfold side_rows. f_equal. rewrite <- select_twice.
  apply filter_ext. intros r.
  destruct Ht as [<-|[<-|[]]];
    destruct (cell_eqb (at_ irt r) (Str "R1"));
    destruct (cell_eqb (at_ irt r) (Str "R2")); reflexivity.
Qed.

(** X10.
    Rows whose read type is neither R1 nor R2 are discarded without a
    trace: as long as one R1 or R2 row is left, removing them from the
    input changes nothing in what the Reshaper returns or raises. *)
Theorem other_read_types_discarded (cols : list string) (rs : list row) :
  filter (fun r => is_read "R1" (mkDF cols rs) r || is_read "R2" (mkDF cols rs) r)
         rs <> [] ->
  rearrange_sequence_files
    (mkDF cols
       (filter (fun r => is_read "R1" (mkDF cols rs) r
                         || is_read "R2" (mkDF cols rs) r) rs))
  = rearrange_sequence_files (mkDF cols rs).
Proof.
  intros Hkept.
  destruct cols as [|c cols]; [reflexivity|].
  assert (Hrs : rs <> []) by (intros ->; now apply Hkept).
  rewrite !rearrange_nonempty;
    try (unfold empty; cbn [columns rows];
         match goal with |- match ?l with _ => _ end = false =>
           destruct l; [contradiction|reflexivity] end).
  cbn [columns rows].
  unfold is_read, cell_of in *. cbn [columns] in *.
  destruct (col_index "Illumina Read Type" (c :: cols)) as [irt|];
    [|reflexivity].
  destruct (locate r1_cols _) as [p1|]; [|reflexivity].
  destruct (locate r2_cols _) as [p2|]; [|reflexivity].
  do 2 f_equal. unfold pivot_rows, merged_rows.
  rewrite !side_rows_kept by (simpl; auto). reflexivity.
Qed.

Lemma other_read_types_discarded_witness :
  rearrange_sequence_files
    (mkDF catalog_cols
       [ file_row "F2" "R2" 2 "m2" "FC1" (spec_ref "SPEC1") "MS1" "scRNA";
         file_row "F1" "R1" 2 "m1" "FC1" (spec_ref "SPEC1") "MS1" "scRNA";
         file_row "F3" "R1" 1 "m3" "FC1" (spec_ref "SPEC1") "MS1" "scRNA";
         file_row "F5" "R2" 1 "m5" "FC1" "" "MS1" "gRNA" ])
  = rearrange_sequence_files demo_files.
Proof.
  apply (other_read_types_discarded catalog_cols (rows demo_files)).
  vm_compute. discriminate.
Defined.

(** With no row on the right, the merge is the left rows with the right
    columns missing; with no row on the left, the right rows laid out on the
    left columns. *)
Lemma lone_left_rows (lk rk rn : list nat) (on lcols rcols : list string)
    (ls : list row) :
  merge_rows lk rk rn on lcols rcols ls []
  = map (fun l => l ++ repeat NaN (length rn)) ls.
Proof.
  unfold merge_rows. cbn [filter map]. rewrite app_nil_r.
  induction ls as [|l ls IH]; [reflexivity|].
  cbn [flat_map app map]. now rewrite IH.
Qed.

Lemma lone_right_rows (lk rk rn : list nat) (on lcols rcols : list string)
    (rs : list row) :
  merge_rows lk rk rn on lcols rcols [] rs
  = map (fun r => left_of_right on lcols rcols r ++ take rn r) rs.
Proof.
  unfold merge_rows. cbn [flat_map app existsb negb].
  rewrite filter_all; [reflexivity|]. reflexivity.
Qed.

(** X11.
    A table with no R2 file gives exactly one output row for each of its R1
    files, the file's own cells with the R2 path and md5sum missing: the
    output rows are, up to their order, the lone rows of the R1 files, so
    that none is lost, added or repeated.  Likewise a table with no R1 file
    gives exactly the lone rows of its R2 files. *)
Theorem lone_mates_surface (sf : DataFrame) :
  well_formed sf = true ->
  fresh_pivot_labels sf = true ->
  has_required sf = true ->
  exists out,
    rearrange_sequence_files sf = Ok out
    /\ (reads "R2" sf = [] ->
        Permutation (rows out) (map (r1_only_row sf) (reads "R1" sf))
        /\ row_count out = length (reads "R1" sf)
        /\ (forall x, In x (rows sf) -> is_read "R1" sf x = true ->
                      In (r1_only_row sf x) (rows out)))
    /\ (reads "R1" sf = [] ->
        Permutation (rows out) (map (r2_only_row sf) (reads "R2" sf))
        /\ row_count out = length (reads "R2" sf)
        /\ (forall y, In y (rows sf) -> is_read "R2" sf y = true ->
                      In (r2_only_row sf y) (rows out))).
Proof.
  intros _ Hfresh Hreq.
  assert (Hok : exists out,
             rearrange_sequence_files sf = Ok out
             /\ (reads "R2" sf = [] ->
                 Permutation (rows out) (map (r1_only_row sf) (reads "R1" sf)))
             /\ (reads "R1" sf = [] ->
                 Permutation (rows out) (map (r2_only_row sf) (reads "R2" sf)))).
  { destruct (empty sf) eqn:Hne.
    - exists empty_frame. split; [now apply rearrange_empty|].
      split; intros _; unfold reads;
        (rewrite filter_none; [constructor|]);
        intros x Hx; now apply empty_no_reads.
    - destruct (rearrange_total sf Hfresh Hreq Hne) as [irt [p [Hirt [Hp Hok]]]].
      eexists. split; [exact Hok|]. cbn [rows].
      split; intros Hnone; unfold pivot_rows, merged_rows;
        rewrite !(side_rows_reads sf _ irt p Hirt Hp), Hnone; cbn [map].
      + rewrite lone_left_rows.
        rewrite <- (sort_rows_perm [1; 0; 2; 5])%nat.
        rewrite <- (sort_rows_perm [0; 1; 2; 5; 6])%nat.
        rewrite !map_map. apply Permutation_refl.
      + rewrite lone_right_rows.
        rewrite <- (sort_rows_perm [1; 0; 2; 5])%nat.
        rewrite <- (sort_rows_perm [0; 1; 2; 5; 6])%nat.
        rewrite !map_map. apply Permutation_refl. }
  destruct Hok as [out [Hok [Hleft Hright]]]. exists out.
  split; [exact Hok|].
  split; intros Hnone.
  - specialize (Hleft Hnone). split; [exact Hleft|]. split.
    + unfold row_count. now rewrite (Permutation_length Hleft), length_map.
    + intros x Hx Hxt. apply (Permutation_in _ (Permutation_sym Hleft)).
      apply in_map. apply filter_In. now split.
  - specialize (Hright Hnone). split; [exact Hright|]. split.
    + unfold row_count. now rewrite (Permutation_length Hright), length_map.
    + intros y Hy Hyt. apply (Permutation_in _ (Permutation_sym Hright)).
      apply in_map. apply filter_In. now split.
Qed.

Lemma lone_mates_surface_witness :
  exists out,
    rearrange_sequence_files twin_files = Ok out
    /\ Permutation (rows out)
         (map (r1_only_row twin_files) (reads "R1" twin_files))
    /\ row_count out = 2%nat.
Proof.
  destruct (lone_mates_surface twin_files) as [out [Hok [Hr1 _]]];
    [reflexivity .. |].
  exists out. split; [exact Hok|].
  destruct (Hr1 eq_refl) as [Hperm [Hcount _]].
  split; [exact Hperm|exact Hcount].
Defined.

(** X12.
    On a well-formed table that does not already carry the four pivot
    labels, whatever the Reshaper returns is a well-formed table: either the
    table without labels and rows, or a table whose labels are the nine
    final ones and whose rows have nine cells. *)
Theorem reshaper_output_well_formed (sf out : DataFrame) :
  well_formed sf = true ->
  fresh_pivot_labels sf = true ->
  rearrange_sequence_files sf = Ok out ->
  well_formed out = true
  /\ (out = empty_frame
      \/ (columns out = final_cols
          /\ forall o, In o (rows out) -> length o = 9%nat)).
Proof.
  intros _ _ Hok. destruct (empty sf) eqn:Hne.
  - rewrite (rearrange_empty sf Hne) in Hok. inversion Hok; subst.
    split; [reflexivity|now left].
  - destruct (rearrange_inv sf out Hne Hok) as [irt [p1 [p2 [_ [_ [_ ->]]]]]].
    assert (Hlen : forall o, In o (pivot_rows irt p1 p2 (rows sf)) ->
                             length o = 9%nat).
    { intros o Ho. unfold pivot_rows in Ho. apply in_map_iff in Ho.
      destruct Ho as [m [<- _]]. reflexivity. }
    split; [|right; split; [reflexivity|exact Hlen]].
    apply well_formed_iff. cbn [columns rows]. split.
    + apply distinct_labels_NoDup. reflexivity.
    + apply Forall_forall. intros o Ho. now rewrite (Hlen o Ho).
Qed.

Lemma reshaper_output_well_formed_witness :
  well_formed
    (mkDF final_cols
       [[NaN; NaN; Str "F5"; Str "m5"; Str "MS1"; Num 1; Str "gRNA";
         Str "FC1"; Str ""];
        [Str "F3"; Str "m3"; NaN; NaN; Str "MS1"; Num 1; Str "scRNA";
         Str "FC1"; Str "SPEC1"];
        [Str "F1"; Str "m1"; Str "F2"; Str "m2"; Str "MS1"; Num 2;
         Str "scRNA"; Str "FC1"; Str "SPEC1"]]) = true.
Proof.
  apply (reshaper_output_well_formed demo_files); vm_compute; reflexivity.
Defined.

(** ** The Resolver *)

Lemma col_index_app_none (c d : string) (cols : list string) :
  col_index c cols = None -> c <> d -> col_index c (cols ++ [d]) = None.
Proof.
  intros Hc Hcd. induction cols as [|e cols IH]; simpl in *.
  - destruct (String.eqb_spec d c); [congruence|reflexivity].
  - destruct (String.eqb e c); [discriminate|].
    destruct (col_index c cols); [discriminate|].
    now rewrite IH.
Qed.

Lemma append_cells_map (g : cell -> cell) (i : nat) (rs : list row) :
  append_cells (map g (map (at_ i) rs)) rs
  = map (fun r => r ++ [g (at_ i r)]) rs.
Proof.
  induction rs as [|r rs IH]; simpl; [reflexivity|]. now rewrite IH.
Qed.

Section ResolverFacts.

Variable http_get : string -> string -> string -> option string.
Variable read_csv : string -> outcome DataFrame.
Variables analysis_set access_key secret_key text : string.
Variable parsed : DataFrame.

Hypothesis answered :
  http_get (analysis_url analysis_set) access_key secret_key = Some text.
Hypothesis parsed_ok : read_csv (tsv_data text) = Ok parsed.

(** The page as the fetcher returns it. *)
Hypothesis page_well_formed : well_formed (strip_columns parsed) = true.
Hypothesis fresh_id :
  col_index "analysis_set_id" (columns (strip_columns parsed)) = None.
Hypothesis fresh_ms :
  col_index "measurement_sets" (columns (strip_columns parsed)) = None.
Hypothesis fresh_aux :
  col_index "associated_auxiliary_sets" (columns (strip_columns parsed)) = None.

Lemma resolver_no_id :
  col_index "ID" (columns (strip_columns parsed)) = None ->
  fetch_analysis_sets http_get read_csv analysis_set access_key secret_key
  = ([analysis_url analysis_set], Failed (Exception (KeyError ["ID"]))).
Proof.
  intros Hid. unfold fetch_analysis_sets, fetch_data.
  rewrite answered, parsed_ok. cbn [bind].
  unfold setitem. rewrite fresh_id. unfold getitem. cbn [columns].
  rewrite (col_index_app_none "ID" "analysis_set_id" _ Hid) by discriminate.
  reflexivity.
Qed.

Variable i : nat.
Hypothesis id_at : col_index "ID" (columns (strip_columns parsed)) = Some i.

Lemma id_cells_after_stamp :
  map (at_ i)
    (map (fun r => r ++ [Str analysis_set]) (rows (strip_columns parsed)))
  = map (at_ i) (rows (strip_columns parsed)).
Proof.
  rewrite map_map. apply map_ext_in. intros r Hr.
  apply at_app_old.
  pose proof (well_formed_fit _ page_well_formed) as Hfit.
  unfold rows_fit in Hfit. rewrite Forall_forall in Hfit.
  rewrite (Hfit r Hr). now apply (col_index_bound "ID").
Qed.

Lemma resolver_no_text :
  text_column (map (at_ i) (rows (strip_columns parsed))) = false ->
  fetch_analysis_sets http_get read_csv analysis_set access_key secret_key
  = ([analysis_url analysis_set],
     Failed (AttributeError "Can only use .str accessor with string values!")).
Proof.
  intros Htext. unfold fetch_analysis_sets, fetch_data.
  rewrite answered, parsed_ok. cbn [bind].
  unfold setitem. rewrite fresh_id. unfold getitem. cbn [columns rows].
  rewrite (col_index_app_old "ID" "analysis_set_id" _ i id_at).
  unfold str_extract_column. rewrite id_cells_after_stamp, Htext. reflexivity.
Qed.

Hypothesis id_texts :
  text_column (map (at_ i) (rows (strip_columns parsed))) = true.

(** The table just before the renaming and the final selection. *)
Lemma resolver_before_selection :
  fetch_analysis_sets http_get read_csv analysis_set access_key secret_key
  = ([analysis_url analysis_set],
     of_outcome
       (getitems
          (rename
             (mkDF ((columns (strip_columns parsed) ++ ["analysis_set_id"])
                    ++ ["measurement_sets"])
                   (map (fun r =>
                           (r ++ [Str analysis_set])
                           ++ [str_extract measurement_lit (at_ i r)])
                        (rows (strip_columns parsed))))
             [("Auxiliary Sets", "associated_auxiliary_sets")])
          ["analysis_set_id"; "measurement_sets"; "associated_auxiliary_sets"])).
Proof.
  unfold fetch_analysis_sets, fetch_data.
  rewrite answered, parsed_ok. cbn [bind].
  unfold setitem. rewrite fresh_id. unfold getitem. cbn [columns rows].
  rewrite (col_index_app_old "ID" "analysis_set_id" _ i id_at).
  unfold str_extract_column. rewrite id_cells_after_stamp at 1.
  rewrite id_texts.
  unfold setitem_column. cbn [columns rows].
  rewrite (col_index_app_none "measurement_sets" "analysis_set_id" _ fresh_ms)
    by discriminate.
  rewrite append_cells_map, map_map.
  do 5 f_equal. apply map_ext_in. intros r Hr. do 3 f_equal.
  apply at_app_old.
  pose proof (well_formed_fit _ page_well_formed) as Hfit.
  unfold rows_fit in Hfit. rewrite Forall_forall in Hfit.
  rewrite (Hfit r Hr). now apply (col_index_bound "ID").
Qed.

End ResolverFacts.

Lemma rename_aux_keeps (c : string) (cols : list string) :
  c <> "Auxiliary Sets" -> c <> "associated_auxiliary_sets" ->
  col_index c
    (map (rename_label [("Auxiliary Sets", "associated_auxiliary_sets")]) cols)
  = col_index c cols.
Proof.
  intros H1 H2. apply col_index_map. intros d _. cbn [rename_label].
  destruct (String.eqb_spec "Auxiliary Sets" d) as [<-|Hd]; [|reflexivity].
  destruct (String.eqb_spec "associated_auxiliary_sets" c); [congruence|].
  destruct (String.eqb_spec "Auxiliary Sets" c); [congruence|reflexivity].
Qed.

Lemma rename_aux_target (cols : list string) :
  col_index "associated_auxiliary_sets" cols = None ->
  col_index "associated_auxiliary_sets"
    (map (rename_label [("Auxiliary Sets", "associated_auxiliary_sets")]) cols)
  = col_index "Auxiliary Sets" cols.
Proof.
  intros Hnone. apply col_index_map. intros d Hd. cbn [rename_label].
  destruct (String.eqb_spec "Auxiliary Sets" d) as [<-|Hne]; [reflexivity|].
  destruct (String.eqb_spec d "associated_auxiliary_sets") as [->|Hd'].
  - apply has_label_In in Hd. unfold has_label in Hd. now rewrite Hnone in Hd.
  - destruct (String.eqb_spec d "Auxiliary Sets"); [congruence|reflexivity].
Qed.

Section ResolverColumns.

Variable cols : list string.
Hypothesis fresh_id : col_index "analysis_set_id" cols = None.
Hypothesis fresh_ms : col_index "measurement_sets" cols = None.
Hypothesis fresh_aux : col_index "associated_auxiliary_sets" cols = None.

Lemma resolver_id_position :
  col_index "analysis_set_id"
    (map (rename_label [("Auxiliary Sets", "associated_auxiliary_sets")])
       ((cols ++ ["analysis_set_id"]) ++ ["measurement_sets"]))
  = Some (length cols).
Proof.
  rewrite rename_aux_keeps by discriminate.
  apply col_index_app_old. now apply col_index_app_new.
Qed.

Lemma resolver_ms_position :
  col_index "measurement_sets"
    (map (rename_label [("Auxiliary Sets", "associated_auxiliary_sets")])
       ((cols ++ ["analysis_set_id"]) ++ ["measurement_sets"]))
  = Some (S (length cols)).
Proof.
  rewrite rename_aux_keeps by discriminate.
  rewrite col_index_app_new.
  - rewrite length_app. cbn [length]. f_equal. lia.
  - now apply col_index_app_none.
Qed.

Lemma resolver_aux_position :
  col_index "associated_auxiliary_sets"
    (map (rename_label [("Auxiliary Sets", "associated_auxiliary_sets")])
       ((cols ++ ["analysis_set_id"]) ++ ["measurement_sets"]))
  = col_index "Auxiliary Sets" cols.
Proof.
  rewrite rename_aux_target.
  - destruct (col_index "Auxiliary Sets" cols) as [j|] eqn:Hj.
    + now do 2 apply col_index_app_old.
    + apply col_index_app_none; [|discriminate].
      apply col_index_app_none; [exact Hj|discriminate].
  - apply col_index_app_none; [|discriminate].
    apply col_index_app_none; [exact fresh_aux|discriminate].
Qed.

End ResolverColumns.

(** X13.
    When the page of the analysis set is answered and parsed, has the
    columns 'ID' and 'Auxiliary Sets', and its 'ID' column holds a text or
    is empty, the Resolver makes one request and returns a table with
    exactly the labels analysis_set_id, measurement_sets and
    associated_auxiliary_sets: one row per row of the page, in order,
    holding the analysis set asked for, the segment after
    '/measurement-sets/' in 'ID' (missing when there is none) and the
    'Auxiliary Sets' cell as it is. *)
Theorem resolver_links
    (http_get : string -> string -> string -> option string)
    (read_csv : string -> outcome DataFrame)
    (analysis_set access_key secret_key text : string)
    (parsed : DataFrame) (i j : nat) :
  http_get (analysis_url analysis_set) access_key secret_key = Some text ->
  read_csv (tsv_data text) = Ok parsed ->
  well_formed (strip_columns parsed) = true ->
  col_index "analysis_set_id" (columns (strip_columns parsed)) = None ->
  col_index "measurement_sets" (columns (strip_columns parsed)) = None ->
  col_index "associated_auxiliary_sets" (columns (strip_columns parsed)) = None ->
  col_index "ID" (columns (strip_columns parsed)) = Some i ->
  col_index "Auxiliary Sets" (columns (strip_columns parsed)) = Some j ->
  text_column (map (at_ i) (rows (strip_columns parsed))) = true ->
  fetch_analysis_sets http_get read_csv analysis_set access_key secret_key
  = ([analysis_url analysis_set],
     Returned
       (mkDF ["analysis_set_id"; "measurement_sets"; "associated_auxiliary_sets"]
          (map (fun r =>
                  [Str analysis_set;
                   str_extract measurement_lit (at_ i r);
                   at_ j r])
               (rows (strip_columns parsed))))).
Proof.
  intros Hget Hparsed Hwf Hid Hms Haux Hi Hj Htext.
  rewrite (resolver_before_selection http_get read_csv analysis_set
             access_key secret_key text parsed Hget Hparsed Hwf Hid Hms
             i Hi Htext).
  unfold getitems, rename. cbn [columns rows locate].
  rewrite (resolver_id_position _ Hid), (resolver_ms_position _ Hms),
    (resolver_aux_position _ Haux), Hj.
  cbn [of_outcome]. do 3 f_equal. rewrite map_map.
  apply map_ext_in. intros r Hr.
  pose proof (well_formed_fit _ Hwf) as Hfit.
  unfold rows_fit in Hfit. rewrite Forall_forall in Hfit.
  specialize (Hfit r Hr).
  destruct (col_index_bound _ _ _ Hj) as [Hjlt _].
  unfold take. cbn [map]. rewrite <- Hfit.
  f_equal; [|f_equal; [|f_equal]].
  - rewrite at_app_old by (rewrite length_app; simpl; lia).
    apply at_app_last.
  - replace (S (length r)) with (length (r ++ [Str analysis_set]))
      by (rewrite length_app; simpl; lia).
    apply at_app_last.
  - rewrite !at_app_old; [reflexivity|lia|rewrite length_app; simpl; lia].
Qed.

Lemma resolver_links_witness :
  fetch_analysis_sets (site_get demo_catalog) tsv_reader "IGVFDS0001"
    "key" "secret"
  = ([analysis_url "IGVFDS0001"],
     Returned
       (mkDF ["analysis_set_id"; "measurement_sets"; "associated_auxiliary_sets"]
          [[Str "IGVFDS0001"; Str "IGVFDS0002"; Str (ref3 ++ ", " ++ ref4)]])).
Proof.
  apply (resolver_links (site_get demo_catalog) tsv_reader "IGVFDS0001"
           "key" "secret" analysis_page
           (mkDF ["ID"; "Auxiliary Sets"; "Input For"]
              [[Str "/measurement-sets/IGVFDS0002/"; Str (ref3 ++ ", " ++ ref4);
                Str "/analysis-sets/IGVFDS0001/"]]) 0 1);
    vm_compute; reflexivity.
Defined.

(** X14.
    The ways the Resolver fails once the page is answered and parsed: a
    page without 'ID' raises a KeyError for it; an 'ID' column with rows
    but no text raises the AttributeError of the [.str] accessor; a page
    without 'Auxiliary Sets' raises a KeyError for
    associated_auxiliary_sets, the label asked for after the renaming.  In
    each case the one request has been made. *)
Theorem resolver_failures
    (http_get : string -> string -> string -> option string)
    (read_csv : string -> outcome DataFrame)
    (analysis_set access_key secret_key text : string)
    (parsed : DataFrame) :
  http_get (analysis_url analysis_set) access_key secret_key = Some text ->
  read_csv (tsv_data text) = Ok parsed ->
  well_formed (strip_columns parsed) = true ->
  col_index "analysis_set_id" (columns (strip_columns parsed)) = None ->
  col_index "measurement_sets" (columns (strip_columns parsed)) = None ->
  col_index "associated_auxiliary_sets" (columns (strip_columns parsed)) = None ->
  (col_index "ID" (columns (strip_columns parsed)) = None ->
   fetch_analysis_sets http_get read_csv analysis_set access_key secret_key
   = ([analysis_url analysis_set], Failed (Exception (KeyError ["ID"]))))
  /\ (forall i,
        col_index "ID" (columns (strip_columns parsed)) = Some i ->
        text_column (map (at_ i) (rows (strip_columns parsed))) = false ->
        fetch_analysis_sets http_get read_csv analysis_set access_key secret_key
        = ([analysis_url analysis_set],
           Failed (AttributeError
                     "Can only use .str accessor with string values!")))
  /\ (forall i,
        col_index "ID" (columns (strip_columns parsed)) = Some i ->
        text_column (map (at_ i) (rows (strip_columns parsed))) = true ->
        col_index "Auxiliary Sets" (columns (strip_columns parsed)) = None ->
        fetch_analysis_sets http_get read_csv analysis_set access_key secret_key
        = ([analysis_url analysis_set],
           Failed (Exception (KeyError ["associated_auxiliary_sets"])))).
Proof.
  intros Hget Hparsed Hwf Hid Hms Haux. split; [|split].
  - intros Hnone.
    exact (resolver_no_id http_get read_csv analysis_set access_key secret_key
             text parsed Hget Hparsed Hid Hnone).
  - intros i Hi Htext.
    exact (resolver_no_text http_get read_csv analysis_set access_key
             secret_key text parsed Hget Hparsed Hwf Hid i Hi Htext).
  - intros i Hi Htext Hnone.
    rewrite (resolver_before_selection http_get read_csv analysis_set
               access_key secret_key text parsed Hget Hparsed Hwf Hid Hms
               i Hi Htext).
    unfold getitems, rename. cbn [columns rows locate filter].
    unfold has_label.
    rewrite (resolver_id_position _ Hid), (resolver_ms_position _ Hms),
      (resolver_aux_position _ Haux), Hnone.
    reflexivity.
Qed.

Lemma resolver_failures_witness :
  fetch_analysis_sets (site_get [(analysis_url "IGVFDS0002", ids_only_page)])
    tsv_reader "IGVFDS0002" "key" "secret"
  = ([analysis_url "IGVFDS0002"],
     Failed (Exception (KeyError ["associated_auxiliary_sets"]))).
Proof.
  destruct (resolver_failures
              (site_get [(analysis_url "IGVFDS0002", ids_only_page)])
              tsv_reader "IGVFDS0002" "key" "secret" ids_only_page
              (mkDF ["ID"] [[Str "/measurement-sets/IGVFDS0007/"]]))
    as [_ [_ Hnoaux]]; [vm_compute; reflexivity .. |].
  apply (Hnoaux 0%nat); vm_compute; reflexivity.
Defined.

(** ** The driver *)

Lemma saved_not_requested (path : string) (t : DataFrame) (log : list string) :
  ~ In (Saved path t) (map Requested log).
Proof.
  intros H. apply in_map_iff in H. destruct H as [url [Heq _]]. discriminate.
Qed.

(** X15.
    What [main] lets be seen, in order.  If the Resolver fails, or the
    transport fails on the first request, nothing is written and the status
    is 1.  If the Resolver returns, its table is written right after its
    requests and before any request for sequence files, whatever happens
    next; the per-sample table is written only as the very last event, with
    status 0, when both the Enumerator and the Reshaper have returned. *)
Theorem main_order_of_effects
    (http_get : string -> string -> string -> option string)
    (read_csv : string -> outcome DataFrame)
    (analysis_set_id access_key secret_key : string)
    (per_sample_output analysis_set_output : string) :
  (forall log1 links,
     fetch_analysis_sets http_get read_csv analysis_set_id access_key secret_key
     = (log1, Returned links) ->
     exists seen status,
       main http_get read_csv analysis_set_id access_key secret_key
         per_sample_output analysis_set_output
       = (map Requested log1 ++ Saved analysis_set_output links :: seen, status)
       /\ forall path t,
            In (Saved path t) seen ->
            status = 0%Z /\ path = per_sample_output
            /\ exists log2 data,
                 get_sequence_files http_get read_csv links access_key secret_key
                 = (log2, Ok data)
                 /\ rearrange_sequence_files data = Ok t
                 /\ seen = map Requested log2 ++ [Saved per_sample_output t])
  /\ (forall log1 f,
        fetch_analysis_sets http_get read_csv analysis_set_id
          access_key secret_key = (log1, Failed f) ->
        main http_get read_csv analysis_set_id access_key secret_key
          per_sample_output analysis_set_output
        = (map Requested log1, 1%Z))
  /\ (http_get (analysis_url analysis_set_id) access_key secret_key = None ->
      main http_get read_csv analysis_set_id access_key secret_key
        per_sample_output analysis_set_output
      = ([Requested (analysis_url analysis_set_id)], 1%Z)).
Proof.
  split; [|split].
  - intros log1 links Hres. unfold main. rewrite Hres.
    destruct (get_sequence_files http_get read_csv links access_key secret_key)
      as [log2 [data|e|c]] eqn:Henum.
    + destruct (rearrange_sequence_files data) as [t|e|c] eqn:Hpivot.
      * exists (map Requested log2 ++ [Saved per_sample_output t]), 0%Z.
        split; [now rewrite <- !app_assoc|].
        intros path t' Hin. apply in_app_or in Hin.
        destruct Hin as [Hin|[Heq|[]]];
          [now apply saved_not_requested in Hin|].
        inversion Heq; subst. repeat split. exists log2, data. auto.
      * exists (map Requested log2), 1%Z. split; [reflexivity|].
        intros path t Hin. now apply saved_not_requested in Hin.
      * exists (map Requested log2), c. split; [reflexivity|].
        intros path t Hin. now apply saved_not_requested in Hin.
    + exists (map Requested log2), 1%Z. split; [reflexivity|].
      intros path t Hin. now apply saved_not_requested in Hin.
    + exists (map Requested log2), c. split; [reflexivity|].
      intros path t Hin. now apply saved_not_requested in Hin.
  - intros log1 f Hres. unfold main. now rewrite Hres.
  - intros Hget. unfold main, fetch_analysis_sets, fetch_data.
    now rewrite Hget.
Qed.

(** X16.
    An analysis set with no measurement set, from end to end: whenever the
    Resolver returns a table without rows, [main] writes that table,
    requests no sequence file, writes the table without labels and rows as
    the per-sample table, and ends with status 0. *)
Theorem main_without_measurement_sets
    (http_get : string -> string -> string -> option string)
    (read_csv : string -> outcome DataFrame)
    (analysis_set_id access_key secret_key : string)
    (per_sample_output analysis_set_output : string)
    (log1 : list string) (links : DataFrame) :
  fetch_analysis_sets http_get read_csv analysis_set_id access_key secret_key
  = (log1, Returned links) ->
  rows links = [] ->
  main http_get read_csv analysis_set_id access_key secret_key
    per_sample_output analysis_set_output
  = (map Requested log1
     ++ [Saved analysis_set_output links; Saved per_sample_output empty_frame],
     0%Z).
Proof.
  intros Hres Hrows. unfold main. rewrite Hres.
  destruct links as [cols rs]. cbn [rows] in Hrows. subst rs.
  unfold get_sequence_files. cbn [rows links_loop io_bind ret].
  rewrite (rearrange_empty empty_frame eq_refl). cbn [map app].
  now rewrite <- app_assoc.
Qed.

Lemma main_without_measurement_sets_witness :
  main (site_get [(analysis_url "IGVFDS0001",
                   tsv_body "2024-05-01 10:00:00.000000"
                     [["ID"; "Auxiliary Sets"; "Input For"]])])
    tsv_reader "IGVFDS0001" "key" "secret"
    "per_sample_file.tsv" "analysis_sets.tsv"
  = ([Requested (analysis_url "IGVFDS0001");
      Saved "analysis_sets.tsv"
        (mkDF ["analysis_set_id"; "measurement_sets";
               "associated_auxiliary_sets"] []);
      Saved "per_sample_file.tsv" empty_frame], 0%Z).
Proof.
  apply (main_without_measurement_sets _ tsv_reader "IGVFDS0001" "key" "secret"
           "per_sample_file.tsv" "analysis_sets.tsv"
           [analysis_url "IGVFDS0001"]
           (mkDF ["analysis_set_id"; "measurement_sets";
                  "associated_auxiliary_sets"] []));
    vm_compute; reflexivity.
Defined.

(** ** Which failures can occur *)

Lemma rearrange_never_exits (sf : DataFrame) (c : Z) :
  rearrange_sequence_files sf <> Exit c.
Proof.
  destruct (empty sf) eqn:Hne.
  - rewrite (rearrange_empty sf Hne). discriminate.
  - rewrite (rearrange_nonempty sf Hne).
    destruct (col_index _ _); [|discriminate].
    destruct (locate r1_cols _); [|discriminate].
    destruct (locate r2_cols _); discriminate.
Qed.

Section ExpectedFailures.

Variable http_get : string -> string -> string -> option string.
Variable read_csv : string -> outcome DataFrame.
Variables access_key secret_key : string.

Lemma expected_bind {A B : Type} (m : io A) (k : A -> io B) :
  expected_failure read_csv (result_of m) ->
  (forall a, expected_failure read_csv (result_of (k a))) ->
  expected_failure read_csv (result_of (io_bind m k)).
Proof.
  destruct m as [log [a|e|c]]; cbn [io_bind result_of snd]; intros Hm Hk;
    try exact Hm.
  specialize (Hk a). destruct (k a) as [log' o]. exact Hk.
Qed.

Lemma fetch_data_expected (url : string) :
  expected_failure read_csv
    (result_of (fetch_data http_get read_csv url access_key secret_key)).
Proof.
  unfold fetch_data, result_of. cbn [snd].
  destruct (http_get url access_key secret_key) as [text|]; [|now left].
  destruct (read_csv (tsv_data text)) as [df|e|c] eqn:Hp; cbn [bind].
  - exact I.
  - right. eauto.
  - right. eauto.
Qed.

Lemma fetch_stamped_expected (url : string) (m : cell) (label : string) :
  expected_failure read_csv
    (result_of (fetch_stamped http_get read_csv url m label
                  access_key secret_key)).
Proof.
  unfold fetch_stamped. apply expected_bind; [apply fetch_data_expected|].
  intros df. exact I.
Qed.

Lemma second_to_last_expected (s : string) :
  expected_failure read_csv (second_to_last s).
Proof.
  unfold second_to_last. destruct (_ <? _)%nat; [now left|exact I].
Qed.

Lemma aux_loop_expected (m : cell) (pairs : list (string * string))
    (tables : list DataFrame) :
  expected_failure read_csv
    (result_of (aux_loop http_get read_csv m pairs access_key secret_key tables)).
Proof.
  revert tables; induction pairs as [|[label ref] pairs IH]; intros tables.
  - exact I.
  - cbn [aux_loop]. apply expected_bind; [apply second_to_last_expected|].
    intros id. apply expected_bind; [apply fetch_stamped_expected|].
    intros df. apply IH.
Qed.

Variable result : DataFrame.
Hypothesis has_ms : has_label "measurement_sets" (columns result) = true.
Hypothesis has_aux :
  has_label "associated_auxiliary_sets" (columns result) = true.

Lemma link_step_expected (r : row) (tables : list DataFrame) :
  expected_failure read_csv
    (result_of (link_step http_get read_csv result r access_key secret_key
                  tables)).
Proof.
  unfold link_step, row_get. unfold has_label in has_ms, has_aux.
  destruct (col_index "measurement_sets" (columns result)); [|discriminate].
  destruct (col_index "associated_auxiliary_sets" (columns result));
    [|discriminate].
  apply expected_bind; [exact I|]. intros m.
  apply expected_bind; [apply fetch_stamped_expected|]. intros df.
  apply expected_bind; [exact I|]. intros aux.
  destruct (notna aux); [|exact I].
  destruct (_ =? _)%nat.
  - apply expected_bind; [apply second_to_last_expected|]. intros id.
    apply expected_bind; [apply fetch_stamped_expected|]. intros df1. exact I.
  - apply aux_loop_expected.
Qed.

Lemma links_loop_expected (rs : list row) (tables : list DataFrame) :
  expected_failure read_csv
    (result_of (links_loop http_get read_csv result rs access_key secret_key
                  tables)).
Proof.
  revert tables; induction rs as [|r rs IH]; intros tables; [exact I|].
  cbn [links_loop]. apply expected_bind; [apply link_step_expected|].
  intros tables'. apply IH.
Qed.

Lemma get_sequence_files_expected :
  expected_failure read_csv
    (result_of (get_sequence_files http_get read_csv result
                  access_key secret_key)).
Proof.
  unfold get_sequence_files. apply expected_bind; [apply links_loop_expected|].
  intros tables. exact I.
Qed.

End ExpectedFailures.

Lemma resolver_columns
    (http_get : string -> string -> string -> option string)
    (read_csv : string -> outcome DataFrame)
    (analysis_set access_key secret_key : string)
    (log : list string) (links : DataFrame) :
  fetch_analysis_sets http_get read_csv analysis_set access_key secret_key
  = (log, Returned links) ->
  columns links
  = ["analysis_set_id"; "measurement_sets"; "associated_auxiliary_sets"].
Proof.
  unfold fetch_analysis_sets.
  destruct (fetch_data http_get read_csv (analysis_url analysis_set)
              access_key secret_key) as [log0 [df|e|c]]; try discriminate.
  destruct (getitem _ "ID") as [ids|e|c]; try discriminate.
  destruct (str_extract_column measurement_lit ids) as [ex|f|c];
    try discriminate.
  unfold getitems. destruct (locate _ _); cbn [of_outcome]; [|discriminate].
  intros H. inversion H; subst. reflexivity.
Qed.

Lemma resolver_exit
    (http_get : string -> string -> string -> option string)
    (read_csv : string -> outcome DataFrame)
    (analysis_set access_key secret_key : string)
    (log : list string) (c : Z) :
  fetch_analysis_sets http_get read_csv analysis_set access_key secret_key
  = (log, Exited c) ->
  c = 1%Z \/ exists text, read_csv text = Exit c.
Proof.
  unfold fetch_analysis_sets.
  pose proof (fetch_data_expected http_get read_csv access_key secret_key
                (analysis_url analysis_set)) as Hexp.
  destruct (fetch_data http_get read_csv (analysis_url analysis_set)
              access_key secret_key) as [log0 [df|e|c0]];
    cbn [result_of snd expected_failure] in Hexp; try discriminate.
  - unfold getitem. destruct (col_index "ID" _); [|discriminate].
    unfold str_extract_column. destruct (text_column _); [|discriminate].
    unfold getitems. destruct (locate _ _); discriminate.
  - intros H. inversion H; subst. exact Hexp.
Qed.

(** X17.
    Take an analysis-set page that is well formed and carries none of the
    three link labels yet, and let every page the fetcher returns be well
    formed.  Then the table the Resolver returns has exactly the three link
    columns, and on it the Enumerator never raises a KeyError of its own:
    an exception it raises is the IndexError of an auxiliary reference
    without '/' or one the parser raised on a page, and an exit has status
    1 (failed transport) unless the parser itself exits. *)
Theorem enumerator_failures_in_pipeline
    (http_get : string -> string -> string -> option string)
    (read_csv : string -> outcome DataFrame)
    (analysis_set access_key secret_key text : string)
    (parsed : DataFrame) (log1 : list string) (links : DataFrame) :
  http_get (analysis_url analysis_set) access_key secret_key = Some text ->
  read_csv (tsv_data text) = Ok parsed ->
  well_formed (strip_columns parsed) = true ->
  col_index "analysis_set_id" (columns (strip_columns parsed)) = None ->
  col_index "measurement_sets" (columns (strip_columns parsed)) = None ->
  col_index "associated_auxiliary_sets" (columns (strip_columns parsed)) = None ->
  (forall url page,
     result_of (fetch_data http_get read_csv url access_key secret_key)
     = Ok page ->
     well_formed page = true) ->
  fetch_analysis_sets http_get read_csv analysis_set access_key secret_key
  = (log1, Returned links) ->
  columns links
  = ["analysis_set_id"; "measurement_sets"; "associated_auxiliary_sets"]
  /\ (forall log e,
        get_sequence_files http_get read_csv links access_key secret_key
        = (log, Raise e) ->
        e = IndexError \/ exists text, read_csv text = Raise e)
  /\ (forall log c,
        get_sequence_files http_get read_csv links access_key secret_key
        = (log, Exit c) ->
        c = 1%Z \/ exists text, read_csv text = Exit c).
Proof.
  intros _ _ _ _ _ _ _ Hres.
  pose proof (resolver_columns _ _ _ _ _ _ _ Hres) as Hcols.
  split; [exact Hcols|].
  assert (Hexp := get_sequence_files_expected http_get read_csv
                    access_key secret_key links).
  rewrite Hcols in Hexp. specialize (Hexp eq_refl eq_refl).
  split; intros log x Hrun; rewrite Hrun in Hexp; exact Hexp.
Qed.

Lemma enumerator_failures_in_pipeline_witness :
  get_sequence_files (site_get slashless_catalog) tsv_reader
    (mkDF ["analysis_set_id"; "measurement_sets"; "associated_auxiliary_sets"]
       [[Str "IGVFDS0001"; Str "IGVFDS0002"; Str "IGVFDS0003"]])
    "key" "secret"
  = ([ms_url "IGVFDS0002"], Raise IndexError)
  /\ (IndexError = IndexError
      \/ exists text, tsv_reader text = Raise IndexError).
Proof.
  split; [vm_compute; reflexivity|].
  destruct (enumerator_failures_in_pipeline
              (site_get slashless_catalog) tsv_reader
              "IGVFDS0001" "key" "secret" slashless_page
              (mkDF ["ID"; "Auxiliary Sets"]
                 [[Str "/measurement-sets/IGVFDS0002/"; Str "IGVFDS0003"]])
              [analysis_url "IGVFDS0001"]
              (mkDF ["analysis_set_id"; "measurement_sets";
                     "associated_auxiliary_sets"]
                 [[Str "IGVFDS0001"; Str "IGVFDS0002"; Str "IGVFDS0003"]]))
    as [_ [Hraise _]].
  - vm_compute; reflexivity.
  - vm_compute; reflexivity.
  - vm_compute; reflexivity.
  - vm_compute; reflexivity.
  - vm_compute; reflexivity.
  - vm_compute; reflexivity.
  - intros url page. unfold fetch_data, result_of. cbn [snd].
    unfold slashless_catalog, demo_site. cbn [site_get].
    destruct (String.eqb (analysis_url "IGVFDS0001") url);
      [intros H; vm_compute in H; inversion H; reflexivity|].
    destruct (String.eqb (ms_url "IGVFDS0002") url);
      [intros H; vm_compute in H; inversion H; reflexivity|].
    destruct (String.eqb (aux_url "IGVFDS0003") url);
      [intros H; vm_compute in H; inversion H; reflexivity|].
    destruct (String.eqb (aux_url "IGVFDS0004") url);
      [intros H; vm_compute in H; inversion H; reflexivity|].
    discriminate.
  - vm_compute; reflexivity.
  - apply (Hraise [ms_url "IGVFDS0002"] IndexError).
    vm_compute; reflexivity.
Defined.

(** X18.
    Provided the parser never exits the process, [main] ends with status
    0 or 1, and status 0 means that the per-sample table was written as the
    last event. *)
Theorem main_exit_status
    (http_get : string -> string -> string -> option string)
    (read_csv : string -> outcome DataFrame)
    (analysis_set_id access_key secret_key : string)
    (per_sample_output analysis_set_output : string) :
  (forall text c, read_csv text <> Exit c) ->
  (snd (main http_get read_csv analysis_set_id access_key secret_key
          per_sample_output analysis_set_output) = 0%Z
   \/ snd (main http_get read_csv analysis_set_id access_key secret_key
             per_sample_output analysis_set_output) = 1%Z)
  /\ (snd (main http_get read_csv analysis_set_id access_key secret_key
             per_sample_output analysis_set_output) = 0%Z ->
      exists seen t,
        fst (main http_get read_csv analysis_set_id access_key secret_key
               per_sample_output analysis_set_output)
        = seen ++ [Saved per_sample_output t]).
Proof.
  intros Hparser.
  assert (Hone : forall c, (c = 1%Z \/ exists text, read_csv text = Exit c) ->
                           c = 1%Z).
  { intros c [Hc|[text Ht]]; [exact Hc|]. now contradiction (Hparser text c). }
  unfold main.
  destruct (fetch_analysis_sets http_get read_csv analysis_set_id
              access_key secret_key) as [log1 [links|f|c]] eqn:Hres.
  - assert (Hexp := get_sequence_files_expected http_get read_csv
                      access_key secret_key links).
    rewrite (resolver_columns _ _ _ _ _ _ _ Hres) in Hexp.
    specialize (Hexp eq_refl eq_refl).
    destruct (get_sequence_files http_get read_csv links access_key secret_key)
      as [log2 [data|e|c]] eqn:Hrun; cbn [result_of snd expected_failure] in Hexp.
    + destruct (rearrange_sequence_files data) as [t|e|c] eqn:Hpivot;
        cbn [fst snd].
      * split; [now left|]. intros _.
        exists (map Requested log1 ++ [Saved analysis_set_output links]
                ++ map Requested log2), t.
        reflexivity.
      * split; [now right|discriminate].
      * now contradiction (rearrange_never_exits data c).
    + cbn [fst snd]. split; [now right|discriminate].
    + cbn [fst snd]. rewrite (Hone c Hexp).
      split; [now right|discriminate].
  - cbn [fst snd]. split; [now right|discriminate].
  - cbn [fst snd].
    rewrite (Hone c (resolver_exit _ _ _ _ _ _ _ Hres)).
    split; [now right|discriminate].
Qed.

Lemma main_exit_status_witness :
  (snd (main (site_get demo_catalog) tsv_reader "IGVFDS0001" "key" "secret"
          "per_sample_file.tsv" "analysis_sets.tsv") = 0%Z
   \/ snd (main (site_get demo_catalog) tsv_reader "IGVFDS0001" "key" "secret"
             "per_sample_file.tsv" "analysis_sets.tsv") = 1%Z)
  /\ (snd (main (site_get demo_catalog) tsv_reader "IGVFDS0001" "key" "secret"
             "per_sample_file.tsv" "analysis_sets.tsv") = 0%Z ->
      exists seen t,
        fst (main (site_get demo_catalog) tsv_reader "IGVFDS0001" "key"
               "secret" "per_sample_file.tsv" "analysis_sets.tsv")
        = seen ++ [Saved "per_sample_file.tsv" t]).
Proof.
  apply (main_exit_status (site_get demo_catalog) tsv_reader "IGVFDS0001"
           "key" "secret" "per_sample_file.tsv" "analysis_sets.tsv").
  intros text c. unfold tsv_reader.
  destruct (filter _ (PyStr.split PyStr.LF text)); discriminate.
Defined.
